(** * YouTube clip downloader: the download-and-trim pipeline and its helpers

    A shallow embedding of [Downloader.py]: the URL and timestamp validators,
    the file-name sanitiser, [run_command], [download_and_clip] and the
    methods of the window, [YTClipperApp].

    Python [str] values are modelled as [string]; a character is an [ascii]
    (code points 0..255).  The file system is the set of paths of the
    regular files that exist; directories and permissions are not kept.
    So creating the download directory fails when a regular file is in
    its way or when the environment says so, and removing a file fails
    only when the file is missing: a removal that the system refuses (a
    permission, a file in use) is left out, and what is proved of a run
    holds where removing an existing file succeeds.  The two callbacks
    are taken to return: [status_callback] records its message and
    [cancel_callback] answers as the environment says.  What the program
    cannot decide is given by an [environment]: how each subprocess it
    starts behaves, what the cancellation predicate answers each time it
    is called, and whether the download directory can be created.  A run
    is a function from states to a result (or a raised exception) and a
    state; the state also records the status messages, the subprocesses
    started, each with the moment it was started at, and the signals sent,
    so that properties can speak of them. *)

From Stdlib Require Import Ascii String List ZArith Bool Lia.
From Stdlib Require Import DecimalString.
From stdpp Require Import base decidable gmap strings.
Import ListNotations.

Local Open Scope string_scope.
Local Open Scope list_scope.

(** ** Python string primitives *)

Module PyStr.

Definition chars (s : string) : list ascii := list_ascii_of_string s.
Definition str (l : list ascii) : string := string_of_list_ascii l.

(** [c in s] for a one-character [c]. *)
Definition char_in (c : ascii) (s : string) : bool :=
  existsb (Ascii.eqb c) (chars s).

(** [s.replace(old, new)] for one-character [old] and [new]. *)
Definition replace_char (old new : ascii) (s : string) : string :=
  str (map (fun c => if Ascii.eqb c old then new else c) (chars s)).

Fixpoint lstrip_list (p : ascii -> bool) (l : list ascii) : list ascii :=
  match l with
  | [] => []
  | c :: l' => if p c then lstrip_list p l' else l
  end.

Definition rstrip_list (p : ascii -> bool) (l : list ascii) : list ascii :=
  rev (lstrip_list p (rev l)).

Definition strip_list (p : ascii -> bool) (l : list ascii) : list ascii :=
  rstrip_list p (lstrip_list p l).

(** [s.strip(cs)]: leading and trailing characters of [cs] removed. *)
Definition strip_chars (cs : string) (s : string) : string :=
  str (strip_list (fun c => char_in c cs) (chars s)).

(** [str.isspace] on the code points below 256. *)
Definition isspace (c : ascii) : bool :=
  let n := N_of_ascii c in
  ((9 <=? n) && (n <=? 13) || (28 <=? n) && (n <=? 32)
   || (n =? 133) || (n =? 160))%N.

(** [s.strip()] *)
Definition strip (s : string) : string :=
  str (strip_list isspace (chars s)).

(** [s[:n]] *)
Definition take (n : nat) (s : string) : string :=
  str (firstn n (chars s)).

(** [string.ascii_letters + string.digits] membership *)
Definition is_letter (c : ascii) : bool :=
  let n := N_of_ascii c in
  ((65 <=? n) && (n <=? 90) || (97 <=? n) && (n <=? 122))%N.

Definition is_digit (c : ascii) : bool :=
  let n := N_of_ascii c in ((48 <=? n) && (n <=? 57))%N.

Definition single_quote : ascii := "'"%char.
Definition double_quote : ascii := ascii_of_nat 34.
Definition backslash : ascii := "\"%char.

(** [str.isprintable] on the code points below 256. *)
Definition isprintable (c : ascii) : bool :=
  let n := N_of_ascii c in
  ((32 <=? n) && (n <=? 126) || (161 <=? n) && negb (n =? 173))%N.

Definition hex_digit (n : N) : ascii :=
  nth (N.to_nat n) (chars "0123456789abcdef") "0"%char.

(** One character of [repr(s)], between quotes [quote]. *)
Definition repr_char (quote c : ascii) : list ascii :=
  let n := N_of_ascii c in
  if Ascii.eqb c quote || Ascii.eqb c backslash then [backslash; c]
  else if (n =? 9)%N then [backslash; "t"%char]
  else if (n =? 10)%N then [backslash; "n"%char]
  else if (n =? 13)%N then [backslash; "r"%char]
  else if isprintable c then [c]
  else [backslash; "x"%char; hex_digit (n / 16); hex_digit (n mod 16)].

(** [repr(s)]: single quotes, unless [s] has a single quote and no double
    quote. *)
Definition repr (s : string) : string :=
  let l := chars s in
  let quote :=
    if existsb (Ascii.eqb single_quote) l && negb (existsb (Ascii.eqb double_quote) l)
    then double_quote else single_quote in
  str (quote :: flat_map (repr_char quote) l ++ [quote]).

End PyStr.

(** ** [sanitize_filename] *)

(** The double-quote character, written by its code point. *)
Definition dquote : string := String (ascii_of_nat 34) "".

Definition illegal_chars : string := "<>:" +:+ dquote +:+ "/\|?*".

Definition safe_chars : string :=
  "abcdefghijklmnopqrstuvwxyzABCDEFGHIJKLMNOPQRSTUVWXYZ" +:+ "0123456789" +:+ " -_".

(** The title after the replacement loop, the filter and [strip(' _')]
    (source lines 64-71), before the length limit. *)
Definition clean_title (title : string) : string :=
  let title :=
    fold_left (fun t char => PyStr.replace_char char "_" t)
              (PyStr.chars illegal_chars) title in
  let safe_title :=
    PyStr.str (List.filter (fun c => PyStr.char_in c safe_chars) (PyStr.chars title)) in
  PyStr.strip_chars " _" safe_title.

Definition sanitize_filename (title : string) : string :=
  let safe_title := clean_title title in
  let safe_title :=
    if (100 <? String.length safe_title)%nat then PyStr.take 100 safe_title
    else safe_title in
  if String.eqb safe_title "" then "youtube_video" else safe_title.

(** ** Timestamps: [is_valid_time], [format_time], [format_time_for_filename] *)

Module PyInt.

Definition digit_val (c : ascii) : Z := Z.of_N (N_of_ascii c) - 48.

(** Digits after the first one; a single underscore may separate two digits. *)
Fixpoint digits_tail (acc : Z) (l : list ascii) : option Z :=
  match l with
  | [] => Some acc
  | c :: l' =>
      if PyStr.is_digit c then digits_tail (10 * acc + digit_val c) l'
      else if Ascii.eqb c "_" then
        match l' with
        | d :: l'' =>
            if PyStr.is_digit d then digits_tail (10 * acc + digit_val d) l''
            else None
        | [] => None
        end
      else None
  end.

(** [sys.get_int_max_str_digits()]: a literal with more digits is refused. *)
Definition max_str_digits : nat := 4300.

Definition parse_digits (l : list ascii) : option Z :=
  match l with
  | c :: l' =>
      if PyStr.is_digit c then
        match digits_tail (digit_val c) l' with
        | Some v =>
            if (max_str_digits <? length (List.filter PyStr.is_digit l))%nat then None
            else Some v
        | None => None
        end
      else None
  | [] => None
  end.

(** The white space that [int()] skips around a literal: that of
    [str.isspace] but for the separators 28..31. *)
Definition is_space (c : ascii) : bool :=
  let n := N_of_ascii c in
  ((9 <=? n) && (n <=? 13) || (n =? 32) || (n =? 133) || (n =? 160))%N.

(** [int(s)] for a string [s]; [None] stands for [ValueError]. *)
Definition int (s : string) : option Z :=
  match PyStr.strip_list is_space (PyStr.chars s) with
  | "+"%char :: l => parse_digits l
  | "-"%char :: l => option_map Z.opp (parse_digits l)
  | l => parse_digits l
  end.

Definition decimal (n : N) : string := NilZero.string_of_uint (N.to_uint n).

(** The format specification [:02d]. *)
Definition fmt_02d (z : Z) : string :=
  if (z <? 0)%Z then "-" +:+ decimal (Z.to_N (- z))
  else
    let d := decimal (Z.to_N z) in
    if (String.length d <? 2)%nat then "0" +:+ d else d.

End PyInt.

(** [int(x) if x else 0] *)
Definition int_or_zero (x : string) : option Z :=
  if String.eqb x "" then Some 0%Z else PyInt.int x.

Definition is_valid_time (h m s : string) : bool :=
  match int_or_zero h with
  | None => false
  | Some hours =>
      match int_or_zero m with
      | None => false
      | Some minutes =>
          match int_or_zero s with
          | None => false
          | Some seconds =>
              ((0 <=? hours) && (hours <=? 23) && (0 <=? minutes) && (minutes <=? 59)
               && (0 <=? seconds) && (seconds <=? 59))%Z
          end
      end
  end.

(** [None] stands for the [ValueError] that [int] lets through. *)
Definition format_time (h m s : string) : option string :=
  match int_or_zero h with
  | None => None
  | Some hours =>
      match int_or_zero m with
      | None => None
      | Some minutes =>
          match int_or_zero s with
          | None => None
          | Some seconds =>
              Some (PyInt.fmt_02d hours +:+ ":" +:+ PyInt.fmt_02d minutes +:+ ":"
                    +:+ PyInt.fmt_02d seconds)
          end
      end
  end.

Definition format_time_for_filename (time_str : string) : string :=
  PyStr.replace_char ":" "-" time_str.

(** ** [is_valid_url]: the regular expression and [re.match] *)

Module Re.

Inductive regex : Type :=
| Bol                      (* ^ *)
| Eol                      (* $ *)
| Lit (s : string)         (* literal text *)
| Dot                      (* . *)
| Seq (r1 r2 : regex)
| Alt (r1 r2 : regex)      (* r1|r2 *)
| Opt (r : regex)          (* r? *)
| Plus (r : regex).        (* r+ *)

Definition newline : ascii := ascii_of_nat 10.

Fixpoint strip_prefix (p s : string) : option string :=
  match p with
  | EmptyString => Some s
  | String a p' =>
      match s with
      | String b s' => if Ascii.eqb a b then strip_prefix p' s' else None
      | EmptyString => None
      end
  end.

(** One or more rounds of [step], each but the first on a strictly
    shorter rest of the subject; [k] may take over after every round. *)
Fixpoint repeat_from (step : nat -> string -> (nat -> string -> bool) -> bool)
         (k : nat -> string -> bool) (fuel : nat) (pos : nat) (s : string)
         {struct fuel} : bool :=
  step pos s
       (fun pos' s' =>
          k pos' s'
          || match fuel with
             | O => false
             | S fuel' =>
                 (String.length s' <? String.length s)%nat
                 && repeat_from step k fuel' pos' s'
             end).

(** Backtracking matcher in continuation-passing style: [run r pos s k]
    holds when [r] matches a prefix of [s], which starts at offset [pos]
    of the subject, and [k] accepts what follows. *)
Fixpoint run (r : regex) (pos : nat) (s : string)
         (k : nat -> string -> bool) {struct r} : bool :=
  match r with
  | Bol => Nat.eqb pos 0 && k pos s
  | Eol => (String.eqb s "" || String.eqb s (String newline "")) && k pos s
  | Lit l =>
      match strip_prefix l s with
      | Some s' => k (pos + String.length l)%nat s'
      | None => false
      end
  | Dot =>
      match s with
      | String c s' => negb (Ascii.eqb c newline) && k (S pos) s'
      | EmptyString => false
      end
  | Seq r1 r2 => run r1 pos s (fun pos' s' => run r2 pos' s' k)
  | Alt r1 r2 => run r1 pos s k || run r2 pos s k
  | Opt r1 => run r1 pos s k || k pos s
  | Plus r1 => repeat_from (run r1) k (String.length s) pos s
  end.

(** [re.match(r, s)] as a truth value. *)
Definition matches (r : regex) (s : string) : bool :=
  run r 0 s (fun _ _ => true).

End Re.

(** [^(https?://)?(www\.)?(youtube\.com|youtu\.be)/.+$] *)
Definition url_pattern : Re.regex :=
  Re.Seq Re.Bol
   (Re.Seq (Re.Opt (Re.Seq (Re.Lit "http") (Re.Seq (Re.Opt (Re.Lit "s")) (Re.Lit "://"))))
    (Re.Seq (Re.Opt (Re.Lit "www."))
     (Re.Seq (Re.Alt (Re.Lit "youtube.com") (Re.Lit "youtu.be"))
      (Re.Seq (Re.Lit "/")
       (Re.Seq (Re.Plus Re.Dot) Re.Eol))))).

Definition is_valid_url (url : string) : bool := Re.matches url_pattern url.

(** ** The world outside the program *)

(** A Python exception (a subclass of [Exception]) with its text [str(e)]. *)
Inductive exn : Type := Exception (text : string).

Definition exn_text (e : exn) : string := let 'Exception t := e in t.

(** A started subprocess, as the environment will have it behave: what
    [communicate()] gives back, the exit status, the regular files that exist
    once it has ended, and whether [wait(timeout=5)] after [terminate()]
    returns in time. *)
Record process : Type := {
  pid : nat;
  communicate : exn + (string * string);
  returncode : Z;
  files_after : gset string;
  wait_ok : bool
}.

Record environment : Type := {
  home : string;                  (* Path.home() *)
  script_dir : string;            (* Path(__file__).parent *)
  now : string;                   (* datetime.now().strftime('%Y%m%d_%H%M%S') *)
  (** What else than a regular file in the way makes the creation of the
      download directory fail on these files (a permission refused, a
      read-only file system): nothing, or the [OSError] raised. *)
  mkdir_error : gset string -> option exn;
  (** Starting the [n]-th subprocess of the run with this command line, on
      these files: it starts, or [Popen] raises. *)
  popen : nat -> string -> gset string -> exn + process;
  (** What the [n]-th call of the cancellation predicate returns. *)
  cancel_flag : nat -> bool
}.

Inductive signal : Type := Terminate | Kill.

(** One subprocess the run asked for: its command line, the files that
    existed and the number of calls of the cancellation predicate made when
    it was asked for, and what became of it. *)
Record started : Type := {
  cmd_of : string;
  files_before : gset string;
  polls_before : nat;
  outcome_of : exn + process
}.

Record state : Type := {
  files : gset string;            (* regular files that exist *)
  log : list string;              (* messages given to status_callback, oldest first *)
  runs : list started;            (* subprocesses asked for, oldest first *)
  polls : nat;                    (* calls of cancel_callback so far *)
  signals : list (nat * signal);  (* signals sent, oldest first *)
  process_var : option process    (* the nonlocal variable [process] *)
}.

Definition set_files (f : gset string) (st : state) : state :=
  {| files := f; log := log st; runs := runs st; polls := polls st;
     signals := signals st; process_var := process_var st |}.

Definition add_log (msg : string) (st : state) : state :=
  {| files := files st; log := log st ++ [msg]; runs := runs st; polls := polls st;
     signals := signals st; process_var := process_var st |}.

Definition add_run (r : started) (st : state) : state :=
  {| files := files st; log := log st; runs := runs st ++ [r]; polls := polls st;
     signals := signals st; process_var := process_var st |}.

Definition add_poll (st : state) : state :=
  {| files := files st; log := log st; runs := runs st; polls := S (polls st);
     signals := signals st; process_var := process_var st |}.

Definition add_signal (s : nat * signal) (st : state) : state :=
  {| files := files st; log := log st; runs := runs st; polls := polls st;
     signals := signals st ++ [s]; process_var := process_var st |}.

Definition set_process_var (p : option process) (st : state) : state :=
  {| files := files st; log := log st; runs := runs st; polls := polls st;
     signals := signals st; process_var := p |}.

(** ** State and exceptions *)

Definition M (A : Type) : Type := state -> (exn + A) * state.

Definition ret {A} (a : A) : M A := fun st => (inr a, st).

Definition raise {A} (e : exn) : M A := fun st => (inl e, st).

Definition bind {A B} (m : M A) (f : A -> M B) : M B :=
  fun st =>
    match m st with
    | (inr a, st') => f a st'
    | (inl e, st') => (inl e, st')
    end.

(** [try: m  except Exception as e: h e] *)
Definition catch {A} (m : M A) (h : exn -> M A) : M A :=
  fun st =>
    match m st with
    | (inr a, st') => (inr a, st')
    | (inl e, st') => h e st'
    end.

Declare Scope py_scope.
Delimit Scope py_scope with py.
Notation "x <- m ;; k" := (bind m (fun x => k))
  (at level 100, m at next level, right associativity) : py_scope.
Notation "m ;;; k" := (bind m (fun _ => k))
  (at level 100, right associativity) : py_scope.
Local Open Scope py_scope.

(** ** Primitive operations *)

Section Pipeline.

Variable env : environment.

Definition status_callback (msg : string) : M unit :=
  fun st => (inr tt, add_log msg st).

Definition cancel_callback : M bool :=
  fun st => (inr (cancel_flag env (polls st)), add_poll st).

(** [Path(p).exists()] *)
Definition path_exists (p : string) : M bool :=
  fun st => (inr (bool_decide (p ∈ files st)), st).

(** [Path(p).unlink()] on regular files: a file that exists is removed; a
    missing one raises [FileNotFoundError], whose text ends with the
    [repr] of the path.  That the system refuses to remove a file that
    exists is left out. *)
Definition unlink (p : string) : M unit :=
  fun st =>
    if bool_decide (p ∈ files st)
    then (inr tt, set_files (files st ∖ {[ p ]}) st)
    else (inl (Exception ("[Errno 2] No such file or directory: " +:+ PyStr.repr p)), st).

(** [subprocess.Popen(cmd, ..., shell=True)] *)
Definition Popen (cmd : string) : M process :=
  fun st =>
    let r := popen env (length (runs st)) cmd (files st) in
    let st' := add_run {| cmd_of := cmd; files_before := files st;
                          polls_before := polls st; outcome_of := r |} st in
    match r with
    | inr p => (inr p, st')
    | inl e => (inl e, st')
    end.

(** [process.communicate()]: waits for the process to end. *)
Definition process_communicate (p : process) : M (string * string) :=
  fun st => (communicate p, set_files (files_after p) st).

(** ** [run_command] (source lines 97-105) *)

(** [if process_callback: process_callback(process)] *)
Definition call_back (process_callback : option (process -> M unit)) (p : process)
  : M unit :=
  match process_callback with
  | Some callback => callback p
  | None => ret tt
  end.

Definition run_command (cmd : string) (process_callback : option (process -> M unit))
  : M (Z * string) :=
  catch
    (process <- Popen cmd ;;
     call_back process_callback process ;;;
     result <- process_communicate process ;;
     ret (returncode process, fst result +:+ snd result))
    (fun e => ret (1%Z, exn_text e)).

(** ** [get_video_title] (source lines 83-95) *)

Definition quoted (s : string) : string := dquote +:+ s +:+ dquote.

Definition title_cmd (url : string) : string := "yt-dlp --get-title " +:+ quoted url.

(** [subprocess.run(cmd, stdout=PIPE, stderr=PIPE, text=True, shell=True)] *)
Definition subprocess_run (cmd : string) : M (Z * (string * string)) :=
  process <- Popen cmd ;;
  result <- process_communicate process ;;
  ret (returncode process, result).

Definition get_video_title (url : string) : M (option string) :=
  catch
    (result <- subprocess_run (title_cmd url) ;;
     if (fst result =? 0)%Z
     then
       let title := PyStr.strip (fst (snd result)) in
       ret (Some (sanitize_filename title))
     else ret None)
    (fun e => ret None).

(** ** [download_and_clip] (source lines 107-290) *)

(** The closure [set_process]. *)
Definition set_process (p : process) : M unit :=
  fun st => (inr tt, set_process_var (Some p) st).

(** [process = None] *)
Definition clear_process : M unit :=
  fun st => (inr tt, set_process_var None st).

(** [if process: try: process.terminate(); process.wait(timeout=5)
    except: process.kill()] *)
Definition stop_process : M unit :=
  fun st =>
    match process_var st with
    | None => (inr tt, st)
    | Some p =>
        let st' := add_signal (pid p, Terminate) st in
        if wait_ok p then (inr tt, st') else (inr tt, add_signal (pid p, Kill) st')
    end.

(** [if Path(p).exists(): try: Path(p).unlink() except: pass] *)
Definition cleanup_partial (p : string) : M unit :=
  e <- path_exists p ;;
  if e then catch (unlink p) (fun _ => ret tt) else ret tt.

(** [if Path(p).exists(): Path(p).unlink()] *)
Definition unlink_if_exists (p : string) : M unit :=
  e <- path_exists p ;;
  if e then unlink p else ret tt.

Definition player_clients : list (string * string * string) :=
  [ ("android",
     "Mozilla/5.0 (Linux; Android 13; SM-G991B) AppleWebKit/537.36 (KHTML, like Gecko) Chrome/120.0.0.0 Mobile Safari/537.36",
     "https://m.youtube.com/");
    ("web",
     "Mozilla/5.0 (Windows NT 10.0; Win64; x64) AppleWebKit/537.36 (KHTML, like Gecko) Chrome/120.0.0.0 Safari/537.36",
     "https://www.youtube.com/");
    ("ios",
     "Mozilla/5.0 (iPhone; CPU iPhone OS 16_0 like Mac OS X) AppleWebKit/605.1.15 (KHTML, like Gecko) Version/16.0 Mobile/15E148 Safari/604.1",
     "https://m.youtube.com/") ].

Section Run.

Variables (url start end_ : string).
(** The locals [cookies_arg], [full_output] and [clipped_output]. *)
Variables (cookies_arg full_output clipped_output : string).

Definition ytdlp_cmd (client : string * string * string) : string :=
  let '(client_name, user_agent, referer) := client in
  "yt-dlp -f " +:+ quoted "bestvideo[ext=mp4]+bestaudio[ext=m4a]" +:+ " "
  +:+ "--merge-output-format mp4 "
  +:+ "--extractor-args " +:+ quoted ("youtube:player_client=" +:+ client_name) +:+ " "
  +:+ "--retries 10 "
  +:+ "--fragment-retries 10 "
  +:+ "--concurrent-fragments 5 "
  +:+ "--user-agent " +:+ quoted user_agent +:+ " "
  +:+ "--referer " +:+ quoted referer +:+ " "
  +:+ "--add-header " +:+ quoted "Accept-Language: en-US,en;q=0.9" +:+ " "
  +:+ "--add-header "
  +:+ quoted "Accept: text/html,application/xhtml+xml,application/xml;q=0.9,image/webp,*/*;q=0.8"
  +:+ " "
  +:+ "--add-header " +:+ quoted "Accept-Encoding: gzip, deflate, br" +:+ " "
  +:+ "--add-header " +:+ quoted "DNT: 1" +:+ " "
  +:+ "--add-header " +:+ quoted "Connection: keep-alive" +:+ " "
  +:+ "--add-header " +:+ quoted "Upgrade-Insecure-Requests: 1" +:+ " "
  +:+ "--add-header " +:+ quoted "Sec-Fetch-Dest: document" +:+ " "
  +:+ "--add-header " +:+ quoted "Sec-Fetch-Mode: navigate" +:+ " "
  +:+ "--add-header " +:+ quoted "Sec-Fetch-Site: none" +:+ " "
  +:+ "--no-check-certificates "
  +:+ "--prefer-insecure "
  +:+ "--no-warnings "
  +:+ "--no-playlist "
  +:+ cookies_arg +:+ " "
  +:+ "-o " +:+ quoted full_output +:+ " "
  +:+ quoted url.

Definition generic_cmd : string :=
  "yt-dlp --force-generic-extractor "
  +:+ "-f " +:+ quoted "bestvideo[ext=mp4]+bestaudio[ext=m4a]" +:+ " "
  +:+ "--merge-output-format mp4 "
  +:+ "--retries 10 "
  +:+ "--fragment-retries 10 "
  +:+ "--concurrent-fragments 5 "
  +:+ "--no-check-certificates "
  +:+ "--prefer-insecure "
  +:+ "--no-warnings "
  +:+ "--no-playlist "
  +:+ cookies_arg +:+ " "
  +:+ "-o " +:+ quoted full_output +:+ " "
  +:+ quoted url.

Definition ffmpeg_cmd : string :=
  "ffmpeg -y -i " +:+ quoted full_output +:+ " -ss " +:+ start +:+ " -to " +:+ end_ +:+ " "
  +:+ "-map 0:v:0 -map 0:a:0? "
  +:+ "-c:v libx264 -preset veryslow -crf 18 "
  +:+ "-c:a aac -b:a 256k "
  +:+ "-vsync 2 -copyts -avoid_negative_ts make_zero -reset_timestamps 1 "
  +:+ "-movflags +faststart "
  +:+ "-shortest " +:+ quoted clipped_output.

(** How the [for] loop over the player clients ends: by the function's
    [return], by [break] (with [download_success = True]), or by running
    out of clients (with [download_success] still [False]). *)
Inductive loop_exit : Type := LoopReturn | LoopBreak | LoopExhausted.

(** The fallback loop (source lines 144-209). *)
Fixpoint try_player_clients (clients : list (string * string * string)) : M loop_exit :=
  match clients with
  | [] => ret LoopExhausted
  | client :: rest =>
      cancelled <- cancel_callback ;;
      if cancelled then
        status_callback "Download cancelled." ;;;
        ret LoopReturn
      else
        status_callback ("Trying " +:+ fst (fst client) +:+ " player client...") ;;;
        clear_process ;;;
        res <- run_command (ytdlp_cmd client) (Some set_process) ;;
        cancelled <- cancel_callback ;;
        if cancelled then
          stop_process ;;;
          status_callback "Download cancelled." ;;;
          ret LoopReturn
        else
          present <- path_exists full_output ;;
          if (fst res =? 0)%Z && present then
            status_callback ("✅ Download successful using " +:+ fst (fst client)
                             +:+ " player client!") ;;;
            ret LoopBreak
          else
            status_callback ("❌ " +:+ fst (fst client) +:+ " client failed: " +:+ snd res) ;;;
            cleanup_partial full_output ;;;
            try_player_clients rest
  end.

(** How the retrieval part ends: the function has returned, or control
    goes on to the trim. *)
Inductive retrieval_exit : Type := Returned | Downloaded.

(** The generic extractor as a last resort (source lines 212-254). *)
Definition try_generic : M retrieval_exit :=
  status_callback "All player clients failed. Trying generic extractor as fallback..." ;;;
  clear_process ;;;
  res <- run_command generic_cmd (Some set_process) ;;
  cancelled <- cancel_callback ;;
  if cancelled then
    stop_process ;;;
    status_callback "Download cancelled." ;;;
    ret Returned
  else
    present <- path_exists full_output ;;
    if (fst res =? 0)%Z && present then
      status_callback "✅ Download successful using generic extractor!" ;;;
      ret Downloaded
    else
      status_callback ("❌ Generic extractor failed: " +:+ snd res) ;;;
      cleanup_partial full_output ;;;
      status_callback "❌ All extraction methods failed. Download cannot proceed." ;;;
      ret Returned.

(** Source lines 143-254: the loop, then the fallback when
    [download_success] is still false. *)
Definition retrieve (clients : list (string * string * string)) : M retrieval_exit :=
  exit <- try_player_clients clients ;;
  match exit with
  | LoopReturn => ret Returned
  | LoopBreak => ret Downloaded
  | LoopExhausted => try_generic
  end.

(** The trim (source lines 256-290). *)
Definition trim : M unit :=
  status_callback "Trimming video with ffmpeg..." ;;;
  res <- run_command ffmpeg_cmd (Some set_process) ;;
  cancelled <- cancel_callback ;;
  if cancelled then
    stop_process ;;;
    status_callback "Trimming cancelled." ;;;
    unlink_if_exists full_output
  else
    present <- path_exists clipped_output ;;
    if (fst res =? 0)%Z && present then
      status_callback ("Clip saved as " +:+ clipped_output +:+ "!") ;;;
      unlink full_output
    else
      status_callback ("ffmpeg failed: " +:+ snd res) ;;;
      unlink_if_exists full_output.

Definition retrieve_and_trim : M unit :=
  exit <- retrieve player_clients ;;
  match exit with
  | Returned => ret tt
  | Downloaded => trim
  end.

End Run.

(** [download_dir = Path.home() / "Downloads" / "YouTubeClips"] *)
Definition download_dir : string := home env +:+ "/Downloads/YouTubeClips".

(** [str((download_dir / name).resolve())]; the download directory is
    taken to be its own resolved path. *)
Definition in_download_dir (name : string) : string := download_dir +:+ "/" +:+ name.

Definition cookies_path : string := script_dir env +:+ "/cookies.txt".

Definition full_name (video_title : string) : string := video_title +:+ "_full.mp4".

Definition clip_name (video_title start end_ : string) : string :=
  video_title +:+ "_clip_" +:+ format_time_for_filename start +:+ "_to_"
  +:+ format_time_for_filename end_ +:+ ".mp4".

(** The file lies in the download directory. *)
Definition inside_download_dir (file : string) : bool :=
  match Re.strip_prefix (download_dir +:+ "/") file with
  | Some _ => true
  | None => false
  end.

(** Whether [download_dir.mkdir(parents=True, exist_ok=True)] raises on
    these regular files, and what.  A directory that holds a file exists,
    and the call returns.  A regular file at the path itself raises
    [FileExistsError]; one at a parent of the path raises
    [NotADirectoryError].  Directories and permissions are not kept, so
    whether the call fails for another reason is for the environment to
    say. *)
Definition mkdir_raises (fs : gset string) : option exn :=
  if existsb inside_download_dir (elements fs) then None
  else if bool_decide (download_dir ∈ fs)
  then Some (Exception ("[Errno 17] File exists: " +:+ PyStr.repr download_dir))
  else if bool_decide (home env +:+ "/Downloads" ∈ fs) || bool_decide (home env ∈ fs)
  then Some (Exception ("[Errno 20] Not a directory: " +:+ PyStr.repr download_dir))
  else mkdir_error env fs.

(** [download_dir.mkdir(parents=True, exist_ok=True)] (source line 112) *)
Definition mkdir_download_dir : M unit :=
  fun st =>
    match mkdir_raises (files st) with
    | Some e => (inl e, st)
    | None => (inr tt, st)
    end.

(** [video_title] after source lines 115-117. *)
Definition title_or_default (t : option string) : string :=
  match t with
  | Some title => if String.eqb title "" then "yt_video_" +:+ now env else title
  | None => "yt_video_" +:+ now env
  end.

(** Source lines 108-133: the title, the two output paths and the cookie
    argument, in the order [(cookies_arg, full_output, clipped_output)]. *)
Definition prepare (url start end_ : string) : M (string * string * string) :=
  status_callback "Starting download..." ;;;
  mkdir_download_dir ;;;
  t <- get_video_title url ;;
  let video_title := title_or_default t in
  let full_output := in_download_dir (full_name video_title) in
  let clipped_output := in_download_dir (clip_name video_title start end_) in
  status_callback ("Downloading: " +:+ video_title) ;;;
  has_cookies <- path_exists cookies_path ;;
  let cookies_arg := if has_cookies then "--cookies " +:+ quoted cookies_path else "" in
  ret (cookies_arg, full_output, clipped_output).

Definition download_and_clip (url start end_ : string) : M unit :=
  names <- prepare url start end_ ;;
  let '(cookies_arg, full_output, clipped_output) := names in
  retrieve_and_trim url start end_ cookies_arg full_output clipped_output.

End Pipeline.

(** The state a run starts in: the files that exist, and nothing done yet. *)
Definition initial (fs : gset string) : state :=
  {| files := fs; log := []; runs := []; polls := 0; signals := [];
     process_var := None |}.

(** ** Notions used to state the properties *)

(** Letters, digits, space, hyphen and underscore. *)
Definition allowed_char (c : ascii) : bool :=
  PyStr.is_letter c || PyStr.is_digit c
  || Ascii.eqb c " " || Ascii.eqb c "-" || Ascii.eqb c "_".

(** The characters that [strip(' _')] removes. *)
Definition strippable (c : ascii) : bool := PyStr.char_in c " _".

(** [c in safe_chars] *)
Definition safe (c : ascii) : bool := PyStr.char_in c safe_chars.

(** The string ends in a space or an underscore. *)
Definition ends_strippable (s : string) : bool :=
  match rev (PyStr.chars s) with
  | c :: _ => strippable c
  | [] => false
  end.

(** A title of 101 characters whose hundredth character is a space. *)
Definition long_title : string :=
  PyStr.str (repeat "a"%char 99) +:+ " b".

Definition digit_char (d : Z) : ascii := ascii_of_N (48 + Z.to_N d).

(** The zero-padded rendering of a number below 100. *)
Definition two_digits (n : Z) : string :=
  String (digit_char (n / 10)) (String (digit_char (n mod 10)) "").

Definition in_range (hours minutes seconds : Z) : Prop :=
  (0 <= hours <= 23 /\ 0 <= minutes <= 59 /\ 0 <= seconds <= 59)%Z.

Definition no_newline (s : string) : Prop :=
  ~ In Re.newline (PyStr.chars s).

(** The URLs described as accepted: an optional scheme, an optional
    [www.], one of the two hosts, a slash and a non-empty path. *)
Definition described_url (url : string) : Prop :=
  exists scheme www host path,
    In scheme [""; "http://"; "https://"] /\
    In www [""; "www."] /\
    In host ["youtube.com"; "youtu.be"] /\
    path <> "" /\
    url = scheme +:+ www +:+ host +:+ "/" +:+ path.

(** The URLs the pattern matches: as above, with a path free of newlines
    that one final newline may follow. *)
Definition accepted_url (url : string) : Prop :=
  exists scheme www host path tail,
    In scheme [""; "http://"; "https://"] /\
    In www [""; "www."] /\
    In host ["youtube.com"; "youtu.be"] /\
    path <> "" /\ no_newline path /\
    In tail [""; String Re.newline ""] /\
    url = scheme +:+ www +:+ host +:+ "/" +:+ path +:+ tail.

(** The subprocess started, ran to its end and exited with status 0. *)
Definition exited_zero (r : exn + process) : bool :=
  match r with
  | inr p => match communicate p with inr _ => (returncode p =? 0)%Z | inl _ => false end
  | inl _ => false
  end.

(** The files that exist once the subprocess asked for is over. *)
Definition files_left (a : started) : gset string :=
  match outcome_of a with
  | inr p => files_after p
  | inl _ => files_before a
  end.

(** A download attempt that exited with status 0 and left the expected
    output file. *)
Definition downloaded (full_output : string) (a : started) : bool :=
  exited_zero (outcome_of a) && bool_decide (full_output ∈ files_left a).

(** What [run_command] hands back for a subprocess. *)
Definition exit_of (r : exn + process) : Z * string :=
  match r with
  | inl e => (1%Z, exn_text e)
  | inr p =>
      match communicate p with
      | inl e => (1%Z, exn_text e)
      | inr res => (returncode p, fst res +:+ snd res)
      end
  end.

(** The subprocess that command [cmd] gives when asked for in state [st]. *)
Definition asked (env : environment) (cmd : string) (st : state) : started :=
  {| cmd_of := cmd; files_before := files st; polls_before := polls st;
     outcome_of := popen env (length (runs st)) cmd (files st) |}.

(** The state after [run_command cmd set_process]. *)
Definition after_run (a : started) (st : state) : state :=
  match outcome_of a with
  | inl _ => add_run a st
  | inr p => set_files (files_after p) (set_process_var (Some p) (add_run a st))
  end.

(** What [get_video_title] returns for the lookup [a]. *)
Definition probe_title (a : started) : option string :=
  match outcome_of a with
  | inr p =>
      match communicate p with
      | inr res =>
          if (returncode p =? 0)%Z
          then Some (sanitize_filename (PyStr.strip (fst res)))
          else None
      | inl _ => None
      end
  | inl _ => None
  end.

(** The state after [get_video_title]. *)
Definition after_probe (a : started) (st : state) : state :=
  match outcome_of a with
  | inl _ => add_run a st
  | inr p => set_files (files_after p) (add_run a st)
  end.

(** The download commands in the order the source declares them: one per
    player client, then the generic extractor. *)
Definition declared_cmds (url cookies_arg full_output : string)
           (clients : list (string * string * string)) : list string :=
  map (ytdlp_cmd url cookies_arg full_output) clients
  ++ [generic_cmd url cookies_arg full_output].

(** ** Concrete runs *)

Module Scenario.

Definition full : string := "/home/user/Downloads/YouTubeClips/My Video_full.mp4".

Definition clip : string :=
"/home/user/Downloads/YouTubeClips/My Video_clip_00-00-10_to_00-01-00.mp4".

(** The clip path with the title's space turned into an underscore. *)
Definition underscored_clip : string :=
"/home/user/Downloads/YouTubeClips/My_Video_clip_00-00-10_to_00-01-00.mp4".

(** A subprocess that ran to its end. *)
Definition ended (code : Z) (out : string) (fs : gset string) : process :=
{| pid := 1; communicate := inr (out, ""); returncode := code;
   files_after := fs; wait_ok := true |}.

(** Tools that work: the title lookup prints the title, a download writes
  the full file, the transcoder writes the clip. *)
Definition working (n : nat) (cmd : string) (fs : gset string) : exn + process :=
match n with
| 0 => inr (ended 0 "My Video" fs)
| 1 => inr (ended 0 "" (fs ∪ {[ full ]}))
| _ => inr (ended 0 "" (fs ∪ {[ clip ]}))
end.

(** As [working], but the first download fails and leaves a partial file. *)
Definition flaky (n : nat) (cmd : string) (fs : gset string) : exn + process :=
match n with
| 0 => inr (ended 0 "My Video" fs)
| 1 => inr (ended 1 "ERROR: unable to download" (fs ∪ {[ full ]}))
| 2 => inr (ended 0 "" (fs ∪ {[ full ]}))
| _ => inr (ended 0 "" (fs ∪ {[ clip ]}))
end.

Definition world (tools : nat -> string -> gset string -> exn + process)
         (cancel : nat -> bool) : environment :=
{| home := "/home/user"; script_dir := "/opt/clipper"; now := "20240101_120000";
   mkdir_error := fun _ => None; popen := tools; cancel_flag := cancel |}.

Definition never (n : nat) : bool := false.

Definition always (n : nat) : bool := true.

(** The user cancels while the first download runs. *)
Definition during_download (n : nat) : bool := (1 <=? n)%nat.

(** The user cancels while the transcoder runs. *)
Definition during_trim (n : nat) : bool := (2 <=? n)%nat.

Definition url : string := "https://youtu.be/abc123".

Definition go (e : environment) : (exn + unit) * state :=
download_and_clip e url "00:00:10" "00:01:00" (initial ∅).

End Scenario.

(** ** More notions used to state the properties *)

(** The characters of a clip's file name: the safe ones and the dot. *)
Definition name_char (c : ascii) : bool := allowed_char c || Ascii.eqb c ".".

(** The replacement loop of [sanitize_filename] (source lines 64-65), one
    character at a time. *)
Definition replaced_char (c : ascii) : ascii :=
  fold_left (fun x old => if Ascii.eqb x old then "_"%char else x)
            (PyStr.chars illegal_chars) c.

(** A time of day written [HH:MM:SS]. *)
Definition clock (s : string) : Prop :=
  exists hours minutes seconds,
    in_range hours minutes seconds /\
    s = two_digits hours +:+ ":" +:+ two_digits minutes +:+ ":" +:+ two_digits seconds.

(** The characters that [int()] skips around a number: tab, line feed,
    vertical tab, form feed, carriage return, space, next line and
    no-break space. *)
Definition int_space (c : ascii) : Prop :=
  In (nat_of_ascii c) [9; 10; 11; 12; 13; 32; 133; 160].

(** A decimal digit, and its value. *)
Definition decimal_digit (c : ascii) : Prop :=
  In c (list_ascii_of_string "0123456789").

Definition digit_value (c : ascii) : Z :=
  Z.of_nat (nat_of_ascii c) - Z.of_nat (nat_of_ascii "0").

(** The value of a run of decimal digits. *)
Definition digits_value (ds : list ascii) : Z :=
  fold_left (fun acc c => (10 * acc + digit_value c)%Z) ds 0%Z.

(** The groups after the first one, an underscore before each. *)
Definition more_groups (gs : list (list ascii)) : list ascii :=
  flat_map (fun g => "_"%char :: g) gs.

(** Groups of digits written with one underscore between two groups. *)
Definition join_groups (gs : list (list ascii)) : list ascii :=
  match gs with
  | [] => []
  | g :: rest => g ++ more_groups rest
  end.

(** One or more decimal digits. *)
Definition digit_group (g : list ascii) : Prop :=
  g <> [] /\ Forall decimal_digit g.

(** [text] is a decimal integer of value [v] in the form that [int()]
    reads: white space, an optional sign, one or more groups of digits
    with single underscores between them, white space; and no more than
    4300 digits in all. *)
Definition integer_text (text : string) (v : Z) : Prop :=
  exists pre sign groups post,
    PyStr.chars text = pre ++ (sign ++ join_groups groups) ++ post /\
    Forall int_space pre /\ Forall int_space post /\
    groups <> [] /\ Forall digit_group groups /\
    length (concat groups) <= 4300 /\
    (((sign = [] \/ sign = ["+"%char]) /\ v = digits_value (concat groups)) \/
     (sign = ["-"%char] /\ v = (- digits_value (concat groups))%Z)).

(** A component of a time as [is_valid_time] and [format_time] take it: an
    absent one counts as 0. *)
Definition component (x : string) (v : Z) : Prop :=
  (x = "" /\ v = 0%Z) \/ integer_text x v.

(** [fs'] is [fs], or [fs] without the file [p]. *)
Definition at_most_removed (p : string) (fs fs' : gset string) : Prop :=
  fs' = fs \/ fs' = fs ∖ {[ p ]}.

(** From the files [fs], through the subprocesses [new] in turn, to the
    files [fs']: each subprocess starts on the files the one before it left
    and the last one leaves [fs'], but for the file [p], which may be
    removed in between. *)
Fixpoint handed_on (p : string) (fs : gset string) (new : list started)
         (fs' : gset string) : Prop :=
  match new with
  | [] => at_most_removed p fs fs'
  | a :: rest => at_most_removed p fs (files_before a) /\ handed_on p (files_left a) rest fs'
  end.

(** The signals that [stop_process] sends to a process. *)
Definition stop_signals (q : process) : list (nat * signal) :=
  if wait_ok q then [(pid q, Terminate)] else [(pid q, Terminate); (pid q, Kill)].

(** The variable [process] is unset or holds a process that the run started. *)
Definition process_known (st : state) : Prop :=
  forall q, process_var st = Some q -> In (inr q) (map outcome_of (runs st)).

(** What a part of the run does between the states [st] and [st']: it
    starts the subprocesses [new], calls the cancellation predicate at most
    [budget] times, stops at the first call that answers true, and had
    started every subprocess before that call. *)
Record stage (env : environment) (full_output : string) (cancelled : bool)
       (new : list started) (budget : nat) (st st' : state) : Prop := {
  stage_runs : runs st' = runs st ++ new;
  stage_files : handed_on full_output (files st) new (files st');
  stage_polls : polls st <= polls st' <= polls st + budget;
  stage_calm : forall n, polls st <= n -> S n < polls st' -> cancel_flag env n = false;
  stage_last :
    if cancelled
    then exists n, polls st' = S n /\ polls st <= n /\ cancel_flag env n = true
    else forall n, polls st <= n < polls st' -> cancel_flag env n = false;
  stage_signals :
    exists sent, signals st' = signals st ++ sent /\
      (sent = [] \/
       cancelled = true /\ exists q, process_var st' = Some q /\ sent = stop_signals q);
  stage_known : process_known st -> process_known st';
  stage_order :
    Forall (fun a => polls st <= polls_before a /\
                     polls_before a + (if cancelled then 1 else 0) <= polls st') new
}.

Definition returned (r : loop_exit) : bool :=
  match r with LoopReturn => true | _ => false end.

(** The value of [cookies_arg] when the title lookup [a0] is over. *)
Definition cookies_arg_after (env : environment) (a0 : started) : string :=
  if bool_decide (cookies_path env ∈ files_left a0)
  then "--cookies " +:+ quoted (cookies_path env) else "".

(** The path [full_output] of the run whose title lookup is [a0]. *)
Definition full_output_of (env : environment) (a0 : started) : string :=
  in_download_dir env (full_name (title_or_default env (probe_title a0))).

(** The path [clipped_output] of the run whose title lookup is [a0]. *)
Definition clipped_output_of (env : environment) (a0 : started) (start end_ : string)
  : string :=
  in_download_dir env (clip_name (title_or_default env (probe_title a0)) start end_).

(** How the transcoder step [t] of a run ends: the result of the run, the
    last status reported and whether a cancellation was seen. *)
Definition trim_ending (full_output clipped_output : string) (t : started)
           (c : bool) (r : exn + unit) (report : option string) : Prop :=
  (c = true /\ r = inr tt /\ report = Some "Trimming cancelled.") \/
  (c = false /\ exited_zero (outcome_of t) = true /\ clipped_output ∈ files_left t /\
   report = Some ("Clip saved as " +:+ clipped_output +:+ "!") /\
   r = if bool_decide (full_output ∈ files_left t) then inr tt
       else inl (Exception ("[Errno 2] No such file or directory: "
                               +:+ PyStr.repr full_output))) \/
  (c = false /\
   exited_zero (outcome_of t) && bool_decide (clipped_output ∈ files_left t) = false /\
   r = inr tt /\
   report = Some ("ffmpeg failed: " +:+ snd (exit_of (outcome_of t)))).

(** ** A run in which the transcoder loses its input *)

Module Mishap.

(** Tools as in [Scenario.working], but the transcoder moves its input away:
  when it ends the clip is written and the full download is gone. *)
Definition consuming (n : nat) (cmd : string) (fs : gset string) : exn + process :=
match n with
| 0 => inr (Scenario.ended 0 "My Video" fs)
| 1 => inr (Scenario.ended 0 "" (fs ∪ {[ Scenario.full ]}))
| _ => inr (Scenario.ended 0 "" (fs ∖ {[ Scenario.full ]} ∪ {[ Scenario.clip ]}))
end.

(** A regular file where the download directory should be. *)
Definition blocked : gset string := {[ "/home/user/Downloads/YouTubeClips" ]}.

(** The text of the [FileNotFoundError] for the full download. *)
Definition missing_full : exn :=
Exception ("[Errno 2] No such file or directory: " +:+ PyStr.repr Scenario.full).

End Mishap.

(** ** The window: class [YTClipperApp] (source lines 293-647)

    The state of the window is the text of its seven entries, of the link
    label and of the status area, the state of its three buttons and the
    three attributes [url], [cancel_flag] and [download_thread].  What a
    method does outside the window is recorded as well: the error boxes
    shown, the URLs given to the browser and the worker threads started.
    A worker, [download_task], is known by the arguments of its call of
    [download_and_clip], [self.url] being read when the worker starts; the
    run itself is [download_and_clip] above, and what the worker does to
    the window once the run is over is [download_task_end].  Scrolling
    and [root.update()] change nothing that is kept here. *)

Module YTClipperApp.

(** The texts of the entries. *)
Record form : Type := {
  url_entry : string;
  start_h : string;
  start_m : string;
  start_s : string;
  end_h : string;
  end_m : string;
  end_s : string
}.

Record app : Type := {
  entries : form;
  url_link : string;               (* text of the link label *)
  status_area : string;            (* text of the status area *)
  trim_btn : bool;                 (* the button's state is 'normal' *)
  cancel_btn : bool;
  trim_another_btn : bool;         (* the button is packed *)
  url : string;                    (* self.url *)
  cancel_flag : bool;              (* self.cancel_flag *)
  download_thread : option (string * string * string);
                                   (* self.download_thread, by its arguments *)
  errors : list (string * string); (* messagebox.showerror(title, message) *)
  opened : list string;            (* webbrowser.open(url) *)
  workers : list (string * string * string)
                                   (* threads started, by their arguments *)
}.

(** The entries as [create_single_screen] fills them (source lines 486-492). *)
Definition defaults : form :=
  {| url_entry := ""; start_h := "0"; start_m := "0"; start_s := "0";
     end_h := "0"; end_m := "1"; end_s := "0" |}.

(** The window after [__init__]. *)
Definition init : app :=
  {| entries := defaults; url_link := ""; status_area := "";
     trim_btn := true; cancel_btn := true; trim_another_btn := false;
     url := ""; cancel_flag := false; download_thread := None;
     errors := []; opened := []; workers := [] |}.

Definition set_entries (f : form) (a : app) : app :=
  {| entries := f; url_link := url_link a; status_area := status_area a;
     trim_btn := trim_btn a; cancel_btn := cancel_btn a;
     trim_another_btn := trim_another_btn a; url := url a;
     cancel_flag := cancel_flag a; download_thread := download_thread a;
     errors := errors a; opened := opened a; workers := workers a |}.

Definition set_url_link (text : string) (a : app) : app :=
  {| entries := entries a; url_link := text; status_area := status_area a;
     trim_btn := trim_btn a; cancel_btn := cancel_btn a;
     trim_another_btn := trim_another_btn a; url := url a;
     cancel_flag := cancel_flag a; download_thread := download_thread a;
     errors := errors a; opened := opened a; workers := workers a |}.

Definition set_status_area (text : string) (a : app) : app :=
  {| entries := entries a; url_link := url_link a; status_area := text;
     trim_btn := trim_btn a; cancel_btn := cancel_btn a;
     trim_another_btn := trim_another_btn a; url := url a;
     cancel_flag := cancel_flag a; download_thread := download_thread a;
     errors := errors a; opened := opened a; workers := workers a |}.

Definition set_buttons (trim cancel : bool) (a : app) : app :=
  {| entries := entries a; url_link := url_link a; status_area := status_area a;
     trim_btn := trim; cancel_btn := cancel;
     trim_another_btn := trim_another_btn a; url := url a;
     cancel_flag := cancel_flag a; download_thread := download_thread a;
     errors := errors a; opened := opened a; workers := workers a |}.

Definition set_trim_another_btn (packed : bool) (a : app) : app :=
  {| entries := entries a; url_link := url_link a; status_area := status_area a;
     trim_btn := trim_btn a; cancel_btn := cancel_btn a;
     trim_another_btn := packed; url := url a;
     cancel_flag := cancel_flag a; download_thread := download_thread a;
     errors := errors a; opened := opened a; workers := workers a |}.

Definition set_url (u : string) (a : app) : app :=
  {| entries := entries a; url_link := url_link a; status_area := status_area a;
     trim_btn := trim_btn a; cancel_btn := cancel_btn a;
     trim_another_btn := trim_another_btn a; url := u;
     cancel_flag := cancel_flag a; download_thread := download_thread a;
     errors := errors a; opened := opened a; workers := workers a |}.

Definition set_cancel_flag (b : bool) (a : app) : app :=
  {| entries := entries a; url_link := url_link a; status_area := status_area a;
     trim_btn := trim_btn a; cancel_btn := cancel_btn a;
     trim_another_btn := trim_another_btn a; url := url a;
     cancel_flag := b; download_thread := download_thread a;
     errors := errors a; opened := opened a; workers := workers a |}.

Definition set_download_thread (t : option (string * string * string)) (a : app) : app :=
  {| entries := entries a; url_link := url_link a; status_area := status_area a;
     trim_btn := trim_btn a; cancel_btn := cancel_btn a;
     trim_another_btn := trim_another_btn a; url := url a;
     cancel_flag := cancel_flag a; download_thread := t;
     errors := errors a; opened := opened a; workers := workers a |}.

(** [messagebox.showerror(title, message)] *)
Definition showerror (title message : string) (a : app) : app :=
  {| entries := entries a; url_link := url_link a; status_area := status_area a;
     trim_btn := trim_btn a; cancel_btn := cancel_btn a;
     trim_another_btn := trim_another_btn a; url := url a;
     cancel_flag := cancel_flag a; download_thread := download_thread a;
     errors := errors a ++ [(title, message)]; opened := opened a;
     workers := workers a |}.

(** [webbrowser.open(u)] *)
Definition webbrowser_open (u : string) (a : app) : app :=
  {| entries := entries a; url_link := url_link a; status_area := status_area a;
     trim_btn := trim_btn a; cancel_btn := cancel_btn a;
     trim_another_btn := trim_another_btn a; url := url a;
     cancel_flag := cancel_flag a; download_thread := download_thread a;
     errors := errors a; opened := opened a ++ [u]; workers := workers a |}.

(** [self.download_thread = threading.Thread(target=download_task, ...)]
    and [self.download_thread.start()]: the worker calls [download_and_clip]
    with [self.url] and the two formatted times. *)
Definition start_thread (task : string * string * string) (a : app) : app :=
  {| entries := entries a; url_link := url_link a; status_area := status_area a;
     trim_btn := trim_btn a; cancel_btn := cancel_btn a;
     trim_another_btn := trim_another_btn a; url := url a;
     cancel_flag := cancel_flag a; download_thread := Some task;
     errors := errors a; opened := opened a; workers := workers a ++ [task] |}.

(** Source lines 532-538. *)
Definition validate_url (a : app) : app :=
  let u := PyStr.strip (url_entry (entries a)) in
  if is_valid_url u then set_url_link u a else set_url_link "" a.

(** Source lines 540-543. *)
Definition open_url (a : app) : app :=
  if negb (String.eqb (url a) "") && is_valid_url (url a)
  then webbrowser_open (url a) a
  else a.

(** [int()] failing inside [format_time]. *)
Definition value_error : exn := Exception "invalid literal for int() with base 10".

(** Source lines 545-592. *)
Definition trim_clip (a : app) : exn + app :=
  let a := set_url (PyStr.strip (url_entry (entries a))) a in
  if negb (is_valid_url (url a))
  then inr (showerror "Error" "Please enter a valid YouTube URL." a)
  else
    let start_h := PyStr.strip (start_h (entries a)) in
    let start_m := PyStr.strip (start_m (entries a)) in
    let start_s := PyStr.strip (start_s (entries a)) in
    let end_h := PyStr.strip (end_h (entries a)) in
    let end_m := PyStr.strip (end_m (entries a)) in
    let end_s := PyStr.strip (end_s (entries a)) in
    if negb (is_valid_time start_h start_m start_s && is_valid_time end_h end_m end_s)
    then inr (showerror "Error" "Please enter valid time format (HH:MM:SS)." a)
    else
      match format_time start_h start_m start_s with
      | None => inl value_error
      | Some start_time =>
          match format_time end_h end_m end_s with
          | None => inl value_error
          | Some end_time =>
              let a := set_status_area "" a in
              let a := set_buttons false true a in
              let a := set_cancel_flag false a in
              inr (start_thread (url a, start_time, end_time) a)
          end
      end.

(** Source lines 641-647. *)
Definition set_status (msg : string) (a : app) : app :=
  set_status_area (status_area a +:+ msg +:+ String Re.newline "") a.

(** Source lines 594-597. *)
Definition cancel_operation (a : app) : app :=
  set_status "Cancelling..." (set_cancel_flag true a).

(** Source lines 599-601. *)
Definition is_cancelled (a : app) : bool := cancel_flag a.

(** Source lines 603-605. *)
Definition show_trim_another_button (a : app) : app := set_trim_another_btn true a.

(** Source lines 607-639. *)
Definition reset_form (a : app) : app :=
  let a := set_entries defaults a in
  let a := set_url_link "" a in
  let a := set_status_area "" a in
  let a := set_trim_another_btn false a in
  let a := set_url "" a in
  let a := set_cancel_flag false a in
  set_download_thread None a.

(** The end of the worker [download_task] (source lines 584-589), once its
    call of [download_and_clip] has returned ([completed]) or raised. *)
Definition download_task_end (completed : bool) (a : app) : app :=
  let a := if completed && negb (cancel_flag a) then show_trim_another_button a else a in
  set_buttons true false a.

(** What can happen to the window: the user edits the entries, or one of
    the methods runs.  Calls may come in any order, also in orders that
    the disabled buttons rule out. *)
Inductive call : Type :=
| Edit (f : form)
| Validate_url
| Open_url
| Trim_clip
| Cancel_operation
| Show_trim_another_button
| Reset_form
| Set_status (msg : string)
| Download_task_end (completed : bool).

Definition perform (c : call) (a : app) : exn + app :=
  match c with
  | Edit f => inr (set_entries f a)
  | Validate_url => inr (validate_url a)
  | Open_url => inr (open_url a)
  | Trim_clip => trim_clip a
  | Cancel_operation => inr (cancel_operation a)
  | Show_trim_another_button => inr (show_trim_another_button a)
  | Reset_form => inr (reset_form a)
  | Set_status msg => inr (set_status msg a)
  | Download_task_end completed => inr (download_task_end completed a)
  end.

(** The calls of [cs] one after the other, up to the first that raises. *)
Fixpoint perform_all (cs : list call) (a : app) : exn + app :=
  match cs with
  | [] => inr a
  | c :: rest =>
      match perform c a with
      | inr a' => perform_all rest a'
      | inl e => inl e
      end
  end.

(** The arguments of a worker are a URL that [is_valid_url] accepts and two
    times of day. *)
Definition task_ok (task : string * string * string) : Prop :=
  let '(u, start, end_) := task in
  is_valid_url u = true /\ clock start /\ clock end_.

Definition is_trim_clip (c : call) : bool :=
  match c with Trim_clip => true | _ => false end.

(** The link label is empty or shows an accepted URL; every URL given to
    the browser is an accepted one; every worker was started with
    arguments that are in order; [download_thread] is one of them. *)
Definition window_ok (a : app) : Prop :=
  (url_link a = "" \/ is_valid_url (url_link a) = true) /\
  Forall (fun u => is_valid_url u = true) (opened a) /\
  Forall task_ok (workers a) /\
  (forall task, download_thread a = Some task -> In task (workers a)).

End YTClipperApp.

(** * Properties *)

(** ** Strings *)

Section PyStrFacts.
Import PyStr.

Lemma chars_str l : chars (str l) = l.
Proof. apply list_ascii_of_string_of_list_ascii. Qed.

Lemma str_chars s : str (chars s) = s.
Proof. apply string_of_list_ascii_of_string. Qed.

Lemma length_str l : String.length (str l) = length l.
Proof. induction l as [|c l IH]; simpl; [reflexivity | now rewrite IH]. Qed.

Lemma length_chars s : length (chars s) = String.length s.
Proof. rewrite <- (str_chars s) at 2. now rewrite length_str. Qed.

Lemma lstrip_incl p l c : In c (lstrip_list p l) -> In c l.
Proof.
  induction l as [|a l IH]; simpl; [tauto|].
  destruct (p a); simpl; tauto.
Qed.

Lemma rstrip_incl p l c : In c (rstrip_list p l) -> In c l.
Proof.
  unfold rstrip_list. intros H. apply in_rev in H.
  apply lstrip_incl in H. now apply in_rev.
Qed.

Lemma strip_incl p l c : In c (strip_list p l) -> In c l.
Proof. unfold strip_list. intros H. eapply lstrip_incl, rstrip_incl, H. Qed.

Lemma firstn_incl {A} n (l : list A) c : In c (firstn n l) -> In c l.
Proof.
  revert l; induction n as [|n IH]; intros [|a l]; simpl; try tauto.
  intros [->|H]; auto.
Qed.

Lemma lstrip_length p l : length (lstrip_list p l) <= length l.
Proof.
  induction l as [|a l IH]; simpl; [lia|]. destruct (p a); simpl; lia.
Qed.

Lemma lstrip_head p l c l' : lstrip_list p l = c :: l' -> p c = false.
Proof.
  induction l as [|a l IH]; simpl; [discriminate|].
  destruct (p a) eqn:E; [exact IH|]. intros [= <- _]. exact E.
Qed.

Lemma lstrip_id p c l : p c = false -> lstrip_list p (c :: l) = c :: l.
Proof. simpl. now intros ->. Qed.

Lemma lstrip_snoc p l c :
  p c = false -> lstrip_list p (l ++ [c]) = lstrip_list p l ++ [c].
Proof.
  intros Hc. induction l as [|a l IH]; simpl.
  - now rewrite Hc.
  - destruct (p a); [exact IH | reflexivity].
Qed.

Lemma rstrip_cons p c l :
  p c = false -> rstrip_list p (c :: l) = c :: rstrip_list p l.
Proof.
  intros Hc. unfold rstrip_list. simpl.
  rewrite lstrip_snoc by exact Hc. now rewrite rev_app_distr.
Qed.

Lemma rstrip_length p l : length (rstrip_list p l) <= length l.
Proof.
  unfold rstrip_list. rewrite length_rev.
  etransitivity; [apply lstrip_length|]. now rewrite length_rev.
Qed.

Lemma rstrip_last_false p l c :
  p c = false -> rstrip_list p (l ++ [c]) = l ++ [c].
Proof.
  intros Hc. unfold rstrip_list. rewrite rev_app_distr. simpl.
  rewrite Hc. simpl. now rewrite rev_involutive.
Qed.

Lemma rstrip_last_true p l c :
  p c = true -> rstrip_list p (l ++ [c]) = rstrip_list p l.
Proof.
  intros Hc. unfold rstrip_list. rewrite rev_app_distr. simpl.
  now rewrite Hc.
Qed.

End PyStrFacts.

(** ** File names *)

Section SanitizeFacts.
Import PyStr.

Lemma safe_allowed c : safe c = true -> allowed_char c = true.
Proof. destruct c as [[] [] [] [] [] [] [] []]; vm_compute; congruence. Qed.

Lemma safe_not_illegal c : safe c = true -> char_in c illegal_chars = false.
Proof. destruct c as [[] [] [] [] [] [] [] []]; vm_compute; congruence. Qed.

Lemma char_in_spec c s : char_in c s = true <-> In c (chars s).
Proof.
  unfold char_in. rewrite existsb_exists. split.
  - intros (x & Hx & E). apply Ascii.eqb_eq in E. now subst.
  - intros H. exists c. split; [exact H | apply Ascii.eqb_refl].
Qed.

Lemma replace_char_id old new s :
  (forall d, In d (chars s) -> Ascii.eqb d old = false) ->
  replace_char old new s = s.
Proof.
  intros H. unfold replace_char.
  rewrite (map_ext_in _ (fun c => c)).
  - now rewrite map_id, str_chars.
  - intros d Hd. now rewrite (H d Hd).
Qed.

Lemma replace_all_id cs s :
  (forall c d, In c cs -> In d (chars s) -> Ascii.eqb d c = false) ->
  fold_left (fun t char => replace_char char "_" t) cs s = s.
Proof.
  induction cs as [|c cs IH]; simpl; intros H; [reflexivity|].
  rewrite replace_char_id by (intros d Hd; apply (H c d); auto).
  apply IH. intros c' d Hc Hd. apply (H c' d); auto.
Qed.

Lemma filter_id {A} (f : A -> bool) l :
  (forall x, In x l -> f x = true) -> List.filter f l = l.
Proof.
  induction l as [|a l IH]; simpl; intros H; [reflexivity|].
  rewrite (H a) by auto. f_equal. apply IH. auto.
Qed.

(** The characters of the cleaned title. *)
Lemma clean_title_safe title c :
  In c (chars (clean_title title)) -> safe c = true.
Proof.
  unfold clean_title, strip_chars. rewrite !chars_str.
  intros H. apply strip_incl in H. apply filter_In in H. apply H.
Qed.

Lemma strip_list_head p l :
  strip_list p l = [] \/ exists c l', strip_list p l = c :: l' /\ p c = false.
Proof.
  unfold strip_list. destruct (lstrip_list p l) as [|c l'] eqn:E.
  - left. reflexivity.
  - right. pose proof (lstrip_head _ _ _ _ E) as Hc.
    rewrite rstrip_cons by exact Hc. eauto.
Qed.

Lemma clean_title_head title :
  clean_title title = "" \/
  exists c l, chars (clean_title title) = c :: l /\ strippable c = false.
Proof.
  unfold clean_title, strip_chars.
  match goal with |- context [strip_list ?p ?l] =>
    destruct (strip_list_head p l) as [E | (c & l' & E & Hc)] end.
  - left. now rewrite E.
  - right. exists c, l'. rewrite chars_str. split; [exact E | exact Hc].
Qed.

(** What [sanitize_filename] returns: the placeholder, or the cleaned
    title cut to 100 characters. *)
Lemma sanitize_filename_cases title :
  (clean_title title = "" /\ sanitize_filename title = "youtube_video") \/
  (clean_title title <> "" /\
   chars (sanitize_filename title) = firstn 100 (chars (clean_title title))).
Proof.
  unfold sanitize_filename.
  destruct (clean_title_head title) as [E | (c & l & E & Hc)];
    remember (clean_title title) as ct eqn:Hct; clear Hct.
  - left. subst ct. split; reflexivity.
  - right. split; [intros E0; rewrite E0 in E; discriminate|].
    assert (Hct : ct = str (c :: l)) by (rewrite <- E; symmetry; apply str_chars).
    clear E. subst ct. rewrite length_str, chars_str.
    destruct (Nat.ltb_spec 100 (length (c :: l))) as [Hlt | Hge].
    + unfold take. rewrite chars_str.
      change (firstn 100 (c :: l)) with (c :: firstn 99 l).
      change (str (c :: firstn 99 l)) with (String c (str (firstn 99 l))).
      cbn [String.eqb]. now rewrite <- (chars_str (c :: firstn 99 l)).
    + change (str (c :: l)) with (String c (str l)). cbn [String.eqb].
      change (String c (str l)) with (str (c :: l)).
      rewrite chars_str. now rewrite firstn_all2.
Qed.

Lemma sanitize_filename_chars_safe title c :
  In c (chars (sanitize_filename title)) -> safe c = true.
Proof.
  destruct (sanitize_filename_cases title) as [[_ E] | [_ E]]; rewrite E.
  - simpl. intros H.
    repeat (destruct H as [<- | H]; [reflexivity|]). destruct H.
  - intros H. apply firstn_incl in H. eapply clean_title_safe, H.
Qed.

Lemma sanitize_filename_length title :
  String.length (sanitize_filename title) <= 100.
Proof.
  rewrite <- length_chars.
  destruct (sanitize_filename_cases title) as [[_ E] | [_ E]]; rewrite E.
  - simpl. lia.
  - apply firstn_le_length.
Qed.

Lemma sanitize_filename_head title :
  exists c l, chars (sanitize_filename title) = c :: l /\ strippable c = false.
Proof.
  destruct (sanitize_filename_cases title) as [[_ E] | [Hne E]]; rewrite E.
  - simpl. eexists _, _. split; reflexivity.
  - destruct (clean_title_head title) as [E0 | (c & l & E0 & Hc)]; [contradiction|].
    rewrite E0. simpl. eauto.
Qed.

Lemma sanitize_filename_nonempty title : sanitize_filename title <> "".
Proof.
  destruct (sanitize_filename_head title) as (c & l & E & _).
  intros E0. rewrite E0 in E. discriminate.
Qed.

(** Sanitising a name that is already safe, short and does not start with
    a space or an underscore only strips its end. *)
Lemma sanitize_filename_of_safe c l :
  (forall d, In d (c :: l) -> safe d = true) ->
  length (c :: l) <= 100 ->
  strippable c = false ->
  sanitize_filename (str (c :: l)) = str (rstrip_list strippable (c :: l)).
Proof.
  intros Hsafe Hlen Hc.
  assert (Hclean : clean_title (str (c :: l)) = str (rstrip_list strippable (c :: l))).
  { unfold clean_title. rewrite replace_all_id.
    - rewrite chars_str, filter_id by exact Hsafe.
      unfold strip_chars. rewrite chars_str. unfold strip_list.
      fold strippable. rewrite lstrip_id by exact Hc. reflexivity.
    - intros a d Ha Hd. rewrite chars_str in Hd.
      apply Hsafe, safe_not_illegal in Hd.
      destruct (Ascii.eqb d a) eqn:E; [|reflexivity].
      apply Ascii.eqb_eq in E. subst d.
      apply char_in_spec in Ha. congruence. }
  unfold sanitize_filename. rewrite Hclean.
  pose proof (rstrip_length strippable (c :: l)) as Hle.
  rewrite length_str.
  destruct (Nat.ltb_spec 100 (length (rstrip_list strippable (c :: l)))); [lia|].
  rewrite rstrip_cons by exact Hc. reflexivity.
Qed.

Lemma sanitize_filename_twice title :
  sanitize_filename (sanitize_filename title)
  = str (rstrip_list strippable (chars (sanitize_filename title))).
Proof.
  destruct (sanitize_filename_head title) as (c & l & E & Hc).
  rewrite <- (str_chars (sanitize_filename title)) at 1.
  rewrite E. apply sanitize_filename_of_safe.
  - intros d Hd. rewrite <- E in Hd. eapply sanitize_filename_chars_safe, Hd.
  - rewrite <- E, length_chars. apply sanitize_filename_length.
  - exact Hc.
Qed.

Lemma rstrip_fixed_iff p l :
  rstrip_list p l = l <->
  match rev l with c :: _ => p c | [] => false end = false.
Proof.
  destruct (rev l) as [|c t] eqn:E.
  - apply (f_equal (@rev _)) in E. rewrite rev_involutive in E. subst l.
    split; reflexivity.
  - assert (El : l = rev t ++ [c]).
    { apply (f_equal (@rev _)) in E. now rewrite rev_involutive in E. }
    subst l. destruct (p c) eqn:Hc.
    + split; [|discriminate]. intros H.
      rewrite rstrip_last_true in H by exact Hc.
      pose proof (rstrip_length p (rev t)) as Hle.
      rewrite H, length_app in Hle. simpl in Hle. lia.
    + split; [reflexivity|]. intros _. now apply rstrip_last_false.
Qed.

Lemma rstrip_end p l :
  match rev (rstrip_list p l) with c :: _ => p c | [] => false end = false.
Proof.
  unfold rstrip_list. rewrite rev_involutive.
  destruct (lstrip_list p (rev l)) as [|c t] eqn:E; [reflexivity|].
  eapply lstrip_head, E.
Qed.

Lemma str_inj l1 l2 : str l1 = str l2 -> l1 = l2.
Proof. intros H. apply (f_equal chars) in H. now rewrite !chars_str in H. Qed.

End SanitizeFacts.

(** C6: for every raw title the sanitised name contains only letters,
    digits, space, hyphen and underscore, hence none of the characters of
    [illegal_chars]; it has at most 100 characters; and when nothing is left of
    the title the fixed placeholder [youtube_video] is returned (the result
    is never empty). *)
Theorem sanitize_filename_safe (title : string) :
  (forall c, In c (PyStr.chars (sanitize_filename title)) -> allowed_char c = true) /\
  (forall c, In c (PyStr.chars illegal_chars) ->
             ~ In c (PyStr.chars (sanitize_filename title))) /\
  String.length (sanitize_filename title) <= 100 /\
  (clean_title title = "" -> sanitize_filename title = "youtube_video") /\
  sanitize_filename title <> "".
Proof.
  split; [|split; [|split; [|split]]].
  - intros c H. apply safe_allowed. eapply sanitize_filename_chars_safe, H.
  - intros c Hc H. apply sanitize_filename_chars_safe, safe_not_illegal in H.
    apply char_in_spec in Hc. congruence.
  - apply sanitize_filename_length.
  - intros E. destruct (sanitize_filename_cases title) as [[_ H] | [H _]]; [exact H | contradiction].
  - apply sanitize_filename_nonempty.
Qed.


Lemma sanitize_filename_not_idempotent :
  sanitize_filename (sanitize_filename long_title) <> sanitize_filename long_title.
Proof. vm_compute. discriminate. Qed.

(** C7, as the code has it: sanitising a sanitised name gives the same name
    exactly when that name does not end in a space or an underscore, which
    is the case whenever the cleaned title has at most 100 characters, that
    is, whenever the length limit cuts nothing off. *)
Theorem sanitize_filename_idempotent_iff (title : string) :
  (sanitize_filename (sanitize_filename title) = sanitize_filename title
   <-> ends_strippable (sanitize_filename title) = false) /\
  (String.length (clean_title title) <= 100 ->
   sanitize_filename (sanitize_filename title) = sanitize_filename title).
Proof.
  assert (Hiff : sanitize_filename (sanitize_filename title) = sanitize_filename title
                 <-> ends_strippable (sanitize_filename title) = false).
  { rewrite sanitize_filename_twice. unfold ends_strippable.
    rewrite <- rstrip_fixed_iff. split.
    - intros H. apply str_inj. now rewrite str_chars.
    - intros H. now rewrite H, str_chars. }
  split; [exact Hiff|].
  intros Hlen. apply Hiff. unfold ends_strippable.
  destruct (sanitize_filename_cases title) as [[_ E] | [_ E]]; rewrite E; [reflexivity|].
  rewrite firstn_all2 by now rewrite length_chars.
  unfold clean_title, PyStr.strip_chars. rewrite chars_str.
  unfold PyStr.strip_list. apply rstrip_end.
Qed.

(** ** Timestamps and URLs *)

Lemma fmt_02d_two_digits n : (0 <= n <= 99)%Z -> PyInt.fmt_02d n = two_digits n.
Proof.
  intros Hn.
  assert (H : forallb (fun k => String.eqb (PyInt.fmt_02d (Z.of_nat k))
                                          (two_digits (Z.of_nat k)))
                      (seq 0 100) = true) by (vm_compute; reflexivity).
  rewrite forallb_forall in H.
  specialize (H (Z.to_nat n)). rewrite Z2Nat.id in H by lia.
  apply String.eqb_eq, H, in_seq. lia.
Qed.

Section ReFacts.
Import Re.

Lemma strip_prefix_spec p s s' : strip_prefix p s = Some s' <-> s = p +:+ s'.
Proof.
  revert s; induction p as [|a p IH]; intros s; simpl.
  - split; [intros [= ->]; reflexivity | intros ->; reflexivity].
  - destruct s as [|b s]; [split; discriminate|].
    destruct (Ascii.eqb_spec a b) as [->|Hne].
    + rewrite IH. split; [intros ->; reflexivity | intros [= ->]; reflexivity].
    + split; [discriminate | intros E; exfalso; apply Hne; now inversion E].
Qed.

Lemma append_inj_l p a b : p +:+ a = p +:+ b -> a = b.
Proof.
  induction p as [|c p IH]; simpl; intros H; [exact H|].
  apply IH. now inversion H.
Qed.

Lemma run_Lit l pos s k :
  run (Lit l) pos s k = true <->
  exists s', s = l +:+ s' /\ k (pos + String.length l)%nat s' = true.
Proof.
  cbn [run]. destruct (strip_prefix l s) as [s'|] eqn:E.
  - apply strip_prefix_spec in E. split; [eauto|].
    intros (s2 & E2 & Hk). subst s.
    apply append_inj_l in E2. now subst s2.
  - split; [discriminate|]. intros (s2 & E2 & _).
    apply strip_prefix_spec in E2. congruence.
Qed.

Lemma no_newline_cons c p :
  no_newline (String c p) <-> c <> newline /\ no_newline p.
Proof.
  unfold no_newline. simpl. split.
  - intros H. split; [intros ->|]; tauto.
  - intros [H1 H2] [E|E]; [congruence | tauto].
Qed.

Lemma no_newline_empty : no_newline "".
Proof. intros []. Qed.

(** [.+]: a non-empty run of characters other than the newline. *)
Lemma repeat_from_Dot k fuel pos s :
  String.length s <= fuel ->
  (repeat_from (run Dot) k fuel pos s = true <->
   exists p s', p <> "" /\ no_newline p /\ s = p +:+ s'
                /\ k (pos + String.length p)%nat s' = true).
Proof.
  revert pos s; induction fuel as [|fuel IH]; intros pos s Hlen.
  - destruct s; [|simpl in Hlen; lia]. simpl. split; [discriminate|].
    intros (p & s' & Hp & _ & E & _). destruct p; [congruence | discriminate].
  - destruct s as [|c s]; cbn [repeat_from run].
    + split; [discriminate|].
      intros (p & s' & Hp & _ & E & _). destruct p; [congruence | discriminate].
    + assert (Hlt : (String.length s <? String.length (String c s))%nat = true)
        by (apply Nat.ltb_lt; simpl; lia).
      rewrite Hlt, andb_true_l, andb_true_iff, negb_true_iff, orb_true_iff.
      rewrite IH by (simpl in Hlen; lia).
      split.
      * intros [Hc [Hk | (p & s' & Hp & Hnl & E & Hk)]].
        -- exists (String c ""), s. simpl.
           rewrite Nat.add_1_r. repeat split; try congruence.
           apply no_newline_cons. split; [|apply no_newline_empty].
           intros ->. now rewrite Ascii.eqb_refl in Hc.
        -- exists (String c p), s'. subst s. simpl.
           rewrite Nat.add_succ_r. repeat split; try congruence; try exact Hk.
           apply no_newline_cons. split; [|exact Hnl].
           intros ->. now rewrite Ascii.eqb_refl in Hc.
      * intros (p & s' & Hp & Hnl & E & Hk).
        destruct p as [|c' p]; [congruence|]. simpl in E.
        injection E as <- ->. apply no_newline_cons in Hnl. destruct Hnl as [Hc Hnl].
        split; [now apply Ascii.eqb_neq|].
        destruct p as [|c2 p].
        -- left. simpl in Hk. now rewrite Nat.add_1_r in Hk.
        -- right. exists (String c2 p), s'. repeat split; try congruence.
           simpl in Hk |- *. now rewrite Nat.add_succ_r in Hk.
Qed.

Lemma run_Eol pos s :
  run Eol pos s (fun _ _ => true) = true <-> s = "" \/ s = String newline "".
Proof.
  cbn [run]. rewrite andb_true_r, orb_true_iff, !String.eqb_eq. tauto.
Qed.

End ReFacts.

Section UrlFacts.
Import Re.

Lemma run_Seq r1 r2 pos s k :
  run (Seq r1 r2) pos s k = run r1 pos s (fun pos' s' => run r2 pos' s' k).
Proof. reflexivity. Qed.

Lemma run_Opt r pos s k : run (Opt r) pos s k = run r pos s k || k pos s.
Proof. reflexivity. Qed.

Lemma run_Alt r1 r2 pos s k : run (Alt r1 r2) pos s k = run r1 pos s k || run r2 pos s k.
Proof. reflexivity. Qed.

Lemma run_Bol s k : run Bol 0 s k = k 0 s.
Proof. reflexivity. Qed.

Lemma run_Plus r pos s k :
  run (Plus r) pos s k = repeat_from (run r) k (String.length s) pos s.
Proof. reflexivity. Qed.

Lemma run_Plus_Dot pos s k :
  run (Plus Dot) pos s k = true <->
  exists p s', p <> "" /\ no_newline p /\ s = p +:+ s'
               /\ k (pos + String.length p)%nat s' = true.
Proof. rewrite run_Plus. apply repeat_from_Dot. lia. Qed.

Ltac url_inv H :=
  repeat first
    [ progress cbv beta in H
    | rewrite run_Seq in H
    | rewrite run_Bol in H
    | rewrite run_Opt in H; apply orb_true_iff in H; destruct H as [H | H]
    | rewrite run_Alt in H; apply orb_true_iff in H; destruct H as [H | H]
    | apply run_Lit in H; destruct H as (? & -> & H)
    | apply run_Plus_Dot in H;
      let p := fresh "path" in let t := fresh "tail" in
      destruct H as (p & t & ? & ? & -> & H)
    | apply run_Eol in H ].

Ltac with_scheme k :=
  first [ k constr:(""%string) | k constr:("http://"%string) | k constr:("https://"%string) ].
Ltac with_www k := first [ k constr:(""%string) | k constr:("www."%string) ].
Ltac with_host k := first [ k constr:("youtube.com"%string) | k constr:("youtu.be"%string) ].

Ltac url_match :=
  lazymatch goal with
  | |- run (Seq _ _) _ _ _ = true => rewrite run_Seq; url_match
  | |- run Bol _ _ _ = true => rewrite run_Bol; url_match
  | |- run (Opt _) _ _ _ = true =>
      rewrite run_Opt; apply orb_true_iff;
      first [ left; solve [url_match] | right; url_match ]
  | |- run (Alt _ _) _ _ _ = true =>
      rewrite run_Alt; apply orb_true_iff;
      first [ left; solve [url_match] | right; url_match ]
  | |- run (Lit _) _ _ _ = true =>
      apply run_Lit; eexists; split; [reflexivity | cbv beta; url_match]
  | |- run (Plus Dot) _ _ _ = true =>
      apply run_Plus_Dot; do 2 eexists;
      split; [eassumption | split; [eassumption | split; [reflexivity | url_match]]]
  | |- run Eol _ _ _ = true => apply run_Eol; tauto
  | |- _ => cbv beta; url_match
  end.

Lemma is_valid_url_iff url : is_valid_url url = true <-> accepted_url url.
Proof.
  unfold is_valid_url, matches, url_pattern, accepted_url. split.
  - intros H. url_inv H.
    all: with_scheme ltac:(fun sc => with_www ltac:(fun w => with_host ltac:(fun h =>
           solve [ exists sc, w, h, path, tail;
                   repeat (split; [solve [simpl; tauto | assumption
                                         | simpl; destruct H as [-> | ->]; tauto] |]);
                   reflexivity ]))).
  - intros (scheme & www & host & path & tail & Hs & Hw & Hh & Hp & Hnl & Ht & ->).
    simpl in Hs, Hw, Hh, Ht.
    destruct Hs as [<- | [<- | [<- | []]]];
      destruct Hw as [<- | [<- | []]];
      destruct Hh as [<- | [<- | []]];
      destruct Ht as [<- | [<- | []]];
      url_match.
Qed.
End UrlFacts.


(** The URL described as accepted whose path is a lone newline is rejected. *)
Lemma url_with_newline_path_rejected :
  described_url ("youtu.be/" +:+ String Re.newline "") /\
  is_valid_url ("youtu.be/" +:+ String Re.newline "") = false.
Proof.
  split; [|reflexivity].
  exists "", "", "youtu.be", (String Re.newline "").
  split; [simpl; tauto|]. split; [simpl; tauto|]. split; [simpl; tauto|].
  split; [discriminate | reflexivity].
Qed.

(** C9, as the code has it: [is_valid_url] accepts exactly the strings made
    of an optional scheme, an optional [www.], one of the two hosts, a
    slash and a non-empty path without newline characters, which one final
    newline may follow; it accepts the two YouTube examples and rejects the
    other one. *)
Theorem is_valid_url_accepts (url : string) :
  (is_valid_url url = true <-> accepted_url url) /\
  is_valid_url "https://www.youtube.com/watch?v=abc123" = true /\
  is_valid_url "youtu.be/abc123" = true /\
  is_valid_url "https://vimeo.com/123" = false.
Proof.
  split; [apply is_valid_url_iff|]. repeat split; reflexivity.
Qed.

(** ** Running a command *)

(** C10: [run_command] always returns a pair and never raises. When
    starting the process, the callback or [communicate] raises, the pair is
    exit code 1 with the text of the exception; otherwise it is the exit
    code of the process with its standard output followed by its standard
    error. *)
Theorem run_command_never_raises env cmd cb st :
  (exists code output st', run_command env cmd cb st = (inr (code, output), st')) /\
  (forall e st1, Popen env cmd st = (inl e, st1) ->
     run_command env cmd cb st = (inr (1%Z, exn_text e), st1)) /\
  (forall p st1 e st2,
     Popen env cmd st = (inr p, st1) -> call_back cb p st1 = (inl e, st2) ->
     run_command env cmd cb st = (inr (1%Z, exn_text e), st2)) /\
  (forall p st1 st2 e,
     Popen env cmd st = (inr p, st1) -> call_back cb p st1 = (inr tt, st2) ->
     communicate p = inl e ->
     run_command env cmd cb st = (inr (1%Z, exn_text e), set_files (files_after p) st2)) /\
  (forall p st1 st2 out err,
     Popen env cmd st = (inr p, st1) -> call_back cb p st1 = (inr tt, st2) ->
     communicate p = inr (out, err) ->
     run_command env cmd cb st
     = (inr (returncode p, out +:+ err), set_files (files_after p) st2)).
Proof.
  unfold run_command, catch, bind, process_communicate, ret.
  split; [|split; [|split; [|split]]].
  - destruct (Popen env cmd st) as [[e | p] st1]; [eauto|].
    destruct (call_back cb p st1) as [[e | []] st2]; [eauto|].
    destruct (communicate p) as [e | [out err]]; eauto.
  - intros e st1 ->. reflexivity.
  - intros p st1 e st2 -> ->. reflexivity.
  - intros p st1 st2 e -> -> ->. reflexivity.
  - intros p st1 st2 out err -> -> ->. reflexivity.
Qed.

Section RunCommandFacts.
Variable env : environment.

Lemma run_command_set_process cmd st :
  run_command env cmd (Some set_process) st
  = (inr (exit_of (outcome_of (asked env cmd st))), after_run (asked env cmd st) st).
Proof.
  unfold run_command, catch, bind, Popen, call_back, set_process,
    process_communicate, ret, after_run, asked, exit_of. cbn [outcome_of].
  destruct (popen env (length (runs st)) cmd (files st)) as [e | p]; [reflexivity|].
  destruct (communicate p) as [e | res]; reflexivity.
Qed.

End RunCommandFacts.

(** ** The pipeline, step by step *)

Lemma last_add_log msg st : last (log (add_log msg st)) = Some msg.
Proof. cbn [log add_log]. apply last_snoc. Qed.

Lemma not_in_removed (p : string) (fs : gset string) : p ∉ fs ∖ {[ p ]}.
Proof. rewrite elem_of_difference, elem_of_singleton. tauto. Qed.

Lemma in_removed_iff (p q : string) (fs : gset string) :
  q <> p -> (q ∈ fs ∖ {[ p ]} <-> q ∈ fs).
Proof. intros H. rewrite elem_of_difference, elem_of_singleton. tauto. Qed.

Lemma removed_absent (p : string) (fs : gset string) : p ∉ fs -> fs ∖ {[ p ]} = fs.
Proof.
  intros H. apply set_eq. intros q. rewrite elem_of_difference, elem_of_singleton.
  split; [tauto|]. intros Hq. split; [exact Hq|]. intros ->. contradiction.
Qed.


Ltac step :=
  cbn [bind ret catch raise status_callback cancel_callback path_exists clear_process
       fst snd files log runs polls signals process_var
       set_files add_log add_run add_poll add_signal set_process_var].

Section PipelineFacts.
Variable env : environment.

Lemma set_files_same st : set_files (files st) st = st.
Proof. now destruct st. Qed.

Lemma cleanup_partial_eq p st :
  cleanup_partial p st = (inr tt, set_files (files st ∖ {[ p ]}) st).
Proof.
  unfold cleanup_partial, unlink. step.
  destruct (bool_decide (p ∈ files st)) eqn:E; step.
  - unfold catch. now rewrite E.
  - apply bool_decide_eq_false in E.
    rewrite removed_absent by exact E. now rewrite set_files_same.
Qed.

Lemma unlink_if_exists_eq p st :
  unlink_if_exists p st = (inr tt, set_files (files st ∖ {[ p ]}) st).
Proof.
  unfold unlink_if_exists, unlink. step.
  destruct (bool_decide (p ∈ files st)) eqn:E; step.
  - now rewrite E.
  - apply bool_decide_eq_false in E.
    rewrite removed_absent by exact E. now rewrite set_files_same.
Qed.

Lemma exit_of_zero r : (fst (exit_of r) =? 0)%Z = exited_zero r.
Proof.
  destruct r as [e | p]; [reflexivity|]. unfold exit_of, exited_zero.
  destruct (communicate p); reflexivity.
Qed.

Lemma bind_eq {A B} (m : M A) (f : A -> M B) st :
  bind m f st
  = match m st with
    | (inr a, st') => f a st'
    | (inl e, st') => (inl e, st')
    end.
Proof. reflexivity. Qed.

Lemma asked_same cmd st st0 :
  files st0 = files st -> runs st0 = runs st -> polls st0 = polls st ->
  asked env cmd st0 = asked env cmd st.
Proof. unfold asked. now intros -> -> ->. Qed.

Lemma files_after_run cmd st st0 :
  files st0 = files st -> runs st0 = runs st ->
  files (after_run (asked env cmd st) st0) = files_left (asked env cmd st).
Proof.
  intros Ef Er. unfold after_run, files_left, asked. cbn [outcome_of files_before].
  destruct (popen env _ _ _); cbn [files add_run set_files]; [exact Ef | reflexivity].
Qed.

Lemma runs_after_run a st : runs (after_run a st) = runs st ++ [a].
Proof.
  unfold after_run. destruct (outcome_of a); reflexivity.
Qed.

Lemma polls_after_run a st : polls (after_run a st) = polls st.
Proof. unfold after_run. destruct (outcome_of a); reflexivity. Qed.

Lemma stop_process_eq st : stop_process st = (inr tt, snd (stop_process st)).
Proof.
  unfold stop_process. destruct (process_var st) as [p|]; [|reflexivity].
  destruct (wait_ok p); reflexivity.
Qed.

Lemma files_stop_process st : files (snd (stop_process st)) = files st.
Proof.
  unfold stop_process. destruct (process_var st) as [p|]; [|reflexivity].
  destruct (wait_ok p); reflexivity.
Qed.

Section Retrieval.
Variables (url cookies_arg full_output : string).

(** One round of the fallback loop, as an equation on states. *)
Lemma try_player_clients_cons client rest st :
  let st0 := set_process_var None
               (add_log ("Trying " +:+ fst (fst client) +:+ " player client...")
                        (add_poll st)) in
  let a := asked env (ytdlp_cmd url cookies_arg full_output client) st0 in
  let st1 := add_poll (after_run a st0) in
  try_player_clients env url cookies_arg full_output (client :: rest) st =
  if cancel_flag env (polls st)
  then (inr LoopReturn, add_log "Download cancelled." (add_poll st))
  else if cancel_flag env (S (polls st))
  then (inr LoopReturn, add_log "Download cancelled." (snd (stop_process st1)))
  else if downloaded full_output a
  then (inr LoopBreak,
        add_log ("✅ Download successful using " +:+ fst (fst client)
                 +:+ " player client!") st1)
  else try_player_clients env url cookies_arg full_output rest
         (set_files (files_left a ∖ {[ full_output ]})
            (add_log ("❌ " +:+ fst (fst client) +:+ " client failed: "
                      +:+ snd (exit_of (outcome_of a))) st1)).
Proof.
  intros st0 a st1. cbn [try_player_clients]. step.
  destruct (cancel_flag env (polls st)); step; [reflexivity|].
  rewrite bind_eq, run_command_set_process. step.
  rewrite polls_after_run. step.
  fold st0 a st1.
  destruct (cancel_flag env (S (polls st))); step.
  { rewrite bind_eq, stop_process_eq. step. reflexivity. }
  rewrite exit_of_zero.
  assert (Hf : files st1 = files_left a) by now apply files_after_run.
  change (files (after_run a st0)) with (files st1). rewrite Hf.
  change (exited_zero (outcome_of a) && bool_decide (full_output ∈ files_left a))
    with (downloaded full_output a).
  destruct (downloaded full_output a); step; [reflexivity|].
  rewrite bind_eq, cleanup_partial_eq. step.
  change (files (after_run a st0)) with (files st1). now rewrite Hf.
Qed.

Lemma try_generic_eq st :
  let st0 := set_process_var None
               (add_log "All player clients failed. Trying generic extractor as fallback..."
                        st) in
  let a := asked env (generic_cmd url cookies_arg full_output) st in
  let st1 := add_poll (after_run a st0) in
  try_generic env url cookies_arg full_output st =
  if cancel_flag env (polls st)
  then (inr Returned, add_log "Download cancelled." (snd (stop_process st1)))
  else if downloaded full_output a
  then (inr Downloaded, add_log "✅ Download successful using generic extractor!" st1)
  else (inr Returned,
        add_log "❌ All extraction methods failed. Download cannot proceed."
          (set_files (files_left a ∖ {[ full_output ]})
             (add_log ("❌ Generic extractor failed: " +:+ snd (exit_of (outcome_of a)))
                      st1))).
Proof.
  intros st0 a st1. unfold try_generic. step.
  rewrite bind_eq, run_command_set_process. step.
  rewrite polls_after_run. step.
  rewrite (asked_same _ st) by reflexivity. fold st0 a st1.
  destruct (cancel_flag env (polls st)); step.
  { rewrite bind_eq, stop_process_eq. step. reflexivity. }
  rewrite exit_of_zero.
  assert (Hf : files st1 = files_left a) by now apply files_after_run.
  change (files (after_run a st0)) with (files st1). rewrite Hf.
  change (exited_zero (outcome_of a) && bool_decide (full_output ∈ files_left a))
    with (downloaded full_output a).
  destruct (downloaded full_output a); step; [reflexivity|].
  rewrite bind_eq, cleanup_partial_eq. step.
  change (files (after_run a st0)) with (files st1). now rewrite Hf.
Qed.

Variables (start end_ clipped_output : string).

Lemma trim_eq st :
  let st0 := add_log "Trimming video with ffmpeg..." st in
  let a := asked env (ffmpeg_cmd start end_ full_output clipped_output) st in
  let st1 := add_poll (after_run a st0) in
  trim env start end_ full_output clipped_output st =
  if cancel_flag env (polls st)
  then (inr tt,
        set_files (files_left a ∖ {[ full_output ]})
          (add_log "Trimming cancelled." (snd (stop_process st1))))
  else if exited_zero (outcome_of a) && bool_decide (clipped_output ∈ files_left a)
  then unlink full_output (add_log ("Clip saved as " +:+ clipped_output +:+ "!") st1)
  else (inr tt,
        set_files (files_left a ∖ {[ full_output ]})
          (add_log ("ffmpeg failed: " +:+ snd (exit_of (outcome_of a))) st1)).
Proof.
  intros st0 a st1. unfold trim. step.
  rewrite bind_eq, run_command_set_process. step.
  rewrite polls_after_run. step.
  rewrite (asked_same _ st) by reflexivity. fold st0 a st1.
  assert (Hf : files st1 = files_left a) by now apply files_after_run.
  destruct (cancel_flag env (polls st)); step.
  { rewrite bind_eq, stop_process_eq. step.
    rewrite unlink_if_exists_eq. step. now rewrite files_stop_process, Hf. }
  rewrite exit_of_zero.
  change (files (after_run a st0)) with (files st1). rewrite Hf.
  destruct (exited_zero (outcome_of a) && bool_decide (clipped_output ∈ files_left a));
    step; [reflexivity|].
  rewrite unlink_if_exists_eq. step.
  change (files (after_run a st0)) with (files st1). now rewrite Hf.
Qed.


Section NeverCancelled.
Hypothesis never_cancelled : forall n, cancel_flag env n = false.


End NeverCancelled.

End Retrieval.
End PipelineFacts.

Section SetupFacts.
Variable env : environment.

Lemma get_video_title_eq url st :
  let a := asked env (title_cmd url) st in
  get_video_title env url st = (inr (probe_title a), after_probe a st).
Proof.
  intros a. unfold get_video_title, subprocess_run, catch, bind, Popen,
    process_communicate, ret, probe_title, after_probe.
  subst a. unfold asked. cbn [outcome_of].
  destruct (popen env (length (runs st)) (title_cmd url) (files st)) as [e | p];
    [reflexivity|].
  destruct (communicate p) as [e | res]; [reflexivity|]. cbn [fst snd].
  destruct (returncode p =? 0)%Z; reflexivity.
Qed.

Lemma files_after_probe cmd st st0 :
  files st0 = files st -> runs st0 = runs st ->
  files (after_probe (asked env cmd st) st0) = files_left (asked env cmd st).
Proof.
  intros Ef Er. unfold after_probe, files_left, asked. cbn [outcome_of files_before].
  destruct (popen env _ _ _); cbn [files add_run set_files]; [exact Ef | reflexivity].
Qed.

Lemma runs_after_probe a st : runs (after_probe a st) = runs st ++ [a].
Proof. unfold after_probe. destruct (outcome_of a); reflexivity. Qed.

Lemma polls_after_probe a st : polls (after_probe a st) = polls st.
Proof. unfold after_probe. destruct (outcome_of a); reflexivity. Qed.

Lemma signals_after_probe a st : signals (after_probe a st) = signals st.
Proof. unfold after_probe. destruct (outcome_of a); reflexivity. Qed.

Lemma prepare_eq url start end_ st :
  mkdir_raises env (files st) = None ->
  let a := asked env (title_cmd url) st in
  let video_title := title_or_default env (probe_title a) in
  prepare env url start end_ st =
  (inr (if bool_decide (cookies_path env ∈ files_left a)
        then "--cookies " +:+ quoted (cookies_path env) else "",
        in_download_dir env (full_name video_title),
        in_download_dir env (clip_name video_title start end_)),
   add_log ("Downloading: " +:+ video_title)
           (after_probe a (add_log "Starting download..." st))).
Proof.
  intros Hm a video_title. unfold prepare. step.
  rewrite bind_eq. unfold mkdir_download_dir. step. rewrite Hm. step.
  rewrite bind_eq, get_video_title_eq. step.
  rewrite (asked_same _ _ st) by reflexivity.
  now rewrite files_after_probe by reflexivity.
Qed.

(** When the download directory cannot be created, [prepare] raises after
    its first status message and nothing else is done. *)
Lemma prepare_raises url start end_ st e :
  mkdir_raises env (files st) = Some e ->
  prepare env url start end_ st = (inl e, add_log "Starting download..." st).
Proof.
  intros Hm. unfold prepare. step.
  rewrite bind_eq. unfold mkdir_download_dir. step. now rewrite Hm.
Qed.

Lemma download_and_clip_mkdir_raises url start end_ st e :
  mkdir_raises env (files st) = Some e ->
  download_and_clip env url start end_ st = (inl e, add_log "Starting download..." st).
Proof.
  intros Hm. unfold download_and_clip. now rewrite bind_eq, (prepare_raises _ _ _ _ _ Hm).
Qed.

Lemma prepare_returns url start end_ st names st1 :
  prepare env url start end_ st = (inr names, st1) -> mkdir_raises env (files st) = None.
Proof.
  intros Hp. destruct (mkdir_raises env (files st)) as [e|] eqn:Hm; [|reflexivity].
  rewrite (prepare_raises _ _ _ _ _ Hm) in Hp. discriminate.
Qed.

(** The two output paths of a run differ. *)
Lemma clip_path_not_full title start end_ :
  in_download_dir env (clip_name title start end_) <> in_download_dir env (full_name title).
Proof.
  unfold in_download_dir, clip_name, full_name. intros H.
  do 3 apply append_inj_l in H. discriminate.
Qed.

Lemma title_or_default_probe a t :
  probe_title a = Some t -> title_or_default env (probe_title a) = t.
Proof.
  intros E. rewrite E. unfold title_or_default.
  destruct (String.eqb_spec t "") as [->|]; [|reflexivity].
  unfold probe_title in E. destruct (outcome_of a) as [|p]; [discriminate|].
  destruct (communicate p); [discriminate|].
  destruct (returncode p =? 0)%Z; [|discriminate].
  injection E as E. now apply sanitize_filename_nonempty in E.
Qed.

End SetupFacts.

(** ** The pipeline as a whole *)


(** C3, as the code has it: the run first creates the download directory.
    When that raises, the run raises with it, after its first status
    message, and has started no subprocess and asked for no cancellation.
    When the directory can be created and the cancellation predicate is
    true at its first call, the run reports "Download cancelled." and
    returns having started exactly one subprocess, the title lookup; no
    download and no transcoder is started and no signal is sent. *)
Theorem cancelled_before_first_attempt env url start end_ st :
  cancel_flag env (polls st) = true ->
  match mkdir_raises env (files st) with
  | Some e =>
      download_and_clip env url start end_ st
      = (inl e, add_log "Starting download..." st)
  | None =>
      exists st',
        download_and_clip env url start end_ st = (inr tt, st') /\
        runs st' = runs st ++ [asked env (title_cmd url) st] /\
        last (log st') = Some "Download cancelled." /\
        signals st' = signals st
  end.
Proof.
  intros Hc. destruct (mkdir_raises env (files st)) as [e|] eqn:Hm.
  { now apply download_and_clip_mkdir_raises. }
  unfold download_and_clip. rewrite bind_eq, prepare_eq by exact Hm.
  unfold retrieve_and_trim, retrieve, player_clients.
  rewrite !bind_eq, try_player_clients_cons. step.
  rewrite polls_after_probe. step. rewrite Hc.
  eexists. split; [reflexivity|].
  split; [step; rewrite runs_after_probe; reflexivity|].
  split; [apply last_add_log|]. step. now rewrite signals_after_probe.
Qed.

(** C2, as the code has it: when the cancellation predicate is true at the
    check that follows the transcoder, the run ends normally, its last
    report is "Trimming cancelled.", and the intermediate file is deleted;
    nothing else is removed, so the clip file exists afterwards exactly
    when the transcoder left one. *)
Theorem cancelled_trim_removes_download env url start end_ st cookies_arg full_output
        clipped_output st1 st2 :
  prepare env url start end_ st = (inr (cookies_arg, full_output, clipped_output), st1) ->
  retrieve env url cookies_arg full_output player_clients st1 = (inr Downloaded, st2) ->
  cancel_flag env (polls st2) = true ->
  let a := asked env (ffmpeg_cmd start end_ full_output clipped_output) st2 in
  exists st',
    download_and_clip env url start end_ st = (inr tt, st') /\
    last (log st') = Some "Trimming cancelled." /\
    files st' = files_left a ∖ {[ full_output ]} /\
    (full_output ∉ files st') /\
    (clipped_output ∈ files st' <-> clipped_output ∈ files_left a).
Proof.
  intros Hp Hr Hc a. unfold download_and_clip. rewrite bind_eq, Hp.
  unfold retrieve_and_trim. rewrite bind_eq, Hr, trim_eq, Hc. fold a.
  eexists. split; [reflexivity|].
  split.
  { cbn [log set_files]. rewrite last_add_log. reflexivity. }
  cbn [files set_files]. split; [reflexivity|]. split; [apply not_in_removed|].
  apply in_removed_iff.
  rewrite prepare_eq in Hp by exact (prepare_returns _ _ _ _ _ _ _ Hp).
  injection Hp as _ <- <- _.
  apply clip_path_not_full.
Qed.

(** C4, as the code has it: when the retrieval succeeds and the transcoder
    exits with status 0 and leaves the clip file, the run reports the clip
    as saved, the intermediate file is gone and the clip file exists (the
    files are those the transcoder left, minus the intermediate one). The
    clip is named by the video title, [_clip_], and the two bounds with
    their colons turned into hyphens; the title is the sanitised title
    whenever the title lookup succeeds, and sanitising keeps spaces: the
    title "My Video" with bounds 00:00:10 and 00:01:00 gives
    [My Video_clip_00-00-10_to_00-01-00.mp4]. *)
Theorem clip_saved_and_named env url start end_ st cookies_arg full_output clipped_output
        st1 st2 p res :
  prepare env url start end_ st = (inr (cookies_arg, full_output, clipped_output), st1) ->
  retrieve env url cookies_arg full_output player_clients st1 = (inr Downloaded, st2) ->
  cancel_flag env (polls st2) = false ->
  popen env (length (runs st2)) (ffmpeg_cmd start end_ full_output clipped_output) (files st2)
  = inr p ->
  communicate p = inr res -> returncode p = 0%Z -> clipped_output ∈ files_after p ->
  (exists r st',
     download_and_clip env url start end_ st = (r, st') /\
     (full_output ∈ files_after p -> r = inr tt) /\
     last (log st') = Some ("Clip saved as " +:+ clipped_output +:+ "!") /\
     files st' = files_after p ∖ {[ full_output ]} /\
     (full_output ∉ files st') /\ (clipped_output ∈ files st')) /\
  (exists video_title,
     clipped_output
     = in_download_dir env
         (video_title +:+ "_clip_" +:+ format_time_for_filename start +:+ "_to_"
          +:+ format_time_for_filename end_ +:+ ".mp4") /\
     forall t, probe_title (asked env (title_cmd url) st) = Some t -> video_title = t) /\
  clip_name "My Video" "00:00:10" "00:01:00" = "My Video_clip_00-00-10_to_00-01-00.mp4".
Proof.
  intros Hp Hr Hc Hpo Hco Hrc Hclip.
  assert (Hne : clipped_output <> full_output).
  { rewrite prepare_eq in Hp by exact (prepare_returns _ _ _ _ _ _ _ Hp).
    injection Hp as _ <- <- _. apply clip_path_not_full. }
  split; [|split].
  - unfold download_and_clip. rewrite bind_eq, Hp.
    unfold retrieve_and_trim. rewrite bind_eq, Hr, trim_eq, Hc.
    set (a := asked env (ffmpeg_cmd start end_ full_output clipped_output) st2).
    assert (Ho : outcome_of a = inr p) by exact Hpo.
    assert (Hl : files_left a = files_after p) by (unfold files_left; now rewrite Ho).
    assert (Hz : exited_zero (outcome_of a) = true).
    { rewrite Ho. unfold exited_zero. rewrite Hco, Hrc. reflexivity. }
    rewrite Hz, Hl, bool_decide_eq_true_2 by exact Hclip. cbn [andb].
    subst a. unfold unlink. step. rewrite files_after_run by reflexivity. rewrite Hl.
    destruct (bool_decide (full_output ∈ files_after p)) eqn:Ef.
    + eexists _, _. split; [reflexivity|]. split; [reflexivity|].
      split; [cbn [log set_files]; apply last_add_log|].
      cbn [files set_files]. split; [reflexivity|]. split; [apply not_in_removed|].
      now apply in_removed_iff.
    + apply bool_decide_eq_false in Ef.
      eexists _, _. split; [reflexivity|]. split; [contradiction|].
      split; [apply last_add_log|]. step. rewrite files_after_run by reflexivity.
      rewrite Hl, removed_absent by exact Ef. auto.
  - rewrite prepare_eq in Hp by exact (prepare_returns _ _ _ _ _ _ _ Hp).
    injection Hp as _ _ <- _.
    eexists. split; [reflexivity|]. intros t Ht. now apply title_or_default_probe.
  - reflexivity.
Qed.

(** ** The helpers on small inputs *)

Example sanitize_filename_examples :
  sanitize_filename "My Video" = "My Video" /\
  sanitize_filename " a<b>c:d/e\f|g?h*i! " = "a_b_c_d_e_f_g_h_i" /\
  sanitize_filename "?? __" = "youtube_video" /\
  String.length (sanitize_filename long_title) = 100.
Proof. repeat split; reflexivity. Qed.

Example int_examples :
  PyInt.int "07" = Some 7%Z /\ PyInt.int " 12 " = Some 12%Z /\
  PyInt.int "1_0" = Some 10%Z /\ PyInt.int "+5" = Some 5%Z /\
  PyInt.int "-3" = Some (-3)%Z /\ PyInt.int "1__0" = None /\
  PyInt.int "_1" = None /\ PyInt.int "1.5" = None /\ PyInt.int "" = None.
Proof. repeat split; reflexivity. Qed.

Example time_examples :
  is_valid_time "7" "" "9" = true /\
  format_time "7" "" "9" = Some "07:00:09" /\
  is_valid_time "24" "0" "0" = false /\
  is_valid_time "1" "x" "0" = false /\
  is_valid_time "-1" "0" "0" = false /\
  format_time_for_filename "00:01:00" = "00-01-00".
Proof. repeat split; reflexivity. Qed.

Example url_examples :
  is_valid_url "http://youtube.com/x" = true /\
  is_valid_url "youtube.com/" = false /\
  is_valid_url "ftp://youtube.com/x" = false /\
  is_valid_url ("youtu.be/abc" +:+ String Re.newline "") = true /\
  is_valid_url ("youtu.be/a" +:+ String Re.newline "b") = false.
Proof. repeat split; reflexivity. Qed.

(** ** Concrete runs of [download_and_clip] *)

(** C1: the run does not always delete the intermediate full-download file.
    When the user cancels while the first download is running and that
    download still completes, the run has produced the file (it did not exist
    before), ends by reporting "Download cancelled.", and leaves the file on
    disk: the cancellation branch after a download attempt has no cleanup. *)
Theorem download_cancelled_leaves_full_file :
  let e := Scenario.world Scenario.working Scenario.during_download in
  (Scenario.full ∉ files (initial ∅)) /\
  fst (Scenario.go e) = inr tt /\
  last (log (snd (Scenario.go e))) = Some "Download cancelled." /\
  Forall (fun a => downloaded Scenario.full a = true) (tail (runs (snd (Scenario.go e)))) /\
  length (runs (snd (Scenario.go e))) = 2 /\
  Scenario.full ∈ files (snd (Scenario.go e)).
Proof.
  cbv zeta. split; [apply not_elem_of_empty|].
  split; [vm_compute; reflexivity|]. split; [vm_compute; reflexivity|].
  split.
  { destruct (runs (snd (Scenario.go (Scenario.world Scenario.working
                                        Scenario.during_download))))
      as [|a0 [|a1 [|a2 l]]] eqn:E; try (vm_compute in E; discriminate E).
    cbn [tail]. constructor; [|constructor].
    assert (Ea : nth_error (runs (snd (Scenario.go (Scenario.world Scenario.working
                                        Scenario.during_download)))) 1 = Some a1)
      by now rewrite E.
    clear E. vm_compute in Ea. injection Ea as <-. vm_compute. reflexivity. }
  split; [vm_compute; reflexivity|].
  refine (bool_decide_unpack _ _). vm_compute. exact I.
Qed.

(** A cancellation seen after the transcoder leaves the clip it wrote. *)
Lemma cancelled_trim_leaves_clip :
  let e := Scenario.world Scenario.working Scenario.during_trim in
  fst (Scenario.go e) = inr tt /\
  last (log (snd (Scenario.go e))) = Some "Trimming cancelled." /\
  Scenario.clip ∈ files (snd (Scenario.go e)).
Proof.
  cbv zeta. split; [vm_compute; reflexivity|]. split; [vm_compute; reflexivity|].
  refine (bool_decide_unpack _ _). vm_compute. exact I.
Qed.

Lemma cancelled_trim_removes_download_witness :
  let e := Scenario.world Scenario.working Scenario.during_trim in
  exists st',
    Scenario.go e = (inr tt, st') /\
    last (log st') = Some "Trimming cancelled." /\
    (Scenario.full ∉ files st').
Proof.
  cbv zeta.
  set (e := Scenario.world Scenario.working Scenario.during_trim).
  set (st1 := snd (prepare e Scenario.url "00:00:10" "00:01:00" (initial ∅))).
  set (st2 := snd (retrieve e Scenario.url "" Scenario.full player_clients st1)).
  destruct (cancelled_trim_removes_download e Scenario.url "00:00:10" "00:01:00"
              (initial ∅) "" Scenario.full Scenario.clip st1 st2)
    as (st' & Hrun & Hlog & _ & Hfull & _).
  - vm_compute. reflexivity.
  - vm_compute. reflexivity.
  - vm_compute. reflexivity.
  - exists st'. split; [exact Hrun|]. split; [exact Hlog | exact Hfull].
Defined.

(** With cancellation requested from the start, the run still starts one
    subprocess. *)
Lemma cancelled_run_starts_title_lookup :
  let e := Scenario.world Scenario.working Scenario.always in
  cancel_flag e 0 = true /\
  fst (Scenario.go e) = inr tt /\
  map cmd_of (runs (snd (Scenario.go e))) = [title_cmd Scenario.url].
Proof. cbv zeta. repeat split; vm_compute; reflexivity. Qed.

Lemma cancelled_before_first_attempt_witness :
  let e := Scenario.world Scenario.working Scenario.always in
  cancel_flag e (polls (initial ∅)) = true /\
  exists st',
    Scenario.go e = (inr tt, st') /\
    runs st' = [asked e (title_cmd Scenario.url) (initial ∅)] /\
    last (log st') = Some "Download cancelled.".
Proof.
  cbv zeta. split; [reflexivity|].
  pose proof (cancelled_before_first_attempt
                (Scenario.world Scenario.working Scenario.always)
                Scenario.url "00:00:10" "00:01:00" (initial ∅) eq_refl) as H.
  assert (Hm : mkdir_raises (Scenario.world Scenario.working Scenario.always)
                 (files (initial ∅)) = None) by (vm_compute; reflexivity).
  rewrite Hm in H. destruct H as (st' & Hrun & Hruns & Hlog & _).
  exists st'. split; [exact Hrun|]. split; [exact Hruns | exact Hlog].
Defined.

(** The clip for the title "My Video" keeps the title's space. *)
Lemma my_video_clip_keeps_space :
  let e := Scenario.world Scenario.working Scenario.never in
  fst (Scenario.go e) = inr tt /\
  last (log (snd (Scenario.go e))) = Some ("Clip saved as " +:+ Scenario.clip +:+ "!") /\
  elements (files (snd (Scenario.go e))) = [Scenario.clip] /\
  Scenario.clip <> Scenario.underscored_clip /\
  clip_name "My Video" "00:00:10" "00:01:00" <> "My_Video_clip_00-00-10_to_00-01-00.mp4".
Proof.
  cbv zeta. split; [vm_compute; reflexivity|]. split; [vm_compute; reflexivity|].
  split; [vm_compute; reflexivity|]. split; vm_compute; discriminate.
Qed.

Lemma clip_saved_and_named_witness :
  let e := Scenario.world Scenario.working Scenario.never in
  exists r st',
    Scenario.go e = (r, st') /\
    last (log st') = Some ("Clip saved as " +:+ Scenario.clip +:+ "!") /\
    (Scenario.full ∉ files st') /\ (Scenario.clip ∈ files st').
Proof.
  cbv zeta.
  set (e := Scenario.world Scenario.working Scenario.never).
  set (st1 := snd (prepare e Scenario.url "00:00:10" "00:01:00" (initial ∅))).
  set (st2 := snd (retrieve e Scenario.url "" Scenario.full player_clients st1)).
  destruct (clip_saved_and_named e Scenario.url "00:00:10" "00:01:00"
              (initial ∅) "" Scenario.full Scenario.clip st1 st2
              (Scenario.ended 0 "" (files st2 ∪ {[ Scenario.clip ]})) ("", ""))
    as ((r & st' & Hrun & _ & Hlog & _ & Hfull & Hclip) & _).
  - vm_compute. reflexivity.
  - vm_compute. reflexivity.
  - vm_compute. reflexivity.
  - vm_compute. reflexivity.
  - reflexivity.
  - reflexivity.
  - refine (bool_decide_unpack _ _). vm_compute. exact I.
  - exists r, st'. split; [exact Hrun|]. split; [exact Hlog|]. split; assumption.
Defined.


(** In the flaky world the android attempt fails and leaves a partial file,
    the file is removed, the web attempt succeeds and nothing else is
    tried. *)
Example flaky_world_retrieval :
  let e := Scenario.world Scenario.flaky Scenario.never in
  let st := snd (prepare e Scenario.url "00:00:10" "00:01:00" (initial ∅)) in
  let r := retrieve e Scenario.url "" Scenario.full player_clients st in
  fst r = inr Downloaded /\
  map cmd_of (tail (runs (snd r)))
  = firstn 2 (declared_cmds Scenario.url "" Scenario.full player_clients) /\
  map (fun a => (downloaded Scenario.full a,
                 bool_decide (Scenario.full ∈ files_before a),
                 bool_decide (Scenario.full ∈ files_left a)))
      (tail (runs (snd r)))
  = [(false, false, true); (true, false, true)].
Proof. cbv zeta. repeat split; vm_compute; reflexivity. Qed.

(** * More properties *)

(** ** The helpers *)

Section HelperFacts.
Import PyStr.

Lemma length_replace_char old new s :
  String.length (replace_char old new s) = String.length s.
Proof. unfold replace_char. now rewrite length_str, length_map, length_chars. Qed.

Lemma in_replace_char old new s c :
  In c (chars (replace_char old new s)) ->
  c = new \/ (In c (chars s) /\ c <> old).
Proof.
  unfold replace_char. rewrite chars_str, in_map_iff.
  intros (d & <- & Hd). destruct (Ascii.eqb_spec d old) as [->|Hne]; auto.
Qed.

Lemma chars_append s1 s2 : chars (s1 +:+ s2) = chars s1 ++ chars s2.
Proof. induction s1 as [|c s1 IH]; simpl; [reflexivity | now rewrite IH]. Qed.

Lemma length_append s1 s2 :
  String.length (s1 +:+ s2) = String.length s1 + String.length s2.
Proof. induction s1 as [|c s1 IH]; simpl; [reflexivity | now rewrite IH]. Qed.

End HelperFacts.

(** X1: [format_time_for_filename] keeps the length, leaves no colon, and
    changes nothing in a string without colons, so that applying it twice
    is applying it once. *)
Theorem format_time_for_filename_no_colon (time_str : string) :
  String.length (format_time_for_filename time_str) = String.length time_str /\
  ~ In ":"%char (PyStr.chars (format_time_for_filename time_str)) /\
  (~ In ":"%char (PyStr.chars time_str) -> format_time_for_filename time_str = time_str) /\
  format_time_for_filename (format_time_for_filename time_str)
  = format_time_for_filename time_str.
Proof.
  unfold format_time_for_filename.
  assert (Hno : ~ In ":"%char (PyStr.chars (PyStr.replace_char ":" "-" time_str))).
  { intros H. apply in_replace_char in H. destruct H as [H | [_ H]]; [discriminate | congruence]. }
  assert (Hid : forall s, ~ In ":"%char (PyStr.chars s) -> PyStr.replace_char ":" "-" s = s).
  { intros s H. apply replace_char_id. intros d Hd.
    destruct (Ascii.eqb_spec d ":") as [->|]; [contradiction | reflexivity]. }
  split; [apply length_replace_char|]. split; [exact Hno|]. split; [apply Hid|].
  apply Hid, Hno.
Qed.

Lemma int_two_digits n : (0 <= n <= 99)%Z -> int_or_zero (two_digits n) = Some n.
Proof.
  intros Hn.
  assert (H : forallb (fun k => match int_or_zero (two_digits (Z.of_nat k)) with
                                | Some v => (v =? Z.of_nat k)%Z
                                | None => false
                                end) (seq 0 100) = true) by (vm_compute; reflexivity).
  rewrite forallb_forall in H.
  specialize (H (Z.to_nat n)). rewrite Z2Nat.id in H by lia.
  destruct (int_or_zero (two_digits n)) as [v|].
  - f_equal. apply Z.eqb_eq, H, in_seq. lia.
  - discriminate H. apply in_seq. lia.
Qed.

Lemma is_valid_time_inv h m s :
  is_valid_time h m s = true ->
  exists hours minutes seconds,
    int_or_zero h = Some hours /\ int_or_zero m = Some minutes /\
    int_or_zero s = Some seconds /\ in_range hours minutes seconds.
Proof.
  unfold is_valid_time, in_range.
  destruct (int_or_zero h) as [hours|]; [|discriminate].
  destruct (int_or_zero m) as [minutes|]; [|discriminate].
  destruct (int_or_zero s) as [seconds|]; [|discriminate].
  intros H. exists hours, minutes, seconds.
  repeat match goal with
         | H : (_ && _)%bool = true |- _ => apply andb_prop in H; destruct H
         | H : (_ <=? _)%Z = true |- _ => apply Z.leb_le in H
         end.
  repeat split; auto; lia.
Qed.

Lemma format_time_valid h m s hours minutes seconds :
  int_or_zero h = Some hours -> int_or_zero m = Some minutes ->
  int_or_zero s = Some seconds -> in_range hours minutes seconds ->
  format_time h m s
  = Some (two_digits hours +:+ ":" +:+ two_digits minutes +:+ ":" +:+ two_digits seconds).
Proof.
  unfold format_time, in_range. intros -> -> -> Hr.
  now rewrite !fmt_02d_two_digits by lia.
Qed.

(** X2: a triple that [is_valid_time] accepts is formatted without error into
    eight characters, and the three two-digit fields of the result are
    accepted again and format to the same text. *)
Theorem format_time_of_valid (h m s : string) :
  is_valid_time h m s = true ->
  exists hh mm ss,
    format_time h m s = Some (hh +:+ ":" +:+ mm +:+ ":" +:+ ss) /\
    String.length hh = 2 /\ String.length mm = 2 /\ String.length ss = 2 /\
    String.length (hh +:+ ":" +:+ mm +:+ ":" +:+ ss) = 8 /\
    is_valid_time hh mm ss = true /\
    format_time hh mm ss = format_time h m s.
Proof.
  intros Hv. destruct (is_valid_time_inv _ _ _ Hv)
    as (hours & minutes & seconds & Hh & Hm & Hs & Hr).
  exists (two_digits hours), (two_digits minutes), (two_digits seconds).
  assert (Hh' : int_or_zero (two_digits hours) = Some hours)
    by (apply int_two_digits; unfold in_range in Hr; lia).
  assert (Hm' : int_or_zero (two_digits minutes) = Some minutes)
    by (apply int_two_digits; unfold in_range in Hr; lia).
  assert (Hs' : int_or_zero (two_digits seconds) = Some seconds)
    by (apply int_two_digits; unfold in_range in Hr; lia).
  split; [now apply format_time_valid|].
  split; [reflexivity|]. split; [reflexivity|]. split; [reflexivity|].
  split; [reflexivity|].
  split.
  - unfold is_valid_time. rewrite Hh', Hm', Hs'. unfold in_range in Hr.
    repeat (apply andb_true_intro; split); apply Z.leb_le; lia.
  - rewrite (format_time_valid _ _ _ _ _ _ Hh Hm Hs Hr).
    now apply format_time_valid.
Qed.

Lemma format_time_of_valid_witness :
  exists hh mm ss, format_time "7" "" " 9" = Some (hh +:+ ":" +:+ mm +:+ ":" +:+ ss)
                   /\ is_valid_time hh mm ss = true.
Proof.
  destruct (format_time_of_valid "7" "" " 9") as (hh & mm & ss & H1 & _ & _ & _ & _ & H2 & _).
  - vm_compute. reflexivity.
  - exists hh, mm, ss. split; assumption.
Defined.

Section StripFacts.
Import PyStr.

Lemma lstrip_split p l :
  exists w, l = w ++ lstrip_list p l /\ Forall (fun c => p c = true) w.
Proof.
  induction l as [|a l (w & E & Hw)]; simpl.
  - exists []. split; [reflexivity | constructor].
  - destruct (p a) eqn:Ea.
    + exists (a :: w). split; [simpl; now f_equal | now constructor].
    + exists []. split; [reflexivity | constructor].
Qed.

Lemma rstrip_split p l :
  exists w, l = rstrip_list p l ++ w /\ Forall (fun c => p c = true) w.
Proof.
  unfold rstrip_list. destruct (lstrip_split p (rev l)) as (w & E & Hw).
  exists (rev w). split.
  - apply (f_equal (@rev _)) in E. rewrite rev_involutive, rev_app_distr in E. exact E.
  - now apply List.Forall_rev.
Qed.

Lemma strip_split p l :
  exists w1 w2, l = w1 ++ strip_list p l ++ w2 /\
    Forall (fun c => p c = true) w1 /\ Forall (fun c => p c = true) w2.
Proof.
  unfold strip_list. destruct (lstrip_split p l) as (w1 & E1 & H1).
  destruct (rstrip_split p (lstrip_list p l)) as (w2 & E2 & H2).
  exists w1, w2. split; [|split; assumption]. now rewrite <- E2.
Qed.

Lemma lstrip_app_all p w l :
  Forall (fun c => p c = true) w -> lstrip_list p (w ++ l) = lstrip_list p l.
Proof.
  induction 1 as [|a w Ha _ IH]; simpl; [reflexivity|]. now rewrite Ha.
Qed.

Lemma lstrip_all p w : Forall (fun c => p c = true) w -> lstrip_list p w = [].
Proof.
  intros H. rewrite <- (app_nil_r w). now rewrite lstrip_app_all.
Qed.

Lemma rstrip_app_all p l w :
  Forall (fun c => p c = true) w -> rstrip_list p (l ++ w) = rstrip_list p l.
Proof.
  intros H. unfold rstrip_list. rewrite rev_app_distr, lstrip_app_all; [reflexivity|].
  now apply List.Forall_rev.
Qed.

Lemma strip_app_all p w1 l w2 :
  Forall (fun c => p c = true) w1 -> Forall (fun c => p c = true) w2 ->
  strip_list p (w1 ++ l ++ w2) = strip_list p l.
Proof.
  intros H1 H2. unfold strip_list. rewrite lstrip_app_all by exact H1.
  destruct (lstrip_split p l) as (w & E & Hw).
  destruct (lstrip_list p l) as [|c r] eqn:El.
  - rewrite app_nil_r in E. subst l.
    rewrite lstrip_all; [reflexivity|]. apply Forall_app. split; assumption.
  - pose proof (lstrip_head _ _ _ _ El) as Hc.
    rewrite E at 1. rewrite <- app_assoc, lstrip_app_all by exact Hw.
    cbn [app]. rewrite lstrip_id by exact Hc.
    change (c :: r ++ w2) with ((c :: r) ++ w2). now apply rstrip_app_all.
Qed.

Lemma chars_replace_all cs s :
  chars (fold_left (fun t char => replace_char char "_" t) cs s)
  = map (fun c => fold_left (fun x old => if Ascii.eqb x old then "_"%char else x) cs c)
        (chars s).
Proof.
  revert s. induction cs as [|c cs IH]; intros s; cbn [fold_left].
  - now rewrite map_id.
  - rewrite IH. unfold replace_char. now rewrite chars_str, map_map.
Qed.

Lemma chars_clean_title title :
  chars (clean_title title)
  = strip_list strippable (List.filter safe (map replaced_char (chars title))).
Proof.
  unfold clean_title, strip_chars. now rewrite !chars_str, chars_replace_all.
Qed.

Lemma space_cleaned c :
  isspace c = true -> safe (replaced_char c) = true -> strippable (replaced_char c) = true.
Proof. destruct c as [[] [] [] [] [] [] [] []]; vm_compute; congruence. Qed.

Lemma spaces_cleaned w :
  Forall (fun c => isspace c = true) w ->
  Forall (fun c => strippable c = true) (List.filter safe (map replaced_char w)).
Proof.
  induction 1 as [|c w Hc _ IH]; cbn [map List.filter]; [constructor|].
  destruct (safe (replaced_char c)) eqn:E; [|exact IH].
  constructor; [now apply space_cleaned | exact IH].
Qed.

Lemma clean_title_strip title : clean_title (strip title) = clean_title title.
Proof.
  rewrite <- (str_chars (clean_title (strip title))), <- (str_chars (clean_title title)).
  f_equal. rewrite !chars_clean_title. unfold strip. rewrite chars_str.
  destruct (strip_split isspace (chars title)) as (w1 & w2 & E & H1 & H2).
  remember (strip_list isspace (chars title)) as core eqn:Hcore. clear Hcore.
  rewrite E, !map_app, !List.filter_app.
  symmetry. apply strip_app_all; now apply spaces_cleaned.
Qed.

End StripFacts.

(** Surrounding whitespace in a title does not change the file name. *)
Lemma sanitize_filename_strip title :
  sanitize_filename (PyStr.strip title) = sanitize_filename title.
Proof. unfold sanitize_filename. now rewrite clean_title_strip. Qed.

(** ** The components of a time *)

Section IntFacts.
Import PyStr.

Lemma underscore_not_digit : is_digit "_" = false.
Proof. reflexivity. Qed.

Lemma digit_not_underscore c : is_digit c = true -> Ascii.eqb c "_" = false.
Proof. destruct c as [[] [] [] [] [] [] [] []]; vm_compute; congruence. Qed.

Lemma digit_not_space c : is_digit c = true -> PyInt.is_space c = false.
Proof. destruct c as [[] [] [] [] [] [] [] []]; vm_compute; congruence. Qed.

Lemma digit_not_sign c :
  is_digit c = true -> Ascii.eqb c "+" = false /\ Ascii.eqb c "-" = false.
Proof. destruct c as [[] [] [] [] [] [] [] []]; vm_compute; split; congruence. Qed.

(** [digits_tail] reads the rest of a group and the groups that follow. *)
Lemma digits_tail_complete gs :
  Forall (fun g : list ascii => g <> [] /\ Forall (fun c => is_digit c = true) g) gs ->
  forall g acc, Forall (fun c => is_digit c = true) g ->
    PyInt.digits_tail acc (g ++ more_groups gs) = Some (fold_left (fun acc c => (10 * acc + PyInt.digit_val c)%Z) (g ++ concat gs) acc).
Proof.
  induction 1 as [|g' rest [Hne Hg'] _ IH]; intros g acc Hg.
  - cbn [more_groups flat_map concat]. rewrite !app_nil_r.
    revert acc. induction Hg as [|c g Hc _ IHg]; intros acc; [reflexivity|].
    cbn [PyInt.digits_tail fold_left]. rewrite Hc. apply IHg.
  - revert acc. induction Hg as [|c g Hc _ IHg]; intros acc.
    + destruct g' as [|d g'']; [contradiction|].
      apply Forall_cons_iff in Hg' as [Hd Hg''].
      change (more_groups ((d :: g'') :: rest)) with ("_"%char :: d :: g'' ++ more_groups rest).
      cbn [app PyInt.digits_tail concat fold_left].
      rewrite underscore_not_digit. cbn [Ascii.eqb Bool.eqb andb].
      rewrite Hd. rewrite (IH g'' _ Hg''). reflexivity.
    + cbn [app PyInt.digits_tail fold_left]. rewrite Hc. apply IHg.
Qed.

Lemma digits_tail_sound n :
  forall l acc v, length l <= n -> PyInt.digits_tail acc l = Some v ->
  exists g gs,
    Forall (fun c => is_digit c = true) g /\ Forall (fun g : list ascii => g <> [] /\ Forall (fun c => is_digit c = true) g) gs /\ l = g ++ more_groups gs /\
    v = fold_left (fun acc c => (10 * acc + PyInt.digit_val c)%Z) (g ++ concat gs) acc.
Proof.
  induction n as [|n IH]; intros l acc v Hlen H.
  - destruct l; [|cbn in Hlen; lia]. injection H as <-.
    exists [], []. repeat split; constructor.
  - destruct l as [|c l']; [injection H as <-; exists [], []; repeat split; constructor|].
    cbn [PyInt.digits_tail] in H. cbn [length] in Hlen.
    destruct (is_digit c) eqn:Hc.
    + destruct (IH l' _ v ltac:(lia) H) as (g & gs & Hg & Hgs & -> & ->).
      exists (c :: g), gs. repeat split; [now constructor | exact Hgs].
    + destruct (Ascii.eqb_spec c "_") as [-> | _]; [|discriminate].
      destruct l' as [|d l'']; [discriminate|].
      destruct (is_digit d) eqn:Hd; [|discriminate]. cbn [length] in Hlen.
      destruct (IH l'' _ v ltac:(lia) H) as (g & gs & Hg & Hgs & -> & ->).
      exists [], ((d :: g) :: gs). split; [constructor|]. split.
      { constructor; [|exact Hgs]. split; [discriminate | now constructor]. }
      split; reflexivity.
Qed.

Lemma filter_digits g gs :
  Forall (fun c => is_digit c = true) g -> Forall (fun g : list ascii => g <> [] /\ Forall (fun c => is_digit c = true) g) gs ->
  List.filter is_digit (g ++ more_groups gs) = g ++ concat gs.
Proof.
  intros Hg Hgs. rewrite List.filter_app. f_equal.
  - induction Hg as [|c g Hc _ IH]; [reflexivity|]. cbn [List.filter]. now rewrite Hc, IH.
  - induction Hgs as [|g' rest [_ Hg'] _ IH]; [reflexivity|].
    cbn [more_groups flat_map concat]. cbn [app List.filter].
    rewrite underscore_not_digit, List.filter_app. fold (more_groups rest). rewrite IH.
    f_equal. clear -Hg'.
    induction Hg' as [|c g Hc _ IHg]; [reflexivity|]. cbn [List.filter]. now rewrite Hc, IHg.
Qed.

(** What [parse_digits] accepts, and the value it gives. *)
Lemma parse_digits_iff l v :
  PyInt.parse_digits l = Some v <->
  exists groups,
    groups <> [] /\ Forall (fun g : list ascii => g <> [] /\ Forall (fun c => is_digit c = true) g) groups /\ l = join_groups groups /\
    length (concat groups) <= PyInt.max_str_digits /\ v = (fold_left (fun acc c => (10 * acc + PyInt.digit_val c)%Z) (concat groups) 0%Z).
Proof.
  split.
  - destruct l as [|c l']; [discriminate|]. unfold PyInt.parse_digits.
    destruct (is_digit c) eqn:Hc; [|discriminate].
    destruct (PyInt.digits_tail (PyInt.digit_val c) l') as [v'|] eqn:Ht; [|discriminate].
    destruct (digits_tail_sound _ _ _ _ (Nat.le_refl _) Ht) as (g & gs & Hg & Hgs & -> & ->).
    change (c :: g ++ more_groups gs) with ((c :: g) ++ more_groups gs).
    rewrite filter_digits by (assumption || now constructor).
    destruct (Nat.ltb_spec PyInt.max_str_digits (length ((c :: g) ++ concat gs))) as [|Hle];
      [discriminate|].
    intros [= <-]. exists ((c :: g) :: gs).
    split; [discriminate|]. split.
    { constructor; [|exact Hgs]. split; [discriminate | now constructor]. }
    split; [reflexivity|]. split; [exact Hle|]. reflexivity.
  - intros (groups & Hne & Hgs & -> & Hlen & ->).
    destruct groups as [|g rest]; [contradiction|].
    apply Forall_cons_iff in Hgs as [[Hg0 Hg] Hrest].
    destruct g as [|c g]; [contradiction|]. apply Forall_cons_iff in Hg as [Hc Hg].
    cbn [join_groups concat] in *. unfold PyInt.parse_digits. cbn [app]. rewrite Hc.
    rewrite (digits_tail_complete rest Hrest g _ Hg).
    change (c :: g ++ more_groups rest) with ((c :: g) ++ more_groups rest).
    rewrite filter_digits by (assumption || now constructor).
    destruct (Nat.ltb_spec PyInt.max_str_digits (length ((c :: g) ++ concat rest))) as [Hlt|];
      [lia|]. reflexivity.
Qed.

Lemma int_eq s :
  PyInt.int s
  = match strip_list PyInt.is_space (chars s) with
    | [] => None
    | c :: l =>
        if Ascii.eqb c "+" then PyInt.parse_digits l
        else if Ascii.eqb c "-" then option_map Z.opp (PyInt.parse_digits l)
        else PyInt.parse_digits (c :: l)
    end.
Proof.
  unfold PyInt.int. destruct (strip_list PyInt.is_space (chars s)) as [|c l]; [reflexivity|].
  destruct c as [[] [] [] [] [] [] [] []]; reflexivity.
Qed.

Lemma more_groups_last gs :
  gs <> [] -> Forall (fun g : list ascii => g <> [] /\ Forall (fun c => is_digit c = true) g) gs ->
  exists init d, more_groups gs = init ++ [d] /\ is_digit d = true.
Proof.
  intros Hne Hgs. induction Hgs as [|g rest [Hg0 Hg] Hrest IH]; [contradiction|].
  change (more_groups (g :: rest)) with ("_"%char :: g ++ more_groups rest).
  destruct rest as [|g' rest'].
  - cbn [more_groups flat_map]. rewrite app_nil_r.
    destruct (exists_last Hg0) as (init & d & ->).
    exists ("_"%char :: init), d. split; [reflexivity|].
    apply Forall_app in Hg as [_ Hd]. now apply Forall_cons_iff in Hd as [Hd _].
  - destruct (IH ltac:(discriminate)) as (init & d & -> & Hd).
    exists ("_"%char :: g ++ init), d. split; [|exact Hd].
    cbn [app]. now rewrite <- app_assoc.
Qed.

Lemma join_groups_last gs :
  gs <> [] -> Forall (fun g : list ascii => g <> [] /\ Forall (fun c => is_digit c = true) g) gs ->
  exists init d, join_groups gs = init ++ [d] /\ is_digit d = true.
Proof.
  intros Hne Hgs. destruct gs as [|g rest]; [contradiction|].
  apply Forall_cons_iff in Hgs as [[Hg0 Hg] Hrest]. cbn [join_groups].
  destruct rest as [|g' rest'].
  - cbn [more_groups flat_map]. rewrite app_nil_r.
    destruct (exists_last Hg0) as (init & d & ->). exists init, d. split; [reflexivity|].
    apply Forall_app in Hg as [_ Hd]. now apply Forall_cons_iff in Hd as [Hd _].
  - destruct (more_groups_last (g' :: rest') ltac:(discriminate) Hrest) as (init & d & -> & Hd).
    exists (g ++ init), d. split; [now rewrite <- app_assoc | exact Hd].
Qed.

Lemma join_groups_head gs :
  gs <> [] -> Forall (fun g : list ascii => g <> [] /\ Forall (fun c => is_digit c = true) g) gs ->
  exists c l, join_groups gs = c :: l /\ is_digit c = true.
Proof.
  intros Hne Hgs. destruct gs as [|g rest]; [contradiction|].
  apply Forall_cons_iff in Hgs as [[Hg0 Hg] _]. destruct g as [|c g]; [contradiction|].
  apply Forall_cons_iff in Hg as [Hc _]. now exists c, (g ++ more_groups rest).
Qed.

(** A text that starts and ends with characters that are not stripped is
    left as it is. *)
Lemma strip_list_fixed p c l init d :
  c :: l = init ++ [d] -> p c = false -> p d = false ->
  strip_list p (c :: l) = c :: l.
Proof.
  intros E Hc Hd. unfold strip_list. rewrite lstrip_id by exact Hc.
  rewrite E. now apply rstrip_last_false.
Qed.

(** What [int] accepts, and the value it gives. *)
Lemma int_parsed s v :
  PyInt.int s = Some v <->
  exists pre sign groups post,
    chars s = pre ++ (sign ++ join_groups groups) ++ post /\
    Forall (fun c => PyInt.is_space c = true) pre /\
    Forall (fun c => PyInt.is_space c = true) post /\
    groups <> [] /\ Forall (fun g : list ascii => g <> [] /\ Forall (fun c => is_digit c = true) g) groups /\
    length (concat groups) <= PyInt.max_str_digits /\
    (((sign = [] \/ sign = ["+"%char]) /\ v = (fold_left (fun acc c => (10 * acc + PyInt.digit_val c)%Z) (concat groups) 0%Z)) \/
     (sign = ["-"%char] /\ v = (- (fold_left (fun acc c => (10 * acc + PyInt.digit_val c)%Z) (concat groups) 0%Z))%Z)).
Proof.
  rewrite int_eq. split.
  - destruct (strip_split PyInt.is_space (chars s)) as (w1 & w2 & E & H1 & H2).
    destruct (strip_list PyInt.is_space (chars s)) as [|c l]; [discriminate|].
    destruct (Ascii.eqb_spec c "+") as [-> | _].
    { intros H. apply parse_digits_iff in H as (groups & Hne & Hgs & -> & Hlen & ->).
      exists w1, ["+"%char], groups, w2. repeat split; auto. }
    destruct (Ascii.eqb_spec c "-") as [-> | _].
    { destruct (PyInt.parse_digits l) as [v'|] eqn:H; [|discriminate]. intros [= <-].
      apply parse_digits_iff in H as (groups & Hne & Hgs & -> & Hlen & ->).
      exists w1, ["-"%char], groups, w2. repeat split; auto. }
    intros H. apply parse_digits_iff in H as (groups & Hne & Hgs & El & Hlen & ->).
    exists w1, [], groups, w2. rewrite <- El. repeat split; auto.
  - intros (pre & sign & groups & post & E & Hpre & Hpost & Hne & Hgs & Hlen & Hv).
    rewrite E, strip_app_all by assumption.
    destruct (join_groups_head groups Hne Hgs) as (c & l & Ej & Hc).
    destruct (join_groups_last groups Hne Hgs) as (init & d & El & Hd).
    assert (Hparse : PyInt.parse_digits (join_groups groups)
                     = Some ((fold_left (fun acc c => (10 * acc + PyInt.digit_val c)%Z) (concat groups) 0%Z))).
    { apply parse_digits_iff. exists groups. repeat split; auto. }
    destruct Hv as [[[-> | ->] ->] | [-> ->]]; cbn [app].
    + rewrite Ej in *. rewrite (strip_list_fixed _ _ _ init d El)
        by (now apply digit_not_space).
      destruct (digit_not_sign c Hc) as [-> ->]. exact Hparse.
    + rewrite (strip_list_fixed _ _ _ ("+"%char :: init) d)
        by (first [now rewrite El | reflexivity | now apply digit_not_space]).
      cbn [Ascii.eqb Bool.eqb andb]. exact Hparse.
    + rewrite (strip_list_fixed _ _ _ ("-"%char :: init) d)
        by (first [now rewrite El | reflexivity | now apply digit_not_space]).
      cbn [Ascii.eqb Bool.eqb andb]. now rewrite Hparse.
Qed.

(** The notions in which the integer texts are described agree with the
    tests of the parser. *)
Lemma int_space_iff c : int_space c <-> PyInt.is_space c = true.
Proof.
  assert (E : existsb (Nat.eqb (nat_of_ascii c)) [9; 10; 11; 12; 13; 32; 133; 160]
              = PyInt.is_space c)
    by (destruct c as [[] [] [] [] [] [] [] []]; vm_compute; reflexivity).
  rewrite <- E, existsb_exists. unfold int_space. split.
  - intros H. eexists. split; [exact H | apply Nat.eqb_refl].
  - intros (n & Hn & En). apply Nat.eqb_eq in En. now rewrite En.
Qed.

Lemma decimal_digit_iff c : decimal_digit c <-> is_digit c = true.
Proof.
  assert (E : existsb (Ascii.eqb c) (list_ascii_of_string "0123456789") = is_digit c)
    by (destruct c as [[] [] [] [] [] [] [] []]; vm_compute; reflexivity).
  rewrite <- E, existsb_exists. unfold decimal_digit. split.
  - intros H. eexists. split; [exact H | apply Ascii.eqb_refl].
  - intros (d & Hd & Ed). apply Ascii.eqb_eq in Ed. now rewrite Ed.
Qed.

Lemma digit_value_eq c : digit_value c = PyInt.digit_val c.
Proof. destruct c as [[] [] [] [] [] [] [] []]; vm_compute; reflexivity. Qed.

Lemma digits_value_eq ds :
  digits_value ds = (fold_left (fun acc c => (10 * acc + PyInt.digit_val c)%Z) ds 0%Z).
Proof.
  unfold digits_value. generalize 0%Z. induction ds as [|c ds IH]; intros acc;
    cbn [fold_left]; [reflexivity|]. rewrite digit_value_eq. apply IH.
Qed.

Lemma int_spaces_iff l :
  Forall int_space l <-> Forall (fun c => PyInt.is_space c = true) l.
Proof. split; apply List.Forall_impl; intros c; apply int_space_iff. Qed.

Lemma digit_groups_iff gs :
  Forall digit_group gs <-> Forall (fun g : list ascii => g <> [] /\ Forall (fun c => is_digit c = true) g) gs.
Proof.
  split; apply List.Forall_impl; intros g [H1 H2]; (split; [exact H1|]);
    (eapply List.Forall_impl; [|exact H2]); intros c; apply decimal_digit_iff.
Qed.

(** [int] accepts the integer texts, with their values, and nothing else. *)
Lemma int_iff s v : PyInt.int s = Some v <-> integer_text s v.
Proof.
  rewrite int_parsed. unfold integer_text.
  split; intros (pre & sign & groups & post & E & Hpre & Hpost & Hne & Hgs & Hlen & Hv);
    exists pre, sign, groups, post;
    (split; [exact E|]); (split; [now apply int_spaces_iff|]);
    (split; [now apply int_spaces_iff|]); (split; [exact Hne|]);
    (split; [now apply digit_groups_iff|]); (split; [exact Hlen|]).
  - now rewrite digits_value_eq.
  - now rewrite digits_value_eq in Hv.
Qed.

Lemma int_or_zero_iff x v : int_or_zero x = Some v <-> component x v.
Proof.
  unfold int_or_zero, component. destruct (String.eqb_spec x "") as [-> | Hx].
  - split.
    + intros [= <-]. now left.
    + intros [[_ ->] | H]; [reflexivity|]. apply int_iff in H. discriminate H.
  - rewrite int_iff. split; [now right|]. intros [[E _] | H]; [contradiction | exact H].
Qed.

Lemma int_or_zero_none x : (forall v, ~ component x v) -> int_or_zero x = None.
Proof.
  intros H. destruct (int_or_zero x) as [v|] eqn:E; [|reflexivity].
  apply int_or_zero_iff in E. now apply H in E.
Qed.

End IntFacts.

(** C8: a component is absent (empty), and then counts as 0, or is a decimal
    integer in the form that [int()] reads, with that value.  When the
    three components have values, with hours in 0..23 and minutes and
    seconds in 0..59, [is_valid_time] accepts and [format_time] gives the
    zero-padded HH:MM:SS rendering of the three values; when a component
    has no value, or the values are out of range, [is_valid_time] rejects.
    So [is_valid_time] accepts exactly the triples of components whose
    values are in range. *)
Theorem is_valid_time_spec (h m s : string) :
  (forall hours minutes seconds,
      component h hours -> component m minutes -> component s seconds ->
      in_range hours minutes seconds ->
      is_valid_time h m s = true /\
      format_time h m s
      = Some (two_digits hours +:+ ":" +:+ two_digits minutes +:+ ":"
              +:+ two_digits seconds)) /\
  ((forall v, ~ component h v) \/ (forall v, ~ component m v) \/
   (forall v, ~ component s v) ->
   is_valid_time h m s = false) /\
  (forall hours minutes seconds,
      component h hours -> component m minutes -> component s seconds ->
      ~ in_range hours minutes seconds -> is_valid_time h m s = false) /\
  (is_valid_time h m s = true <->
   exists hours minutes seconds,
     component h hours /\ component m minutes /\ component s seconds /\
     in_range hours minutes seconds).
Proof.
  assert (Hin : forall hours minutes seconds,
             int_or_zero h = Some hours -> int_or_zero m = Some minutes ->
             int_or_zero s = Some seconds -> in_range hours minutes seconds ->
             is_valid_time h m s = true).
  { intros hours minutes seconds Hh Hm Hs Hr. unfold is_valid_time, in_range in *.
    rewrite Hh, Hm, Hs. repeat (apply andb_true_intro; split); apply Z.leb_le; lia. }
  split; [|split; [|split]].
  - intros hours minutes seconds Hh Hm Hs Hr.
    apply int_or_zero_iff in Hh, Hm, Hs. split; [now apply (Hin hours minutes seconds)|].
    now apply format_time_valid.
  - unfold is_valid_time.
    intros [H | [H | H]]; rewrite (int_or_zero_none _ H);
      repeat match goal with |- context [match ?x with _ => _ end] => destruct x end;
      reflexivity.
  - intros hours minutes seconds Hh Hm Hs Hn.
    apply int_or_zero_iff in Hh, Hm, Hs. apply not_true_is_false. intros Ht.
    destruct (is_valid_time_inv _ _ _ Ht) as (h' & m' & s' & Eh & Em & Es & Hr).
    apply Hn. congruence.
  - split.
    + intros Ht. destruct (is_valid_time_inv _ _ _ Ht) as (h' & m' & s' & Eh & Em & Es & Hr).
      exists h', m', s'. rewrite <- !int_or_zero_iff. auto.
    + intros (hours & minutes & seconds & Hh & Hm & Hs & Hr).
      apply int_or_zero_iff in Hh, Hm, Hs. now apply (Hin hours minutes seconds).
Qed.

(** An absent component counts as 0; white space around a number, a sign
    and single underscores between digits are read; letters, a decimal
    point, an underscore at either end or doubled, and a separator
    character of code 28 before the digits are not. *)
Example component_examples :
  component "" 0 /\ component "7" 7 /\ component " 07 " 7 /\
  component "+5" 5 /\ component "1_0" 10 /\ component "-3" (-3) /\
  (forall v, ~ component " " v) /\ (forall v, ~ component "x" v) /\
  (forall v, ~ component "1.5" v) /\ (forall v, ~ component "1__0" v) /\
  (forall v, ~ component "_1" v) /\ (forall v, ~ component "1_" v) /\
  (forall v, ~ component (String (ascii_of_nat 28) "5") v) /\
  is_valid_time "" "" "" = true /\ is_valid_time "x" "" "" = false /\
  is_valid_time "-3" "" "" = false /\
  is_valid_time (String (ascii_of_nat 28) "5") "0" "0" = false.
Proof.
  repeat split;
    try (apply int_or_zero_iff; reflexivity);
    try (intros v H; apply int_or_zero_iff in H; discriminate H).
Qed.

(** A number of 4300 digits is read, one of 4301 digits is refused. *)
Example int_digit_limit :
  is_valid_time (PyStr.str (repeat "0"%char 4300)) "" "" = true /\
  is_valid_time (PyStr.str (repeat "0"%char 4301)) "" "" = false.
Proof. split; vm_compute; reflexivity. Qed.

Section ClockFacts.
Import PyStr.

Lemma two_digits_chars n c :
  (0 <= n <= 99)%Z -> In c (chars (two_digits n)) -> is_digit c = true.
Proof.
  intros Hn.
  assert (H : forallb (fun k => forallb is_digit (chars (two_digits (Z.of_nat k))))
                      (seq 0 100) = true) by (vm_compute; reflexivity).
  rewrite forallb_forall in H.
  specialize (H (Z.to_nat n)). rewrite Z2Nat.id in H by lia.
  rewrite forallb_forall in H. apply H. apply in_seq. lia.
Qed.

Lemma clock_chars s c :
  clock s -> In c (chars s) -> is_digit c = true \/ c = ":"%char.
Proof.
  intros (h & m & s' & Hr & ->). unfold in_range in Hr.
  rewrite !chars_append, !in_app_iff.
  intros [H | [H | [H | [H | H]]]].
  - left. apply (two_digits_chars h); [lia | exact H].
  - right. destruct H as [<- | []]. reflexivity.
  - left. apply (two_digits_chars m); [lia | exact H].
  - right. destruct H as [<- | []]. reflexivity.
  - left. apply (two_digits_chars s'); [lia | exact H].
Qed.

Lemma clock_length s : clock s -> String.length s = 8.
Proof. intros (h & m & s' & _ & ->). reflexivity. Qed.

Lemma digit_name_char c : is_digit c = true -> name_char c = true.
Proof. destruct c as [[] [] [] [] [] [] [] []]; vm_compute; congruence. Qed.

Lemma allowed_name_char c : allowed_char c = true -> name_char c = true.
Proof. unfold name_char. now intros ->. Qed.

Lemma filename_time_chars s :
  clock s -> Forall (fun c => name_char c = true) (chars (format_time_for_filename s)).
Proof.
  intros Hs. apply List.Forall_forall. intros c Hc.
  unfold format_time_for_filename in Hc. apply in_replace_char in Hc.
  destruct Hc as [-> | [Hc Hne]]; [reflexivity|].
  destruct (clock_chars _ _ Hs Hc) as [Hd | ->]; [now apply digit_name_char | contradiction].
Qed.

Lemma filename_time_length s : clock s -> String.length (format_time_for_filename s) = 8.
Proof.
  intros Hs. unfold format_time_for_filename. rewrite length_replace_char.
  now apply clock_length.
Qed.

Lemma format_time_clock h m s :
  is_valid_time h m s = true -> exists t, format_time h m s = Some t /\ clock t.
Proof.
  intros Hv. destruct (is_valid_time_inv _ _ _ Hv)
    as (hours & minutes & seconds & Hh & Hm & Hs & Hr).
  eexists. split; [now apply (format_time_valid _ _ _ _ _ _ Hh Hm Hs)|].
  now exists hours, minutes, seconds.
Qed.

End ClockFacts.

(** X3: The file names of a run whose title lookup succeeded, for bounds in the
    form HH:MM:SS: the clip's name is made of letters, digits, spaces,
    hyphens, underscores and dots only, so it has none of the characters
    that are illegal in file names, no colon in particular, and it has at
    most 130 characters; the full download's name has at most 109. *)
Theorem clip_name_is_safe title start end_ :
  clock start -> clock end_ ->
  let name := clip_name (sanitize_filename title) start end_ in
  Forall (fun c => name_char c = true) (PyStr.chars name) /\
  Forall (fun c => PyStr.char_in c illegal_chars = false) (PyStr.chars name) /\
  String.length name <= 130 /\
  String.length (full_name (sanitize_filename title)) <= 109.
Proof.
  intros Hs He name.
  assert (Hname : Forall (fun c => name_char c = true) (PyStr.chars name)).
  { unfold name, clip_name. rewrite !chars_append, !Forall_app.
    split; [|split; [|split; [|split]]].
    - apply List.Forall_forall. intros c Hc.
      apply allowed_name_char, safe_allowed.
      apply (sanitize_filename_chars_safe title). exact Hc.
    - repeat constructor.
    - now apply filename_time_chars.
    - repeat constructor.
    - split; [now apply filename_time_chars | repeat constructor]. }
  split; [exact Hname|]. split.
  { eapply List.Forall_impl; [|exact Hname]. intros c.
    destruct c as [[] [] [] [] [] [] [] []]; vm_compute; congruence. }
  pose proof (sanitize_filename_length title) as Hl.
  split.
  - unfold name, clip_name. rewrite !length_append, !filename_time_length by assumption.
    cbn [String.length]. lia.
  - unfold full_name. rewrite length_append. cbn [String.length]. lia.
Qed.

Lemma clip_name_is_safe_witness :
  clock "00:00:10" /\ clock "00:01:00" /\
  String.length (clip_name (sanitize_filename "a/b") "00:00:10" "00:01:00") <= 130.
Proof.
  assert (H1 : clock "00:00:10").
  { exists 0%Z, 0%Z, 10%Z. split; [unfold in_range; lia | reflexivity]. }
  assert (H2 : clock "00:01:00").
  { exists 0%Z, 1%Z, 0%Z. split; [unfold in_range; lia | reflexivity]. }
  split; [exact H1|]. split; [exact H2|].
  exact (proj1 (proj2 (proj2 (clip_name_is_safe "a/b" "00:00:10" "00:01:00" H1 H2)))).
Defined.

(** X4: [get_video_title] never raises and starts exactly one subprocess.  It
    returns a title exactly when that subprocess started, ran to its end and
    exited with status 0; the title is then the sanitised standard output
    (the [strip()] changes nothing), hence not empty, at most 100 characters
    long and made of letters, digits, spaces, hyphens and underscores.  So
    the caller's [if not video_title] replaces a missing title only, never
    an empty one. *)
Theorem get_video_title_result env url st :
  let a := asked env (title_cmd url) st in
  exists t st',
    get_video_title env url st = (inr t, st') /\
    runs st' = runs st ++ [a] /\ files st' = files_left a /\
    log st' = log st /\ polls st' = polls st /\ signals st' = signals st /\
    title_or_default env t
    = match t with Some title => title | None => "yt_video_" +:+ now env end /\
    match t with
    | Some title =>
        exited_zero (outcome_of a) = true /\
        (exists q out, outcome_of a = inr q /\ communicate q = inr out /\
                       title = sanitize_filename (fst out)) /\
        title <> "" /\ String.length title <= 100 /\
        Forall (fun c => allowed_char c = true) (PyStr.chars title)
    | None => exited_zero (outcome_of a) = false
    end.
Proof.
  intros a. rewrite get_video_title_eq. fold a.
  exists (probe_title a), (after_probe a st). split; [reflexivity|].
  split; [apply runs_after_probe|].
  split; [now apply files_after_probe|].
  split; [unfold after_probe; destruct (outcome_of a); reflexivity|].
  split; [apply polls_after_probe|]. split; [apply signals_after_probe|].
  split.
  { destruct (probe_title a) as [title|] eqn:E; [|reflexivity].
    rewrite <- E. now apply title_or_default_probe. }
  unfold probe_title, exited_zero.
  destruct (outcome_of a) as [e | q]; [reflexivity|].
  destruct (communicate q) as [e | out] eqn:Ec; [reflexivity|].
  destruct (returncode q =? 0)%Z; [|reflexivity].
  rewrite sanitize_filename_strip.
  split; [reflexivity|].
  split; [exists q, out; split; [reflexivity|]; split; [exact Ec | reflexivity]|].
  split; [apply sanitize_filename_nonempty|]. split; [apply sanitize_filename_length|].
  apply List.Forall_forall. intros c Hc.
  apply safe_allowed. apply (sanitize_filename_chars_safe (fst out)). exact Hc.
Qed.

(** ** Any run of [download_and_clip] *)

Section StageFacts.
Variable env : environment.
Variable full_output : string.

Lemma removed_twice (fs : gset string) :
  fs ∖ {[ full_output ]} ∖ {[ full_output ]} = fs ∖ {[ full_output ]}.
Proof. apply removed_absent, not_in_removed. Qed.

Lemma at_most_removed_trans fs1 fs2 fs3 :
  at_most_removed full_output fs1 fs2 -> at_most_removed full_output fs2 fs3 ->
  at_most_removed full_output fs1 fs3.
Proof.
  intros [-> | ->] [-> | ->]; [now left | now right | now right |].
  right. apply removed_twice.
Qed.

Lemma handed_on_start fs1 fs2 new fs' :
  at_most_removed full_output fs1 fs2 -> handed_on full_output fs2 new fs' ->
  handed_on full_output fs1 new fs'.
Proof.
  intros H. destruct new as [|a rest]; cbn [handed_on].
  - now apply at_most_removed_trans.
  - intros [H1 H2]. split; [|exact H2]. now apply (at_most_removed_trans _ fs2).
Qed.

Lemma handed_on_app fs new1 fs1 new2 fs2 :
  handed_on full_output fs new1 fs1 -> handed_on full_output fs1 new2 fs2 ->
  handed_on full_output fs (new1 ++ new2) fs2.
Proof.
  revert fs. induction new1 as [|a rest IH]; intros fs; cbn [handed_on app].
  - apply handed_on_start.
  - intros [H1 H2] H3. split; [exact H1|]. now apply IH.
Qed.

(** The files at the end are those the last subprocess left, but for
    [full_output]. *)
Lemma handed_on_last fs new a fs' :
  handed_on full_output fs new fs' -> last new = Some a ->
  at_most_removed full_output (files_left a) fs'.
Proof.
  revert fs. induction new as [|b rest IH]; intros fs; [discriminate|].
  cbn [handed_on]. intros [_ H]. destruct rest as [|c rest'].
  - intros [= <-]. exact H.
  - intros E. apply (IH _ H). exact E.
Qed.

Lemma signals_after_run a st : signals (after_run a st) = signals st.
Proof. unfold after_run. destruct (outcome_of a); reflexivity. Qed.

Lemma log_after_run a st : log (after_run a st) = log st.
Proof. unfold after_run. destruct (outcome_of a); reflexivity. Qed.

Lemma process_var_after_run a st :
  process_var (after_run a st)
  = match outcome_of a with inr q => Some q | inl _ => process_var st end.
Proof. unfold after_run. destruct (outcome_of a); reflexivity. Qed.

Lemma process_var_after_probe a st : process_var (after_probe a st) = process_var st.
Proof. unfold after_probe. destruct (outcome_of a); reflexivity. Qed.

Lemma runs_stop_process st : runs (snd (stop_process st)) = runs st.
Proof.
  unfold stop_process. destruct (process_var st) as [q|]; [|reflexivity].
  destruct (wait_ok q); reflexivity.
Qed.

Lemma polls_stop_process st : polls (snd (stop_process st)) = polls st.
Proof.
  unfold stop_process. destruct (process_var st) as [q|]; [|reflexivity].
  destruct (wait_ok q); reflexivity.
Qed.

Lemma log_stop_process st : log (snd (stop_process st)) = log st.
Proof.
  unfold stop_process. destruct (process_var st) as [q|]; [|reflexivity].
  destruct (wait_ok q); reflexivity.
Qed.

Lemma process_var_stop_process st : process_var (snd (stop_process st)) = process_var st.
Proof.
  unfold stop_process. destruct (process_var st) as [q|] eqn:E; [|exact E].
  destruct (wait_ok q); exact E.
Qed.

Lemma signals_stop_process st :
  signals (snd (stop_process st))
  = signals st ++ match process_var st with Some q => stop_signals q | None => [] end.
Proof.
  unfold stop_process, stop_signals. destruct (process_var st) as [q|].
  - destruct (wait_ok q); cbn [snd signals add_signal]; [reflexivity|].
    now rewrite <- app_assoc.
  - cbn [snd]. now rewrite app_nil_r.
Qed.

Lemma stage_app c new1 new2 b1 b2 st st1 st2 :
  stage env full_output false new1 b1 st st1 ->
  stage env full_output c new2 b2 st1 st2 ->
  stage env full_output c (new1 ++ new2) (b1 + b2) st st2.
Proof.
  intros [R1 F1 P1 C1 L1 (s1 & S1 & D1) K1 O1] [R2 F2 P2 C2 L2 (s2 & S2 & D2) K2 O2].
  assert (s1 = []) as -> by (destruct D1 as [D1 | [D1 _]]; [exact D1 | discriminate]).
  rewrite app_nil_r in S1.
  constructor.
  - now rewrite R2, R1, app_assoc.
  - now apply (handed_on_app _ _ (files st1)).
  - lia.
  - intros n H1 H2. destruct (Nat.lt_ge_cases n (polls st1)) as [H | H].
    + apply L1. lia.
    + now apply C2.
  - destruct c.
    + destruct L2 as (n & E & H & Hc). exists n. split; [exact E|]. split; [lia | exact Hc].
    + intros n H. destruct (Nat.lt_ge_cases n (polls st1)) as [H' | H'].
      * apply L1. lia.
      * apply L2. lia.
  - exists s2. split; [now rewrite S2, S1 | exact D2].
  - auto.
  - apply Forall_app. split.
    + eapply List.Forall_impl; [|exact O1]. intros a [H1 H2]. split; [exact H1|].
      destruct c; [|lia]. destruct L2 as (n & E & H & _). lia.
    + eapply List.Forall_impl; [|exact O2]. intros a [H1 H2]. split; [lia | exact H2].
Qed.

Lemma stage_budget c new b b' st st' :
  stage env full_output c new b st st' -> b <= b' ->
  stage env full_output c new b' st st'.
Proof.
  intros [R F P C L S K O] H. constructor; try assumption. lia.
Qed.

(** A part of the run that calls the cancellation predicate once, gets
    [true] and stops, having started nothing. *)
Lemma stage_cancelled_at_once st st' :
  cancel_flag env (polls st) = true ->
  runs st' = runs st -> files st' = files st -> polls st' = S (polls st) ->
  signals st' = signals st -> process_var st' = process_var st ->
  stage env full_output true [] 1 st st'.
Proof.
  intros Hc R F P S V. constructor.
  - now rewrite app_nil_r.
  - left. exact F.
  - lia.
  - intros n H1 H2. lia.
  - exists (polls st). auto.
  - exists []. split; [now rewrite app_nil_r | now left].
  - unfold process_known. now rewrite V, R.
  - constructor.
Qed.

(** A part of the run that starts one subprocess, waits for it and then
    calls the cancellation predicate; [before] is the number of calls it
    made, all answered [false], before starting the subprocess. *)
Lemma stage_one_run (c : bool) (a : started) st st' before :
  files_before a = files st -> polls_before a = before + polls st ->
  before <= 1 ->
  (before = 1 -> cancel_flag env (polls st) = false) ->
  cancel_flag env (before + polls st) = c ->
  runs st' = runs st ++ [a] ->
  at_most_removed full_output (files_left a) (files st') ->
  polls st' = S (before + polls st) ->
  signals st'
  = signals st ++ (if c then match process_var st' with
                             | Some q => stop_signals q
                             | None => []
                             end
                   else []) ->
  (forall q, process_var st' = Some q ->
             outcome_of a = inr q \/ process_var st = Some q) ->
  stage env full_output c [a] (S before) st st'.
Proof.
  intros Hf Ha Hb H0 Hc R F P S V. constructor.
  - exact R.
  - cbn [handed_on]. split; [left; now rewrite Hf | exact F].
  - lia.
  - intros n H1 H2. assert (n = polls st /\ before = 1) as [-> Eb] by lia. auto.
  - destruct c.
    + exists (before + polls st). split; [exact P|]. split; [lia | exact Hc].
    + intros n H. destruct (Nat.eq_dec n (before + polls st)) as [-> | Hn]; [exact Hc|].
      assert (n = polls st /\ before = 1) as [-> Eb] by lia. auto.
  - eexists. split; [exact S|]. destruct c; [|now left].
    destruct (process_var st') as [q|]; [|now left].
    right. split; [reflexivity|]. now exists q.
  - intros K q Hq. rewrite R, map_app, in_app_iff.
    destruct (V q Hq) as [E | E]; [right | left; now apply K].
    cbn [map In]. now left.
  - constructor; [|constructor]. destruct c; lia.
Qed.

End StageFacts.

Ltac proj :=
  repeat progress
    (step;
     rewrite ?runs_stop_process, ?polls_stop_process, ?log_stop_process,
       ?process_var_stop_process, ?signals_stop_process, ?files_stop_process,
       ?runs_after_run, ?polls_after_run, ?signals_after_run, ?log_after_run,
       ?process_var_after_run, ?runs_after_probe, ?polls_after_probe,
       ?signals_after_probe, ?process_var_after_probe).

Section Stages.
Variable env : environment.
Variables (url cookies_arg full_output : string).

Lemma Forall_removelast_cons {A} (P : A -> Prop) a l :
  P a -> Forall P (removelast l) -> Forall P (removelast (a :: l)).
Proof.
  intros Ha H. destruct l as [|b l']; [constructor|].
  change (removelast (a :: b :: l')) with (a :: removelast (b :: l')). now constructor.
Qed.

Lemma downloaded_present a :
  downloaded full_output a = true -> full_output ∈ files_left a.
Proof.
  unfold downloaded. intros H. apply andb_prop in H. destruct H as [_ H].
  now apply bool_decide_eq_true in H.
Qed.

Lemma try_player_clients_stage clients st :
  exists r st' new,
    try_player_clients env url cookies_arg full_output clients st = (inr r, st') /\
    stage env full_output (returned r) new (2 * length clients) st st' /\
    map cmd_of new
    = map (ytdlp_cmd url cookies_arg full_output) (firstn (length new) clients) /\
    Forall (fun b => downloaded full_output b = false) (removelast new) /\
    match r with
    | LoopReturn => last (log st') = Some "Download cancelled."
    | LoopBreak =>
        exists a, last new = Some a /\ downloaded full_output a = true /\
                  full_output ∈ files st' /\
                  exists client, last (log st')
                  = Some ("✅ Download successful using " +:+ client +:+ " player client!")
    | LoopExhausted =>
        length new = length clients /\
        Forall (fun b => downloaded full_output b = false) new
    end.
Proof.
  revert st. induction clients as [|client rest IH]; intros st.
  - exists LoopExhausted, st, []. cbn [try_player_clients].
    split; [reflexivity|]. split.
    { constructor.
      - now rewrite app_nil_r.
      - now left.
      - lia.
      - intros n H1 H2. lia.
      - cbn [returned]. intros n H. lia.
      - exists []. split; [now rewrite app_nil_r | now left].
      - auto.
      - constructor. }
    split; [reflexivity|]. split; [constructor|]. split; [reflexivity | constructor].
  - rewrite try_player_clients_cons.
    set (cmd := ytdlp_cmd url cookies_arg full_output client).
    match goal with |- context [downloaded full_output ?x] => set (a := x) end.
    destruct (cancel_flag env (polls st)) eqn:C0.
    { eexists LoopReturn, _, []. split; [reflexivity|]. split.
      { apply (stage_budget _ _ _ _ 1); [|cbn [length]; lia].
        apply stage_cancelled_at_once; [exact C0 | reflexivity..]. }
      split; [reflexivity|]. split; [constructor|]. apply last_add_log. }
    destruct (cancel_flag env (S (polls st))) eqn:C1.
    { eexists LoopReturn, _, [a]. split; [reflexivity|]. split.
      { apply (stage_budget _ _ _ _ 2); [|cbn [length]; lia].
        apply (stage_one_run _ _ true a st _ 1); [reflexivity | reflexivity |..].
        - lia.
        - intros _. exact C0.
        - exact C1.
        - proj. reflexivity.
        - left. proj. now apply files_after_run.
        - proj. reflexivity.
        - proj. reflexivity.
        - intros q. proj. destruct (outcome_of a); [discriminate|]. intros [= ->]. now left. }
      split; [reflexivity|]. split; [constructor|]. apply last_add_log. }
    destruct (downloaded full_output a) eqn:D.
    { eexists LoopBreak, _, [a]. split; [reflexivity|]. split.
      { apply (stage_budget _ _ _ _ 2); [|cbn [length]; lia].
        apply (stage_one_run _ _ false a st _ 1); [reflexivity | reflexivity |..].
        - lia.
        - intros _. exact C0.
        - exact C1.
        - proj. reflexivity.
        - left. proj. now apply files_after_run.
        - proj. reflexivity.
        - proj. now rewrite app_nil_r.
        - intros q. proj. destruct (outcome_of a); [discriminate|]. intros [= ->]. now left. }
      split; [reflexivity|]. split; [constructor|].
      exists a. split; [reflexivity|]. split; [exact D|]. split.
      - proj. unfold a. rewrite files_after_run by reflexivity. now apply downloaded_present.
      - eexists. apply last_add_log. }
    match goal with |- context [try_player_clients _ _ _ _ rest ?s] =>
      set (s1 := s);
      destruct (IH s1) as (r & st' & new & Hrun & Hst & Hcmds & Hpre & Hr)
    end.
    exists r, st', (a :: new). split; [exact Hrun|]. split.
    { change (a :: new) with ([a] ++ new).
      apply (stage_budget _ _ _ _ (2 + 2 * length rest)); [|cbn [length]; lia].
      apply (stage_app _ _ _ _ _ _ _ _ s1); [|exact Hst].
      apply (stage_one_run _ _ false a st _ 1); [reflexivity | reflexivity |..].
      - lia.
      - intros _. exact C0.
      - exact C1.
      - unfold s1. proj. reflexivity.
      - right. reflexivity.
      - unfold s1. proj. reflexivity.
      - unfold s1. proj. now rewrite app_nil_r.
      - intros q. unfold s1. proj.
        destruct (outcome_of a); [discriminate|]. intros [= ->]. now left. }
    split; [cbn [length firstn map]; f_equal; exact Hcmds|].
    split; [now apply Forall_removelast_cons|].
    destruct r; [exact Hr | |].
    + destruct Hr as (b & Hb & Hr). exists b. split; [|exact Hr].
      destruct new as [|c new']; [discriminate | exact Hb].
    + destruct Hr as [Hlen Hall]. split; [cbn [length]; now rewrite Hlen | now constructor].
Qed.

Lemma try_generic_stage st :
  let a := asked env (generic_cmd url cookies_arg full_output) st in
  exists r st' c,
    try_generic env url cookies_arg full_output st = (inr r, st') /\
    stage env full_output c [a] 1 st st' /\
    match r with
    | Downloaded => c = false /\ downloaded full_output a = true /\ full_output ∈ files st'
    | Returned =>
        (c = true /\ last (log st') = Some "Download cancelled.") \/
        (c = false /\ downloaded full_output a = false /\ (full_output ∉ files st') /\
         last (log st') = Some "❌ All extraction methods failed. Download cannot proceed.")
    end.
Proof.
  intros a. subst a. rewrite try_generic_eq.
  set (cmd := generic_cmd url cookies_arg full_output). set (a := asked env cmd st).
  destruct (cancel_flag env (polls st)) eqn:C0.
  { eexists Returned, _, true. split; [reflexivity|]. split.
    { apply (stage_one_run _ _ true a st _ 0); [reflexivity | reflexivity |..].
      - lia.
      - discriminate.
      - exact C0.
      - proj. reflexivity.
      - left. proj. now apply files_after_run.
      - proj. reflexivity.
      - proj. reflexivity.
      - intros q. proj. destruct (outcome_of a); [discriminate|]. intros [= ->]. now left. }
    left. split; [reflexivity | apply last_add_log]. }
  destruct (downloaded full_output a) eqn:D.
  { eexists Downloaded, _, false. split; [reflexivity|]. split.
    { apply (stage_one_run _ _ false a st _ 0); [reflexivity | reflexivity |..].
      - lia.
      - discriminate.
      - exact C0.
      - proj. reflexivity.
      - left. proj. now apply files_after_run.
      - proj. reflexivity.
      - proj. now rewrite app_nil_r.
      - intros q. proj. destruct (outcome_of a); [discriminate|]. intros [= ->]. now left. }
    split; [reflexivity|]. split; [reflexivity|].
    proj. unfold a. rewrite files_after_run by reflexivity. now apply downloaded_present. }
  eexists Returned, _, false. split; [reflexivity|]. split.
  { apply (stage_one_run _ _ false a st _ 0); [reflexivity | reflexivity |..].
    - lia.
    - discriminate.
    - exact C0.
    - proj. reflexivity.
    - right. reflexivity.
    - proj. reflexivity.
    - proj. now rewrite app_nil_r.
    - intros q. proj. destruct (outcome_of a); [discriminate|]. intros [= ->]. now left. }
  right. split; [reflexivity|]. split; [reflexivity|].
  split; [proj; apply not_in_removed | apply last_add_log].
Qed.

Lemma retrieve_stage clients st :
  exists r st' c new,
    retrieve env url cookies_arg full_output clients st = (inr r, st') /\
    stage env full_output c new (2 * length clients + 1) st st' /\
    map cmd_of new
    = firstn (length new) (declared_cmds url cookies_arg full_output clients) /\
    Forall (fun b => downloaded full_output b = false) (removelast new) /\
    match r with
    | Downloaded =>
        c = false /\ full_output ∈ files st' /\
        exists a, last new = Some a /\ downloaded full_output a = true
    | Returned =>
        (c = true /\ last (log st') = Some "Download cancelled.") \/
        (c = false /\
         map cmd_of new = declared_cmds url cookies_arg full_output clients /\
         Forall (fun b => downloaded full_output b = false) new /\
         (full_output ∉ files st') /\
         last (log st') = Some "❌ All extraction methods failed. Download cannot proceed.")
    end.
Proof.
  unfold retrieve. rewrite bind_eq.
  destruct (try_player_clients_stage clients st)
    as (r & st1 & new & Hrun & Hst & Hcmds & Hpre & Hr).
  rewrite Hrun.
  assert (Hlen : length new <= length clients).
  { apply (f_equal (@length _)) in Hcmds.
    rewrite !length_map, length_firstn in Hcmds. lia. }
  assert (Hfirst : map cmd_of new
                   = firstn (length new) (declared_cmds url cookies_arg full_output clients)).
  { rewrite Hcmds. unfold declared_cmds. rewrite firstn_app, length_map.
    replace (length new - length clients) with 0 by lia.
    cbn [firstn]. now rewrite app_nil_r, firstn_map. }
  destruct r.
  - exists Returned, st1, true, new. split; [reflexivity|]. split.
    { apply (stage_budget _ _ _ _ _ _ _ _ Hst). lia. }
    split; [exact Hfirst|]. split; [exact Hpre|]. left. now split.
  - exists Downloaded, st1, false, new. split; [reflexivity|]. split.
    { apply (stage_budget _ _ _ _ _ _ _ _ Hst). lia. }
    split; [exact Hfirst|]. split; [exact Hpre|]. split; [reflexivity|].
    destruct Hr as (a & Ha & Hd & Hf & _). split; [exact Hf|]. now exists a.
  - destruct Hr as [Hl Hall].
    destruct (try_generic_stage st1) as (r & st' & c & Hgen & Hst' & Hr).
    set (a := asked env (generic_cmd url cookies_arg full_output) st1) in *.
    assert (Hmap : map cmd_of (new ++ [a])
                   = declared_cmds url cookies_arg full_output clients).
    { rewrite map_app, Hcmds, Hl, firstn_all. reflexivity. }
    exists r, st', c, (new ++ [a]). split; [exact Hgen|]. split.
    { apply (stage_app _ _ _ _ _ _ _ _ st1); assumption. }
    split.
    { rewrite Hmap. symmetry. apply firstn_all2. rewrite <- Hmap, length_map. lia. }
    split; [now rewrite removelast_last|].
    destruct r.
    + destruct Hr as [[-> Hlog] | (-> & Hd & Hf & Hlog)]; [left; now split|].
      right. split; [reflexivity|]. split; [exact Hmap|]. split; [|now split].
      apply Forall_app. split; [exact Hall|]. constructor; [exact Hd | constructor].
    + destruct Hr as (-> & Hd & Hf). split; [reflexivity|]. split; [exact Hf|].
      exists a. split; [apply last_snoc | exact Hd].
Qed.

Variables (start end_ clipped_output : string).

Lemma trim_stage st :
  let a := asked env (ffmpeg_cmd start end_ full_output clipped_output) st in
  exists r st' c,
    trim env start end_ full_output clipped_output st = (r, st') /\
    stage env full_output c [a] 1 st st' /\
    files st' = files_left a ∖ {[ full_output ]} /\
    ((c = true /\ r = inr tt /\ last (log st') = Some "Trimming cancelled.") \/
     (c = false /\ exited_zero (outcome_of a) = true /\ clipped_output ∈ files_left a /\
      last (log st') = Some ("Clip saved as " +:+ clipped_output +:+ "!") /\
      r = if bool_decide (full_output ∈ files_left a) then inr tt
          else inl (Exception ("[Errno 2] No such file or directory: "
                               +:+ PyStr.repr full_output))) \/
     (c = false /\
      exited_zero (outcome_of a) && bool_decide (clipped_output ∈ files_left a) = false /\
      r = inr tt /\
      last (log st') = Some ("ffmpeg failed: " +:+ snd (exit_of (outcome_of a))))).
Proof.
  intros a. subst a. rewrite trim_eq.
  set (cmd := ffmpeg_cmd start end_ full_output clipped_output).
  set (a := asked env cmd st).
  destruct (cancel_flag env (polls st)) eqn:C0.
  { eexists _, _, true. split; [reflexivity|]. split.
    { apply (stage_one_run _ _ true a st _ 0); [reflexivity | reflexivity |..].
      - lia.
      - discriminate.
      - exact C0.
      - proj. reflexivity.
      - right. reflexivity.
      - proj. reflexivity.
      - proj. reflexivity.
      - intros q. proj. destruct (outcome_of a); [now right|]. intros [= ->]. now left. }
    split; [reflexivity|]. left. split; [reflexivity|]. split; [reflexivity|].
    cbn [log set_files]. apply last_add_log. }
  destruct (exited_zero (outcome_of a) && bool_decide (clipped_output ∈ files_left a)) eqn:D.
  { apply andb_prop in D. destruct D as [Dz Dc]. apply bool_decide_eq_true in Dc.
    assert (Hf : files (after_run a (add_log "Trimming video with ffmpeg..." st))
                 = files_left a) by now apply files_after_run.
    unfold unlink. step. rewrite !Hf.
    destruct (bool_decide (full_output ∈ files_left a)) eqn:Ef.
    - eexists _, _, false. split; [reflexivity|]. split.
      { apply (stage_one_run _ _ false a st _ 0); [reflexivity | reflexivity |..].
        - lia.
        - discriminate.
        - exact C0.
        - proj. reflexivity.
        - right. reflexivity.
        - proj. reflexivity.
        - proj. now rewrite app_nil_r.
        - intros q. proj. destruct (outcome_of a); [now right|]. intros [= ->]. now left. }
      split; [reflexivity|]. right. left. split; [reflexivity|]. split; [exact Dz|].
      split; [exact Dc|]. split; [cbn [log set_files]; apply last_add_log | reflexivity].
    - apply bool_decide_eq_false in Ef.
      eexists _, _, false. split; [reflexivity|]. split.
      { apply (stage_one_run _ _ false a st _ 0); [reflexivity | reflexivity |..].
        - lia.
        - discriminate.
        - exact C0.
        - proj. reflexivity.
        - left. proj. now apply files_after_run.
        - proj. reflexivity.
        - proj. now rewrite app_nil_r.
        - intros q. proj. destruct (outcome_of a); [now right|]. intros [= ->]. now left. }
      split.
      { proj. now rewrite Hf, removed_absent. }
      right. left. split; [reflexivity|]. split; [exact Dz|].
      split; [exact Dc|]. split; [apply last_add_log | reflexivity]. }
  eexists _, _, false. split; [reflexivity|]. split.
  { apply (stage_one_run _ _ false a st _ 0); [reflexivity | reflexivity |..].
    - lia.
    - discriminate.
    - exact C0.
    - proj. reflexivity.
    - right. reflexivity.
    - proj. reflexivity.
    - proj. now rewrite app_nil_r.
    - intros q. proj. destruct (outcome_of a); [now right|]. intros [= ->]. now left. }
  split; [reflexivity|]. right. right. split; [reflexivity|]. split; [reflexivity|].
  split; [reflexivity|]. cbn [log set_files]. apply last_add_log.
Qed.

End Stages.

Section WholeRun.
Variable env : environment.
Variables (url start end_ : string).

Lemma prepare_stage st full_output :
  mkdir_raises env (files st) = None ->
  stage env full_output false [asked env (title_cmd url) st] 0 st
        (snd (prepare env url start end_ st)).
Proof.
  intros Hm. rewrite prepare_eq by exact Hm. cbn [snd].
  set (a0 := asked env (title_cmd url) st).
  match goal with |- stage _ _ _ _ _ _ ?s => set (st1 := s) end.
  assert (P : polls st1 = polls st) by (unfold st1; proj; reflexivity).
  assert (R : runs st1 = runs st ++ [a0]) by (unfold st1; proj; reflexivity).
  assert (V : process_var st1 = process_var st) by (unfold st1; proj; reflexivity).
  constructor.
  - exact R.
  - cbn [handed_on]. split; [now left|]. left. unfold st1. proj.
    now apply files_after_probe.
  - lia.
  - intros n H1 H2. lia.
  - intros n H. lia.
  - exists []. split; [|now left]. unfold st1. proj. now rewrite app_nil_r.
  - intros K q Hq. rewrite R, map_app, in_app_iff. left. apply K. now rewrite <- V.
  - constructor; [|constructor]. cbn [polls_before asked a0]. lia.
Qed.

Lemma download_and_clip_stage st :
  mkdir_raises env (files st) = None ->
  let a0 := asked env (title_cmd url) st in
  let full_output := full_output_of env a0 in
  let clipped_output := clipped_output_of env a0 start end_ in
  exists r st' c attempts trims,
    download_and_clip env url start end_ st = (r, st') /\
    stage env full_output c (a0 :: attempts ++ trims) 8 st st' /\
    map cmd_of attempts
    = firstn (length attempts)
        (declared_cmds url (cookies_arg_after env a0) full_output player_clients) /\
    Forall (fun b => downloaded full_output b = false) (removelast attempts) /\
    ((trims = [] /\ c = true /\ r = inr tt /\ last (log st') = Some "Download cancelled.") \/
     (trims = [] /\ c = false /\ r = inr tt /\
      map cmd_of attempts
      = declared_cmds url (cookies_arg_after env a0) full_output player_clients /\
      Forall (fun b => downloaded full_output b = false) attempts /\
      (full_output ∉ files st') /\
      last (log st') = Some "❌ All extraction methods failed. Download cannot proceed.") \/
     (exists a t,
        trims = [t] /\ last attempts = Some a /\ downloaded full_output a = true /\
        cmd_of t = ffmpeg_cmd start end_ full_output clipped_output /\
        full_output ∈ files_before t /\
        files st' = files_left t ∖ {[ full_output ]} /\
        trim_ending full_output clipped_output t c r (last (log st')))).
Proof.
  intros Hm a0 full_output clipped_output.
  pose proof (prepare_stage st full_output Hm) as H0.
  unfold download_and_clip. rewrite bind_eq. rewrite prepare_eq in * by exact Hm.
  cbn [snd] in H0.
  fold a0 in H0 |- *. fold (cookies_arg_after env a0).
  change (in_download_dir env (full_name (title_or_default env (probe_title a0))))
    with full_output.
  change (in_download_dir env (clip_name (title_or_default env (probe_title a0)) start end_))
    with clipped_output.
  match type of H0 with stage _ _ _ _ _ _ ?s => set (st1 := s) in * end.
  unfold retrieve_and_trim. rewrite bind_eq.
  destruct (retrieve_stage env url (cookies_arg_after env a0) full_output player_clients st1)
    as (x & st2 & c & new & Hrun & Hst & Hcmds & Hpre & Hx).
  rewrite Hrun.
  assert (H1 : stage env full_output c (a0 :: new) 7 st st2).
  { change (a0 :: new) with ([a0] ++ new).
    apply (stage_budget _ _ _ _ (0 + (2 * length player_clients + 1))); [|cbn; lia].
    now apply (stage_app _ _ _ _ _ _ _ _ st1). }
  destruct x.
  - (* the function has returned *)
    exists (inr tt), st2, c, new, []. split; [reflexivity|]. split.
    { rewrite app_nil_r. apply (stage_budget _ _ _ _ _ _ _ _ H1). lia. }
    split; [exact Hcmds|]. split; [exact Hpre|].
    destruct Hx as [[-> Hlog] | (-> & Hall & Hnone & Hf & Hlog)].
    + left. auto.
    + right. left. repeat (split; [assumption || reflexivity|]). assumption.
  - (* on to the trim *)
    destruct Hx as (-> & Hf & a & Ha & Hd).
    destruct (trim_stage env full_output start end_ clipped_output st2)
      as (r & st' & c & Htrim & Hst' & Hfiles & Hend).
    set (t := asked env (ffmpeg_cmd start end_ full_output clipped_output) st2) in *.
    exists r, st', c, new, [t]. split; [exact Htrim|]. split.
    { change (a0 :: new ++ [t]) with ((a0 :: new) ++ [t]).
      apply (stage_budget _ _ _ _ (7 + 1)); [|lia].
      now apply (stage_app _ _ _ _ _ _ _ _ st2). }
    split; [exact Hcmds|]. split; [exact Hpre|]. right. right.
    exists a, t. repeat (split; [assumption || reflexivity|]). exact Hend.
Qed.

End WholeRun.

Lemma length_declared_cmds url cookies_arg full_output :
  length (declared_cmds url cookies_arg full_output player_clients) = 4.
Proof. unfold declared_cmds. now rewrite length_app, length_map. Qed.

(** A directory that cannot be created holds no file. *)
Lemma mkdir_raises_empty_dir env fs e name :
  mkdir_raises env fs = Some e -> in_download_dir env name ∉ fs.
Proof.
  unfold mkdir_raises. intros H Hin.
  destruct (existsb (inside_download_dir env) (elements fs)) eqn:E; [discriminate|].
  assert (E' : existsb (inside_download_dir env) (elements fs) = true).
  { apply existsb_exists. exists (in_download_dir env name). split.
    - apply list_elem_of_In, elem_of_elements, Hin.
    - unfold inside_download_dir, in_download_dir.
      destruct (Re.strip_prefix (download_dir env +:+ "/") (download_dir env +:+ "/" +:+ name))
        as [rest|] eqn:Ep; [reflexivity|].
      assert (Hs : Re.strip_prefix (download_dir env +:+ "/")
                     (download_dir env +:+ "/" +:+ name) = Some name).
      { apply strip_prefix_spec. clear. induction (download_dir env) as [|c d IH];
          [reflexivity|].
        change (String c (d +:+ "/" +:+ name) = String c ((d +:+ "/") +:+ name)).
        now rewrite IH. }
      rewrite Hs in Ep. discriminate. }
  rewrite E' in E. discriminate.
Qed.

(** X5: A run whose download directory cannot be created starts no
    subprocess.  Any other run, whatever the subprocesses do and whenever
    the user cancels, starts the title lookup, then a prefix of the
    declared download commands (one per player client, then the generic
    extractor), each attempt before the last of them having failed, then
    at most one transcoder, and nothing else.  The transcoder is started
    only when the last download attempt exited with status 0 and left the
    full download, which is then on disk when the transcoder starts. *)
Theorem download_and_clip_commands env url start end_ st :
  let a0 := asked env (title_cmd url) st in
  let full_output := full_output_of env a0 in
  let clipped_output := clipped_output_of env a0 start end_ in
  let st' := snd (download_and_clip env url start end_ st) in
  match mkdir_raises env (files st) with
  | Some _ => runs st' = runs st
  | None =>
      exists attempts trims,
        runs st' = runs st ++ a0 :: attempts ++ trims /\
        length attempts <= 4 /\
        map cmd_of attempts
        = firstn (length attempts)
            (declared_cmds url (cookies_arg_after env a0) full_output player_clients) /\
        Forall (fun b => downloaded full_output b = false) (removelast attempts) /\
        (trims = [] \/
         exists a t,
           trims = [t] /\ cmd_of t = ffmpeg_cmd start end_ full_output clipped_output /\
           last attempts = Some a /\ downloaded full_output a = true /\
           full_output ∈ files_before t)
  end.
Proof.
  intros a0 full_output clipped_output st'. subst st'.
  destruct (mkdir_raises env (files st)) as [e|] eqn:Hm.
  { now rewrite (download_and_clip_mkdir_raises env url start end_ st e Hm). }
  destruct (download_and_clip_stage env url start end_ st Hm)
    as (r & st' & c & attempts & trims & Hrun & Hst & Hcmds & Hpre & Hend).
  fold a0 full_output clipped_output in Hst, Hcmds, Hpre, Hend.
  rewrite Hrun. cbn [snd]. exists attempts, trims.
  split; [apply (stage_runs _ _ _ _ _ _ _ Hst)|].
  split.
  { apply (f_equal (@length _)) in Hcmds.
    rewrite length_map, length_firstn, length_declared_cmds in Hcmds. lia. }
  split; [exact Hcmds|]. split; [exact Hpre|].
  destruct Hend as [(-> & _) | [(-> & _) | (a & t & -> & Ha & Hd & Hc & Hf & _)]];
    [now left | now left |].
  right. exists a, t. auto.
Qed.

(** X6: A run starts at most six subprocesses and calls the cancellation
    predicate at most eight times.  It starts at least one subprocess, the
    title lookup, unless the download directory cannot be created: then
    it starts none and never calls the predicate. *)
Theorem download_and_clip_bounded env url start end_ st :
  let st' := snd (download_and_clip env url start end_ st) in
  length (runs st') <= length (runs st) + 6 /\
  polls st <= polls st' <= polls st + 8 /\
  match mkdir_raises env (files st) with
  | Some _ => runs st' = runs st /\ polls st' = polls st
  | None => length (runs st) < length (runs st')
  end.
Proof.
  cbv zeta. destruct (mkdir_raises env (files st)) as [e|] eqn:Hm.
  { rewrite (download_and_clip_mkdir_raises env url start end_ st e Hm).
    cbn [snd runs polls add_log]. repeat split; lia. }
  destruct (download_and_clip_stage env url start end_ st Hm)
    as (r & st' & c & attempts & trims & Hrun & Hst & Hcmds & Hpre & Hend).
  rewrite Hrun. cbn [snd].
  assert (length attempts <= 4).
  { apply (f_equal (@length _)) in Hcmds.
    rewrite length_map, length_firstn, length_declared_cmds in Hcmds. lia. }
  assert (length trims <= 1).
  { destruct Hend as [(-> & _) | [(-> & _) | (a & t & -> & _)]]; cbn [length]; lia. }
  pose proof (stage_polls _ _ _ _ _ _ _ Hst) as Hp.
  rewrite (stage_runs _ _ _ _ _ _ _ Hst), !length_app. cbn [length]. rewrite length_app.
  repeat split; lia.
Qed.

(** X7: The first call of the cancellation predicate that answers true is
    the last call of the run: the run asks no more, returns normally, its
    last report is one of the two cancellation messages, and it starts no
    further subprocess: every subprocess of the run was started before
    that call. *)
Theorem cancellation_ends_the_run env url start end_ st n :
  let res := download_and_clip env url start end_ st in
  polls st <= n < polls (snd res) -> cancel_flag env n = true ->
  polls (snd res) = S n /\ fst res = inr tt /\
  (last (log (snd res)) = Some "Download cancelled." \/
   last (log (snd res)) = Some "Trimming cancelled.") /\
  exists new, runs (snd res) = runs st ++ new /\
              Forall (fun a => polls_before a <= n) new.
Proof.
  cbv zeta. destruct (mkdir_raises env (files st)) as [e|] eqn:Hm.
  { rewrite (download_and_clip_mkdir_raises env url start end_ st e Hm).
    cbn [snd polls add_log]. lia. }
  destruct (download_and_clip_stage env url start end_ st Hm)
    as (r & st' & c & attempts & trims & Hrun & Hst & Hcmds & Hpre & Hend).
  rewrite Hrun. cbn [fst snd]. intros Hn Hc.
  pose proof (stage_calm _ _ _ _ _ _ _ Hst) as Hcalm.
  pose proof (stage_last _ _ _ _ _ _ _ Hst) as Hlast.
  destruct c.
  - destruct Hlast as (m & Em & Hm' & Hcm).
    assert (n = m) as ->.
    { destruct (Nat.eq_dec n m) as [E | E]; [exact E|].
      rewrite Hcalm in Hc by lia. discriminate. }
    split; [exact Em|].
    assert (Hord : exists new, runs st' = runs st ++ new /\
                               Forall (fun a => polls_before a <= m) new).
    { eexists. split; [exact (stage_runs _ _ _ _ _ _ _ Hst)|].
      eapply List.Forall_impl; [|exact (stage_order _ _ _ _ _ _ _ Hst)].
      cbn beta. intros a [_ Ha]. lia. }
    destruct Hend as [(_ & _ & -> & Hlog) | [(_ & [=] & _) | (a & t & _ & _ & _ & _ & _ & _ & Ht)]];
      [now auto|].
    destruct Ht as [(_ & -> & Hlog) | [([=] & _) | ([=] & _)]]. auto.
  - rewrite Hlast in Hc by exact Hn. discriminate.
Qed.

Lemma cancellation_ends_the_run_witness :
  let e := Scenario.world Scenario.working Scenario.during_trim in
  polls (snd (Scenario.go e)) = 3 /\ fst (Scenario.go e) = inr tt /\
  cancel_flag e 2 = true.
Proof.
  cbv zeta.
  destruct (cancellation_ends_the_run (Scenario.world Scenario.working Scenario.during_trim)
              Scenario.url "00:00:10" "00:01:00" (initial ∅) 2)
    as (Hp & Hr & _).
  - split; [cbn; lia | vm_compute; lia].
  - reflexivity.
  - split; [exact Hp|]. split; [exact Hr | reflexivity].
Defined.

(** X8: The run itself creates no file and removes none but [full_output]:
    every subprocess starts on the files the one before it left, and the
    files at the end are those the last subprocess left, in both cases with
    [full_output] possibly removed; when no subprocess is started the files
    are left as they were.  So any other path exists at the end exactly
    when the last subprocess left it. *)
Theorem download_and_clip_touches_only_full_output env url start end_ st :
  let full_output := full_output_of env (asked env (title_cmd url) st) in
  let st' := snd (download_and_clip env url start end_ st) in
  exists new,
    runs st' = runs st ++ new /\
    handed_on full_output (files st) new (files st') /\
    (new = [] -> files st' = files st) /\
    forall a, last new = Some a ->
      forall p, p <> full_output -> (p ∈ files st' <-> p ∈ files_left a).
Proof.
  cbv zeta. destruct (mkdir_raises env (files st)) as [e|] eqn:Hm.
  { rewrite (download_and_clip_mkdir_raises env url start end_ st e Hm).
    cbn [snd runs files add_log]. exists [].
    split; [now rewrite app_nil_r|]. split; [now left|]. split; [reflexivity|].
    discriminate. }
  destruct (download_and_clip_stage env url start end_ st Hm)
    as (r & st' & c & attempts & trims & Hrun & Hst & Hcmds & Hpre & Hend).
  rewrite Hrun. cbn [snd].
  set (a0 := asked env (title_cmd url) st) in *.
  pose proof (stage_runs _ _ _ _ _ _ _ Hst) as R.
  pose proof (stage_files _ _ _ _ _ _ _ Hst) as F.
  exists (a0 :: attempts ++ trims). split; [exact R|]. split; [exact F|].
  split; [discriminate|].
  intros a La p Hp. destruct (handed_on_last _ _ _ _ _ F La) as [-> | ->]; [reflexivity|].
  now apply in_removed_iff.
Qed.

(** X9: Signals are sent only on cancellation: either the run sends none, or
    the last call of the cancellation predicate answered true and the run
    sent [terminate], followed by [kill] when the wait timed out, to one
    process that it had started itself. *)
Theorem signals_only_after_cancellation env url start end_ st :
  process_var st = None ->
  let st' := snd (download_and_clip env url start end_ st) in
  signals st' = signals st \/
  exists q n,
    signals st' = signals st ++ stop_signals q /\
    In (inr q) (map outcome_of (runs st')) /\
    polls st' = S n /\ cancel_flag env n = true.
Proof.
  intros Hv. cbv zeta. destruct (mkdir_raises env (files st)) as [e|] eqn:Hm.
  { rewrite (download_and_clip_mkdir_raises env url start end_ st e Hm). now left. }
  destruct (download_and_clip_stage env url start end_ st Hm)
    as (r & st' & c & attempts & trims & Hrun & Hst & Hcmds & Hpre & Hend).
  rewrite Hrun. cbn [snd].
  destruct (stage_signals _ _ _ _ _ _ _ Hst) as (sent & Hs & [-> | (-> & q & Hq & ->)]).
  - left. now rewrite Hs, app_nil_r.
  - right. destruct (stage_last _ _ _ _ _ _ _ Hst) as (n & En & _ & Hc).
    exists q, n. split; [exact Hs|]. split; [|now split].
    apply (stage_known _ _ _ _ _ _ _ Hst); [|exact Hq].
    intros q'. rewrite Hv. discriminate.
Qed.

Lemma signals_only_after_cancellation_witness :
  let e := Scenario.world Scenario.working Scenario.during_trim in
  signals (snd (Scenario.go e)) = [(1, Terminate)].
Proof.
  cbv zeta.
  destruct (signals_only_after_cancellation
              (Scenario.world Scenario.working Scenario.during_trim)
              Scenario.url "00:00:10" "00:01:00" (initial ∅) eq_refl)
    as [_ | _]; vm_compute; reflexivity.
Defined.

(** X10: With callbacks that return, and where removing an existing file
    succeeds, every run ends in one of six ways.  Either the download directory
    cannot be created: the run raises after "Starting download..." with no
    subprocess started.  Or its last report is "Download cancelled.";
    "Trimming cancelled."; "All extraction methods failed"; "Clip saved
    as ...", in which case the clip file exists; or "ffmpeg failed: ..."
    with the output of the transcoder.  The last four leave no
    [full_output] behind, and of the five reports only "Clip saved" can
    come with an exception. *)
Theorem download_and_clip_final_report env url start end_ st :
  let a0 := asked env (title_cmd url) st in
  let full_output := full_output_of env a0 in
  let clipped_output := clipped_output_of env a0 start end_ in
  let res := download_and_clip env url start end_ st in
  let st' := snd res in
  (exists e, mkdir_raises env (files st) = Some e /\ fst res = inl e /\
             log st' = log st ++ ["Starting download..."] /\
             runs st' = runs st /\ files st' = files st) \/
  mkdir_raises env (files st) = None /\
  ((last (log st') = Some "Download cancelled." /\ fst res = inr tt) \/
   (last (log st') = Some "Trimming cancelled." /\ fst res = inr tt /\
    (full_output ∉ files st')) \/
   (last (log st') = Some "❌ All extraction methods failed. Download cannot proceed." /\
    fst res = inr tt /\ (full_output ∉ files st')) \/
   (last (log st') = Some ("Clip saved as " +:+ clipped_output +:+ "!") /\
    clipped_output ∈ files st' /\ (full_output ∉ files st')) \/
   (exists output,
      last (log st') = Some ("ffmpeg failed: " +:+ output) /\ fst res = inr tt /\
      (full_output ∉ files st'))).
Proof.
  intros a0 full_output clipped_output. cbv zeta.
  destruct (mkdir_raises env (files st)) as [e|] eqn:Hm.
  { left. exists e. rewrite (download_and_clip_mkdir_raises env url start end_ st e Hm).
    cbn [fst snd log runs files add_log]. auto. }
  right. split; [reflexivity|].
  destruct (download_and_clip_stage env url start end_ st Hm)
    as (r & st' & c & attempts & trims & Hrun & Hst & Hcmds & Hpre & Hend).
  fold a0 full_output clipped_output in Hst, Hcmds, Hpre, Hend.
  rewrite Hrun. cbn [fst snd].
  destruct Hend as [(_ & _ & -> & Hlog) | [(_ & _ & -> & _ & _ & Hf & Hlog) |
                    (a & t & _ & _ & _ & _ & _ & Hfiles & Ht)]];
    [now left | right; right; left; now auto |].
  assert (Hgone : full_output ∉ files st') by (rewrite Hfiles; apply not_in_removed).
  destruct Ht as [(_ & -> & Hlog) | [(_ & Hz & Hclip & Hlog & _) | (_ & _ & -> & Hlog)]].
  - right. left. auto.
  - right. right. right. left. split; [exact Hlog|]. split; [|exact Hgone].
    rewrite Hfiles. apply in_removed_iff; [|exact Hclip]. apply clip_path_not_full.
  - right. right. right. right. eexists. split; [exact Hlog|]. auto.
Qed.

(** X11: The full download is left on disk by one kind of run only: one that
    ends with "Download cancelled.", the cancellation predicate having
    answered true at its last call. *)
Theorem full_output_left_only_when_download_cancelled env url start end_ st :
  let full_output := full_output_of env (asked env (title_cmd url) st) in
  let res := download_and_clip env url start end_ st in
  full_output ∈ files (snd res) ->
  fst res = inr tt /\ last (log (snd res)) = Some "Download cancelled." /\
  exists n, polls (snd res) = S n /\ cancel_flag env n = true.
Proof.
  cbv zeta. destruct (mkdir_raises env (files st)) as [e|] eqn:Hm.
  { rewrite (download_and_clip_mkdir_raises env url start end_ st e Hm).
    cbn [snd files add_log]. intros Hin.
    now apply (mkdir_raises_empty_dir _ _ _ _ Hm) in Hin. }
  destruct (download_and_clip_stage env url start end_ st Hm)
    as (r & st' & c & attempts & trims & Hrun & Hst & Hcmds & Hpre & Hend).
  rewrite Hrun. cbn [fst snd]. intros Hin.
  destruct Hend as [(_ & -> & -> & Hlog) | [(_ & _ & _ & _ & _ & Hf & _) |
                    (a & t & _ & _ & _ & _ & _ & Hfiles & _)]].
  - split; [reflexivity|]. split; [exact Hlog|].
    destruct (stage_last _ _ _ _ _ _ _ Hst) as (n & En & _ & Hc). now exists n.
  - contradiction.
  - rewrite Hfiles in Hin. now apply not_in_removed in Hin.
Qed.

Lemma full_output_left_only_when_download_cancelled_witness :
  let e := Scenario.world Scenario.working Scenario.during_download in
  Scenario.full ∈ files (snd (Scenario.go e)) /\
  last (log (snd (Scenario.go e))) = Some "Download cancelled.".
Proof.
  cbv zeta.
  assert (H : Scenario.full
              ∈ files (snd (Scenario.go (Scenario.world Scenario.working
                                           Scenario.during_download)))).
  { refine (bool_decide_unpack _ _). vm_compute. exact I. }
  split; [exact H|].
  destruct (full_output_left_only_when_download_cancelled
              (Scenario.world Scenario.working Scenario.during_download)
              Scenario.url "00:00:10" "00:01:00" (initial ∅))
    as (_ & Hlog & _).
  - refine (bool_decide_unpack _ _). vm_compute. exact I.
  - exact Hlog.
Defined.

(** X12: With callbacks that return, and where removing an existing file
    succeeds, [download_and_clip] raises in two situations only.  Either the download directory cannot
    be created: the run raises that error after "Starting download...",
    before anything else is done.  Or the transcoder was started, exited
    with status 0 and left the clip, the run reported the clip as saved,
    and [full_output], there when the transcoder started, was gone for the
    final, unguarded [unlink], which raises [FileNotFoundError]. *)
Theorem download_and_clip_raises_only_at_last_unlink env url start end_ st e :
  let a0 := asked env (title_cmd url) st in
  let full_output := full_output_of env a0 in
  let clipped_output := clipped_output_of env a0 start end_ in
  let res := download_and_clip env url start end_ st in
  fst res = inl e ->
  (mkdir_raises env (files st) = Some e /\
   snd res = add_log "Starting download..." st) \/
  (mkdir_raises env (files st) = None /\
   e = Exception ("[Errno 2] No such file or directory: " +:+ PyStr.repr full_output) /\
   last (log (snd res)) = Some ("Clip saved as " +:+ clipped_output +:+ "!") /\
   clipped_output ∈ files (snd res) /\
   exists t,
     last (runs (snd res)) = Some t /\
     cmd_of t = ffmpeg_cmd start end_ full_output clipped_output /\
     exited_zero (outcome_of t) = true /\
     full_output ∈ files_before t /\ (full_output ∉ files_left t) /\
     files (snd res) = files_left t).
Proof.
  intros a0 full_output clipped_output. cbv zeta.
  destruct (mkdir_raises env (files st)) as [e'|] eqn:Hm.
  { rewrite (download_and_clip_mkdir_raises env url start end_ st e' Hm).
    cbn [fst snd]. intros [= ->]. left. now split. }
  right. split; [reflexivity|]. revert H.
  destruct (download_and_clip_stage env url start end_ st Hm)
    as (r & st' & c & attempts & trims & Hrun & Hst & Hcmds & Hpre & Hend).
  fold a0 full_output clipped_output in Hst, Hcmds, Hpre, Hend.
  rewrite Hrun. cbn [fst snd]. intros ->.
  destruct Hend as [(_ & _ & [=] & _) | [(_ & _ & [=] & _) |
                    (a & t & -> & _ & _ & Hcmd & Hbefore & Hfiles & Ht)]].
  destruct Ht as [(_ & [=] & _) | [(_ & Hz & Hclip & Hlog & Hr) | (_ & _ & [=] & _)]].
  destruct (bool_decide (full_output ∈ files_left t)) eqn:Ef; [discriminate|].
  apply bool_decide_eq_false in Ef. injection Hr as ->.
  rewrite removed_absent in Hfiles by exact Ef.
  split; [reflexivity|]. split; [exact Hlog|]. split; [now rewrite Hfiles|].
  exists t. split.
  { rewrite (stage_runs _ _ _ _ _ _ _ Hst).
    change (a0 :: attempts ++ [t]) with ((a0 :: attempts) ++ [t]).
    rewrite app_assoc. apply last_snoc. }
  auto.
Qed.

Lemma download_and_clip_raises_only_at_last_unlink_witness :
  let e := Scenario.world Mishap.consuming Scenario.never in
  fst (Scenario.go e) = inl Mishap.missing_full /\
  last (log (snd (Scenario.go e))) = Some ("Clip saved as " +:+ Scenario.clip +:+ "!") /\
  Scenario.clip ∈ files (snd (Scenario.go e)).
Proof.
  cbv zeta.
  destruct (download_and_clip_raises_only_at_last_unlink
              (Scenario.world Mishap.consuming Scenario.never)
              Scenario.url "00:00:10" "00:01:00" (initial ∅) Mishap.missing_full)
    as [[Hm _] | (_ & _ & Hlog & Hclip & _)].
  - vm_compute. reflexivity.
  - vm_compute in Hm. discriminate Hm.
  - split; [vm_compute; reflexivity|]. split.
    + unfold Scenario.go. rewrite Hlog. vm_compute. reflexivity.
    + refine (bool_decide_unpack _ _). vm_compute. exact I.
Defined.

(** A regular file where the download directory should be: the run raises
    [FileExistsError] after its first message and starts nothing. *)
Example download_dir_blocked :
  let e := Scenario.world Scenario.working Scenario.never in
  let r := download_and_clip e Scenario.url "00:00:10" "00:01:00"
             (initial Mishap.blocked) in
  fst r = inl (Exception
                 "[Errno 17] File exists: '/home/user/Downloads/YouTubeClips'") /\
  runs (snd r) = [] /\ polls (snd r) = 0 /\ log (snd r) = ["Starting download..."].
Proof. cbv zeta. repeat split; vm_compute; reflexivity. Qed.

(** ** The window *)

Section AppFacts.
Import YTClipperApp.

Ltac app_step :=
  cbn [entries url_link status_area trim_btn cancel_btn trim_another_btn url
       YTClipperApp.cancel_flag download_thread errors opened workers
       set_entries set_url_link set_status_area set_buttons set_trim_another_btn
       set_url set_cancel_flag set_download_thread showerror webbrowser_open
       start_thread].

(** What [trim_clip] does, by cases on the three checks. *)
Lemma trim_clip_eq a :
  let f := entries a in
  let u := PyStr.strip (url_entry f) in
  let a1 := set_url u a in
  trim_clip a =
  if negb (is_valid_url u)
  then inr (showerror "Error" "Please enter a valid YouTube URL." a1)
  else if negb (is_valid_time (PyStr.strip (start_h f)) (PyStr.strip (start_m f))
                              (PyStr.strip (start_s f))
                && is_valid_time (PyStr.strip (end_h f)) (PyStr.strip (end_m f))
                                 (PyStr.strip (end_s f)))
  then inr (showerror "Error" "Please enter valid time format (HH:MM:SS)." a1)
  else
    match format_time (PyStr.strip (start_h f)) (PyStr.strip (start_m f))
                      (PyStr.strip (start_s f)),
          format_time (PyStr.strip (end_h f)) (PyStr.strip (end_m f))
                      (PyStr.strip (end_s f)) with
    | Some start_time, Some end_time =>
        inr (start_thread (u, start_time, end_time)
               (set_cancel_flag false (set_buttons false true (set_status_area "" a1))))
    | _, _ => inl value_error
    end.
Proof.
  intros f u a1. subst f u a1. unfold trim_clip. app_step.
  destruct (negb (is_valid_url _)); [reflexivity|].
  destruct (negb _); [reflexivity|].
  destruct (format_time _ _ _); [|reflexivity].
  destruct (format_time _ _ _); reflexivity.
Qed.

Lemma perform_keeps_window_ok c a :
  window_ok a ->
  exists a', perform c a = inr a' /\ window_ok a' /\
    (is_trim_clip c = false -> url a = "" ->
     url a' = "" /\ opened a' = opened a /\ workers a' = workers a).
Proof.
  intros (Hlink & Hopened & Hworkers & Hthread).
  destruct c; cbn [perform is_trim_clip].
  - eexists. split; [reflexivity|]. split; [|auto]. repeat split; assumption.
  - eexists. split; [reflexivity|]. unfold validate_url.
    destruct (is_valid_url (PyStr.strip (url_entry (entries a)))) eqn:E;
      (split; [|auto]); (split; [|split; [|split]]); app_step; auto.
  - eexists. split; [reflexivity|]. unfold open_url.
    destruct (String.eqb_spec (url a) "") as [E0 | E0]; cbn [negb andb].
    + split; [|auto]. repeat split; assumption.
    + split; [|intros _ E; contradiction].
      destruct (is_valid_url (url a)) eqn:E; [|repeat split; assumption].
      split; [|split; [|split]]; app_step; auto.
      apply Forall_app. split; [exact Hopened|]. constructor; [exact E | constructor].
  - rewrite trim_clip_eq. cbv zeta.
    set (f := entries a). set (u := PyStr.strip (url_entry f)).
    destruct (is_valid_url u) eqn:Eu; cbn [negb].
    2:{ eexists. split; [reflexivity|]. split; [|discriminate].
        split; [|split; [|split]]; app_step; auto. }
    destruct (is_valid_time (PyStr.strip (start_h f)) _ _) eqn:Es; cbn [negb andb].
    2:{ eexists. split; [reflexivity|]. split; [|discriminate].
        split; [|split; [|split]]; app_step; auto. }
    destruct (is_valid_time (PyStr.strip (end_h f)) _ _) eqn:Ee; cbn [negb].
    2:{ eexists. split; [reflexivity|]. split; [|discriminate].
        split; [|split; [|split]]; app_step; auto. }
    destruct (format_time_clock _ _ _ Es) as (start & -> & Hs).
    destruct (format_time_clock _ _ _ Ee) as (end_ & -> & He).
    eexists. split; [reflexivity|]. split; [|discriminate].
    split; [|split; [|split]]; app_step; auto.
    + apply Forall_app. split; [exact Hworkers|]. constructor; [|constructor].
      cbn [task_ok]. auto.
    + intros task [= <-]. apply in_app_iff. right. now left.
  - eexists. split; [reflexivity|]. split; [|auto]. repeat split; assumption.
  - eexists. split; [reflexivity|]. split; [|auto]. repeat split; assumption.
  - eexists. split; [reflexivity|]. split; [|auto].
    split; [|split; [|split]]; unfold reset_form; app_step; auto. discriminate.
  - eexists. split; [reflexivity|]. split; [|auto]. repeat split; assumption.
  - eexists. split; [reflexivity|]. unfold download_task_end, show_trim_another_button.
    destruct (completed && negb (YTClipperApp.cancel_flag a));
      (split; [|auto]); repeat split; assumption.
Qed.

Lemma perform_all_keeps_window_ok cs a :
  window_ok a ->
  exists a', perform_all cs a = inr a' /\ window_ok a' /\
    (existsb is_trim_clip cs = false -> url a = "" ->
     url a' = "" /\ opened a' = opened a /\ workers a' = workers a).
Proof.
  revert a. induction cs as [|c rest IH]; intros a Hok; cbn [perform_all existsb].
  - exists a. auto.
  - destruct (perform_keeps_window_ok c a Hok) as (a1 & -> & Hok1 & H1).
    destruct (IH a1 Hok1) as (a' & Hrun & Hok' & H').
    exists a'. split; [exact Hrun|]. split; [exact Hok'|].
    intros Hno Hu. apply orb_false_iff in Hno. destruct Hno as [Hc Hrest].
    destruct (H1 Hc Hu) as (Hu1 & Ho1 & Hw1).
    destruct (H' Hrest Hu1) as (Hu' & Ho' & Hw').
    split; [exact Hu'|]. split; congruence.
Qed.

End AppFacts.

(** X13: [trim_clip] never raises.  It starts a worker exactly when the stripped
    URL is accepted by [is_valid_url] and both stripped time triples are
    accepted by [is_valid_time], each checked on its own; the worker then
    gets the stripped URL and two times of day in the form HH:MM:SS, the
    status area is cleared, the Trim button disabled, the Cancel button
    enabled and the cancel flag reset.  Otherwise it shows one error box,
    for the URL if that is what failed, and changes nothing else; in both
    cases [self.url] becomes the stripped URL. *)
Theorem trim_clip_starts_worker_iff (a : YTClipperApp.app) :
  let f := YTClipperApp.entries a in
  let u := PyStr.strip (YTClipperApp.url_entry f) in
  let sh := PyStr.strip (YTClipperApp.start_h f) in
  let sm := PyStr.strip (YTClipperApp.start_m f) in
  let ss := PyStr.strip (YTClipperApp.start_s f) in
  let eh := PyStr.strip (YTClipperApp.end_h f) in
  let em := PyStr.strip (YTClipperApp.end_m f) in
  let es := PyStr.strip (YTClipperApp.end_s f) in
  exists a',
    YTClipperApp.trim_clip a = inr a' /\
    YTClipperApp.url a' = u /\
    YTClipperApp.entries a' = f /\
    YTClipperApp.url_link a' = YTClipperApp.url_link a /\
    YTClipperApp.trim_another_btn a' = YTClipperApp.trim_another_btn a /\
    YTClipperApp.opened a' = YTClipperApp.opened a /\
    if is_valid_url u && is_valid_time sh sm ss && is_valid_time eh em es
    then
      exists start end_,
        format_time sh sm ss = Some start /\ format_time eh em es = Some end_ /\
        clock start /\ clock end_ /\
        YTClipperApp.download_thread a' = Some (u, start, end_) /\
        YTClipperApp.workers a' = YTClipperApp.workers a ++ [(u, start, end_)] /\
        YTClipperApp.errors a' = YTClipperApp.errors a /\
        YTClipperApp.status_area a' = "" /\
        YTClipperApp.trim_btn a' = false /\ YTClipperApp.cancel_btn a' = true /\
        YTClipperApp.cancel_flag a' = false
    else
      YTClipperApp.errors a'
      = YTClipperApp.errors a
        ++ [("Error", if is_valid_url u then "Please enter valid time format (HH:MM:SS)."
                      else "Please enter a valid YouTube URL.")] /\
      YTClipperApp.workers a' = YTClipperApp.workers a /\
      YTClipperApp.download_thread a' = YTClipperApp.download_thread a /\
      YTClipperApp.status_area a' = YTClipperApp.status_area a /\
      YTClipperApp.trim_btn a' = YTClipperApp.trim_btn a /\
      YTClipperApp.cancel_btn a' = YTClipperApp.cancel_btn a /\
      YTClipperApp.cancel_flag a' = YTClipperApp.cancel_flag a.
Proof.
  intros f u sh sm ss eh em es. rewrite trim_clip_eq. cbv zeta. fold f u sh sm ss eh em es.
  destruct (is_valid_url u) eqn:Eu; cbn [negb andb].
  2:{ eexists. split; [reflexivity|]. repeat split. }
  destruct (is_valid_time sh sm ss) eqn:Es; cbn [negb andb].
  2:{ eexists. split; [reflexivity|]. repeat split. }
  destruct (is_valid_time eh em es) eqn:Ee; cbn [negb andb].
  2:{ eexists. split; [reflexivity|]. repeat split. }
  destruct (format_time_clock _ _ _ Es) as (start & Hfs & Hs).
  destruct (format_time_clock _ _ _ Ee) as (end_ & Hfe & He).
  rewrite Hfs, Hfe.
  eexists. split; [reflexivity|].
  split; [reflexivity|]. split; [reflexivity|]. split; [reflexivity|].
  split; [reflexivity|]. split; [reflexivity|].
  exists start, end_. split; [reflexivity|]. split; [reflexivity|].
  split; [exact Hs|]. split; [exact He|]. repeat split.
Qed.

(** X14: Whatever the user types and in whatever order the methods of the window
    run, starting from the window as created: no call raises; the link
    label is empty or shows a URL that [is_valid_url] accepts; only such
    URLs are given to the browser; and every worker is started with an
    accepted URL and two times of day in the form HH:MM:SS.  As long as
    [trim_clip] has not run, no worker is started and nothing is opened in
    the browser, even when the link label shows a URL. *)
Theorem window_stays_ok (cs : list YTClipperApp.call) :
  exists a,
    YTClipperApp.perform_all cs YTClipperApp.init = inr a /\
    YTClipperApp.window_ok a /\
    (existsb YTClipperApp.is_trim_clip cs = false ->
     YTClipperApp.opened a = [] /\ YTClipperApp.workers a = []).
Proof.
  assert (H0 : YTClipperApp.window_ok YTClipperApp.init).
  { split; [now left|]. split; [constructor|]. split; [constructor|]. discriminate. }
  destruct (perform_all_keeps_window_ok cs _ H0) as (a & Hrun & Hok & H).
  exists a. split; [exact Hrun|]. split; [exact Hok|].
  intros Hno. destruct (H Hno eq_refl) as (_ & Ho & Hw). now split.
Qed.
